(** * caffe2nnir: the Caffe-to-NNIR graph construction pass

    A shallow embedding of [utils/model_compiler/python/caffe2nnir.py] and
    the properties of its name canonicaliser, attribute extractor, attribute
    converter, shape inference and main pass.

    Conventions of the embedding.
    - Python [int] is [Z]; [//] is [Z.div] (both round towards minus
      infinity); Python [float] is the binary64 type [float].
    - A [dict] is an association list in key order: [d[k] = v] overwrites in
      place or appends, [d.keys()] lists the keys in that order.  CPython 2
      iterates a dict in hash order; whenever a statement below speaks of the
      first key or of the order of keys it is the order of [keys].
    - Exceptions and [sys.exit(1)] are the [Err] outcomes of [result].
    - Tensor dimensions are integers: the input dimensions are taken as
      already converted by the [int(x)] the program applies to them, which
      is then the identity. *)

From Stdlib Require Import ZArith List String Ascii Bool Lia Floats.
Import ListNotations.
Open Scope string_scope.
Open Scope Z_scope.

Set Implicit Arguments.

(** ** Outcomes *)

(** The messages printed before [sys.exit(1)]. *)
Inductive fatal : Type :=
| UnsupportedListAttribute
| UnsupportedAttributeType (attr_name : string)
| UnsupportedOperation (layer_type : string)
| NoInputDimensions (layer_name : string)
| UnknownDimensions (input_name layer_name : string)
| UnsupportedCaffemodel.

(** Ways in which the program stops early. *)
Inductive exn : Type :=
| SysExit (msg : fatal)
| KeyError (key : string)
| IndexError
| ValueError
| TypeError
| ZeroDivisionError
| OverflowError.

Inductive result (A : Type) : Type :=
| Ok (a : A)
| Err (e : exn).

Arguments Ok {A} a.
Arguments Err {A} e.

Definition bind {A B : Type} (r : result A) (k : A -> result B) : result B :=
  match r with
  | Ok a => k a
  | Err e => Err e
  end.

Declare Scope result_scope.
Delimit Scope result_scope with result.
Notation "x <- r ;; k" := (bind r (fun x => k))
  (at level 100, r at next level, right associativity) : result_scope.
Notation "' p <- r ;; k" := (bind r (fun x => match x with p => k end))
  (at level 100, p pattern, r at next level, right associativity) : result_scope.
Open Scope result_scope.

Definition is_ok {A : Type} (r : result A) : bool :=
  match r with Ok _ => true | Err _ => false end.

Fixpoint mapM {A B : Type} (f : A -> result B) (l : list A) : result (list B) :=
  match l with
  | [] => Ok []
  | a :: l' => b <- f a ;; bs <- mapM f l' ;; Ok (b :: bs)
  end.

(** [l[i]] for a Python list. *)
Definition index {A : Type} (l : list A) (i : nat) : result A :=
  match nth_error l i with
  | Some a => Ok a
  | None => Err IndexError
  end.

(** [l[i] = v] for a Python list. *)
Fixpoint set_index {A : Type} (l : list A) (i : nat) (v : A) : result (list A) :=
  match l, i with
  | [], _ => Err IndexError
  | _ :: l', O => Ok (v :: l')
  | a :: l', S i' => r <- set_index l' i' v ;; Ok (a :: r)
  end.

(** ** Dictionaries with string keys *)

Definition dict (V : Type) : Type := list (string * V).

Fixpoint dict_get {V : Type} (k : string) (d : dict V) : option V :=
  match d with
  | [] => None
  | (k', v) :: d' => if String.eqb k k' then Some v else dict_get k d'
  end.

(** [k in d] *)
Definition dict_mem {V : Type} (k : string) (d : dict V) : bool :=
  match dict_get k d with Some _ => true | None => false end.

(** [d[k]] *)
Definition dict_lookup {V : Type} (k : string) (d : dict V) : result V :=
  match dict_get k d with
  | Some v => Ok v
  | None => Err (KeyError k)
  end.

(** [d[k] = v] *)
Fixpoint dict_set {V : Type} (k : string) (v : V) (d : dict V) : dict V :=
  match d with
  | [] => [(k, v)]
  | (k', v') :: d' =>
      if String.eqb k k' then (k, v) :: d' else (k', v') :: dict_set k v d'
  end.

(** [d.update(d2)] *)
Definition dict_update {V : Type} (d d2 : dict V) : dict V :=
  fold_left (fun acc kv => dict_set (fst kv) (snd kv) acc) d2 d.

(** [d.keys()] *)
Definition keys {V : Type} (d : dict V) : list string := map fst d.

(** ** Name canonicaliser *)

(** [s.split(sep)] for a one-character separator. *)
Fixpoint split (sep : ascii) (s : string) : list string :=
  match s with
  | EmptyString => [EmptyString]
  | String c r =>
      if Ascii.eqb c sep then EmptyString :: split sep r
      else match split sep r with
           | p :: ps => String c p :: ps
           | [] => [String c EmptyString]
           end
  end.

(** [sep.join(l)] *)
Definition join (sep : string) (l : list string) : string := String.concat sep l.

Definition caffe_name_to_ir_name (name : string) : string :=
  join "_" (split "-" (join "_" (split "/" name))).

(** ** Python floats and the conversions the program applies to them *)

(** [float(z)]: the nearest binary64 value; an int beyond the range raises. *)
Definition float_of_int (z : Z) : result float :=
  let f := SF2Prim (binary_normalize prec emax z 0 false) in
  if PrimFloat.is_infinity f then Err OverflowError else Ok f.

(** [int(f)]: truncation towards zero. *)
Definition int_of_float (f : float) : result Z :=
  match Prim2SF f with
  | S754_zero _ => Ok 0
  | S754_finite s m e =>
      let q := if 0 <=? e then Z.pos m * 2 ^ e else Z.pos m / 2 ^ (- e) in
      Ok (if s then - q else q)
  | S754_infinity _ => Err OverflowError
  | S754_nan => Err ValueError
  end.

(** [int(math.ceil(f))]: the least integer not below [f]. *)
Definition int_ceil (f : float) : result Z :=
  match Prim2SF f with
  | S754_zero _ => Ok 0
  | S754_finite s m e =>
      if 0 <=? e then Ok (if s then - (Z.pos m * 2 ^ e) else Z.pos m * 2 ^ e)
      else if s then Ok (- (Z.pos m / 2 ^ (- e)))
      else Ok (- ((- Z.pos m) / 2 ^ (- e)))
  | S754_infinity _ => Err OverflowError
  | S754_nan => Err ValueError
  end.

(** [float(a) / b] with [a], [b] ints: both operands go to binary64, a zero
    divisor raises. *)
Definition float_div_int (a b : Z) : result float :=
  fa <- float_of_int a ;;
  fb <- float_of_int b ;;
  if PrimFloat.eqb fb PrimFloat.zero then Err ZeroDivisionError
  else Ok (PrimFloat.div fa fb).

(** [a // b] on ints. *)
Definition floordiv (a b : Z) : result Z :=
  if b =? 0 then Err ZeroDivisionError else Ok (a / b).

(** ** Python values held by an attribute map *)

(** Elements of a list value. *)
Inductive pyelem : Type :=
| EInt (z : Z)
| EFloat (f : float)
| ENone.

Inductive pyval : Type :=
| PInt (z : Z)
| PFloat (f : float)
| PStr (s : string)
| PList (l : list pyelem)
| PNone.

Definition attribute_map : Type := dict pyval.

(** [int(v)] and [float(v)] on a list element. *)
Definition py_int (v : pyelem) : result Z :=
  match v with
  | EInt z => Ok z
  | EFloat f => int_of_float f
  | ENone => Err TypeError
  end.

Definition py_float (v : pyelem) : result float :=
  match v with
  | EInt z => float_of_int z
  | EFloat f => Ok f
  | ENone => Err TypeError
  end.

(** An element used as an operand of the integer shape arithmetic.  The
    extractor only produces ints there; any other operand is reported as a
    [TypeError]. *)
Definition as_int (v : pyelem) : result Z :=
  match v with
  | EInt z => Ok z
  | _ => Err TypeError
  end.

(** [attribute_map[key]] read as a list. *)
Definition attr_list (key : string) (am : attribute_map) : result (list pyelem) :=
  v <- dict_lookup key am ;;
  match v with
  | PList l => Ok l
  | _ => Err TypeError
  end.

(** [l[i]] used as an integer operand. *)
Definition int_at (l : list pyelem) (i : nat) : result Z :=
  e <- index l i ;; as_int e.

(** ** The IR sink (module [nnir]) *)

(** Values accepted by [IrAttr.set]. *)
Inductive irval : Type :=
| IrInt (z : Z)
| IrFloat (f : float)
| IrStr (s : string)
| IrInts (l : list Z)
| IrFloats (l : list float).

(** Modelled from the spec: [IrAttr] of module [nnir] is not among the
    sources; it is the mapping built by its [set] calls. *)
Definition IrAttr : Type := dict irval.

(** Modelled from the spec: [IrNode] of module [nnir] is not among the
    sources; [node.set(type, inputs, outputs, attr)] fills these fields. *)
Record IrNode : Type := mkIrNode {
  node_type : string;
  node_inputs : list string;
  node_outputs : list string;
  node_attr : IrAttr
}.

(** Modelled from the spec: [IrTensor] of module [nnir] is not among the
    sources; [setName] and [setInfo] fill these fields. *)
Record IrTensor : Type := mkIrTensor {
  tensor_name : string;
  tensor_type : string;
  tensor_shape : list Z
}.

(** Modelled from the spec: [IrGraph] of module [nnir] is not among the
    sources; the graph is the sequence of calls it has received, one list
    per operation, oldest first. *)
Record IrGraph : Type := mkIrGraph {
  graph_inputs : list IrTensor;
  graph_outputs : list IrTensor;
  graph_variables : list IrTensor;
  graph_binaries : list (string * list float);
  graph_nodes : list IrNode;
  graph_locals_updated : bool
}.

Definition empty_graph : IrGraph := mkIrGraph [] [] [] [] [] false.

Definition addInput (t : IrTensor) (g : IrGraph) : IrGraph :=
  mkIrGraph (graph_inputs g ++ [t]) (graph_outputs g) (graph_variables g)
            (graph_binaries g) (graph_nodes g) (graph_locals_updated g).

Definition addOutput (t : IrTensor) (g : IrGraph) : IrGraph :=
  mkIrGraph (graph_inputs g) (graph_outputs g ++ [t]) (graph_variables g)
            (graph_binaries g) (graph_nodes g) (graph_locals_updated g).

Definition addVariable (t : IrTensor) (g : IrGraph) : IrGraph :=
  mkIrGraph (graph_inputs g) (graph_outputs g) (graph_variables g ++ [t])
            (graph_binaries g) (graph_nodes g) (graph_locals_updated g).

Definition addBinary (name : string) (buf : list float) (g : IrGraph) : IrGraph :=
  mkIrGraph (graph_inputs g) (graph_outputs g) (graph_variables g)
            (graph_binaries g ++ [(name, buf)]) (graph_nodes g)
            (graph_locals_updated g).

Definition addNode (n : IrNode) (g : IrGraph) : IrGraph :=
  mkIrGraph (graph_inputs g) (graph_outputs g) (graph_variables g)
            (graph_binaries g) (graph_nodes g ++ [n]) (graph_locals_updated g).

Definition updateLocals (g : IrGraph) : IrGraph :=
  mkIrGraph (graph_inputs g) (graph_outputs g) (graph_variables g)
            (graph_binaries g) (graph_nodes g) true.

(** ** The decoded model (module [caffe_pb2]) *)

(** An optional scalar field: [Some v] when [HasField] holds. *)
Record ConvolutionParameter : Type := mkConvolutionParameter {
  conv_num_output : Z;
  conv_bias_term : bool;
  conv_pad : list Z;
  conv_kernel_size : list Z;
  conv_stride : list Z;
  conv_dilation : list Z;
  conv_pad_h : option Z;
  conv_pad_w : option Z;
  conv_kernel_h : option Z;
  conv_kernel_w : option Z;
  conv_stride_h : option Z;
  conv_stride_w : option Z;
  conv_group : option Z
}.

Inductive PoolMethod : Type := MAX | AVE | STOCHASTIC.

Record PoolingParameter : Type := mkPoolingParameter {
  pool_pool : PoolMethod;
  pool_pad : Z;
  pool_kernel_size : Z;
  pool_stride : Z;
  pool_pad_h : option Z;
  pool_pad_w : option Z;
  pool_kernel_h : option Z;
  pool_kernel_w : option Z;
  pool_stride_h : option Z;
  pool_stride_w : option Z;
  pool_global_pooling : bool
}.

Record LRNParameter : Type := mkLRNParameter {
  lrn_local_size : Z;
  lrn_alpha : float;
  lrn_beta : float;
  lrn_k : float
}.

Record InnerProductParameter : Type := mkInnerProductParameter {
  ip_num_output : Z;
  ip_bias_term : bool
}.

Record LayerParameter : Type := mkLayerParameter {
  lp_name : string;
  lp_type : string;
  lp_bottom : list string;
  lp_top : list string;
  lp_blobs : list (list float);
  convolution_param : ConvolutionParameter;
  pooling_param : PoolingParameter;
  lrn_param : LRNParameter;
  batch_norm_eps : float;
  inner_product_param : InnerProductParameter;
  relu_negative_slope : float
}.

Record NetParameter : Type := mkNetParameter {
  net_input : list string;
  net_layer : list LayerParameter
}.

(** ** Operator table *)

Definition caffe2ir_op_type : dict string :=
  [ ("Convolution", "conv");
    ("Deconvolution", "conv_transpose");
    ("BatchNorm", "batch_norm");
    ("InnerProduct", "gemm");
    ("ReLU", "relu");
    ("LRN", "lrn");
    ("Eltwise", "sum");
    ("Concat", "concat");
    ("Softmax", "softmax");
    ("SoftmaxWithLoss", "softmax") ].

(** ** Tensors and binaries *)

Definition dims : Type := list Z.

Definition caffe_blob_to_ir_tensor (blob_name blob_data_type : string)
    (blob_shape : dims) : IrTensor :=
  mkIrTensor (caffe_name_to_ir_name blob_name) blob_data_type blob_shape.

(** [struct.pack] lays the floats out one after the other; the buffer is
    kept as that sequence of floats. *)
Definition convert_caffe_bin_to_ir_bin (floatlist : list float) : list float :=
  floatlist.

(** ** Attribute converter *)

Definition convert_attr (name : string) (attributeInfo : pyval) (attr : IrAttr)
    : result IrAttr :=
  match attributeInfo with
  | PFloat f => Ok (dict_set name (IrFloat f) attr)
  | PInt z => Ok (dict_set name (IrInt z) attr)
  | PStr s => Ok (dict_set name (IrStr s) attr)
  | PList l =>
      first <- index l 0 ;;
      match first with
      | EInt _ => vs <- mapM py_int l ;; Ok (dict_set name (IrInts vs) attr)
      | EFloat _ => vs <- mapM py_float l ;; Ok (dict_set name (IrFloats vs) attr)
      | ENone => Err (SysExit UnsupportedListAttribute)
      end
  | PNone => Err (SysExit (UnsupportedAttributeType name))
  end.

Fixpoint convert_attrs (entries : list (string * pyval)) (attr : IrAttr)
    : result IrAttr :=
  match entries with
  | [] => Ok attr
  | (name, v) :: rest => attr' <- convert_attr name v attr ;; convert_attrs rest attr'
  end.

Definition caffe_attr_to_ir_attr (am : attribute_map) : result IrAttr :=
  convert_attrs am [].

(** ** Attribute extractor *)

(** [x if HasField else (int(arr[i]) if len(arr) > i else d)] *)
Definition field_or {A : Type} (field : option A) (arr : list A) (i : nat) (d : A) : A :=
  match field with
  | Some v => v
  | None => match nth_error arr i with Some v => v | None => d end
  end.

Definition field_else {A : Type} (field : option A) (d : A) : A :=
  match field with Some v => v | None => d end.

Definition int_list (l : list Z) : pyval := PList (map EInt l).

Definition extractCaffeAttrInfo (layer_param : LayerParameter) : attribute_map :=
  let layer_type := lp_type layer_param in
  if (layer_type =? "Convolution")%string || (layer_type =? "Deconvolution")%string then
    let conv := convolution_param layer_param in
    let pad_h := field_or (conv_pad_h conv) (conv_pad conv) 0 0 in
    let pad_w := field_or (conv_pad_w conv) (conv_pad conv) 1 pad_h in
    let stride_h := field_or (conv_stride_h conv) (conv_stride conv) 0 1 in
    let stride_w := field_or (conv_stride_w conv) (conv_stride conv) 1 stride_h in
    let kernel_h := field_or (conv_kernel_h conv) (conv_kernel_size conv) 0 0 in
    let kernel_w := field_or (conv_kernel_w conv) (conv_kernel_size conv) 1 kernel_h in
    let dilation_h := field_or None (conv_dilation conv) 0 1 in
    let dilation_w := field_or None (conv_dilation conv) 1 dilation_h in
    let groups := field_else (conv_group conv) 1 in
    dict_set "dilations" (int_list [dilation_w; dilation_h])
      (dict_set "pads" (int_list [pad_w; pad_h; pad_w; pad_h])
        (dict_set "group" (PInt groups)
          (dict_set "kernel_shape" (int_list [kernel_w; kernel_h])
            (dict_set "strides" (int_list [stride_w; stride_h]) []))))
  else if (layer_type =? "Pooling")%string then
    let pooling := pooling_param layer_param in
    let pad_h := field_else (pool_pad_h pooling) (pool_pad pooling) in
    let pad_w := field_else (pool_pad_w pooling) (pool_pad pooling) in
    let stride_h := field_else (pool_stride_h pooling) (pool_stride pooling) in
    let stride_w := field_else (pool_stride_w pooling) (pool_stride pooling) in
    let kernel_h := field_else (pool_kernel_h pooling) (pool_kernel_size pooling) in
    let kernel_w := field_else (pool_kernel_w pooling) (pool_kernel_size pooling) in
    dict_set "dim_round_mode" (PStr "ceil")
      (dict_set "pads" (int_list [pad_w; pad_h; pad_w; pad_h])
        (dict_set "kernel_shape" (int_list [kernel_w; kernel_h])
          (dict_set "strides" (int_list [stride_w; stride_h]) [])))
  else if (layer_type =? "LRN")%string then
    let lrn := lrn_param layer_param in
    dict_set "bias" (PFloat (lrn_k lrn))
      (dict_set "size" (PInt (lrn_local_size lrn))
        (dict_set "beta" (PFloat (lrn_beta lrn))
          (dict_set "alpha" (PFloat (lrn_alpha lrn)) [])))
  else if (layer_type =? "BatchNorm")%string then
    dict_set "epsilon" (PFloat (batch_norm_eps layer_param)) []
  else if (layer_type =? "InnerProduct")%string then
    dict_set "transB" (PInt 1) (dict_set "broadcast" (PInt 1) [])
  else if (layer_type =? "ReLU")%string then
    dict_set "alpha" (PFloat (relu_negative_slope layer_param)) []
  else [].

(** ** Shape inference *)

(** [n, c, h, w = x] *)
Definition unpack4 (x : dims) : result (Z * Z * Z * Z) :=
  match x with
  | [n; c; h; w] => Ok (n, c, h, w)
  | _ => Err ValueError
  end.

(** [input_map[inputs[0]]] with [inputs = input_map.keys()] *)
Definition first_input (input_map : dict dims) : result dims :=
  k <- index (keys input_map) 0 ;; dict_lookup k input_map.

(** [int(math.ceil(float(num) / stride))] *)
Definition ceil_div (num stride : Z) : result Z :=
  q <- float_div_int num stride ;; int_ceil q.

(** One axis of the pooling rule: the rounded-up size, less one when the last
    window would start in the padding. *)
Definition pooling_trim (out size pad stride : Z) : Z :=
  if 0 <? pad then
    if size + pad <=? (out - 1) * stride then out - 1 else out
  else out.

(** The sum of the channel counts of all inputs, in key order. *)
Fixpoint concat_channels (inputs : list string) (input_map : dict dims) (acc : Z)
    : result Z :=
  match inputs with
  | [] => Ok acc
  | k :: rest =>
      x <- dict_lookup k input_map ;;
      '(_, c, _, _) <- unpack4 x ;;
      concat_channels rest input_map (acc + c)
  end.

(** The weight and bias entries of [dimList], added in that order. *)
Definition with_params (weight_dims : dims) (bias_term : bool) : dict dims :=
  let dimList := dict_set "weights" weight_dims [] in
  if bias_term then
    dict_set "bias" [nth 0 weight_dims 0] dimList
  else dimList.

(** [calculateTensorDims] returns [dimList]; since it writes into the lists
    held by [attribute_map], which the caller keeps using, the attribute map
    as it stands after the call is returned as well.  The three lists read
    from the map are taken to be distinct objects, as the extractor builds
    them. *)
Definition calculateTensorDims (layer_param : LayerParameter)
    (input_map : dict dims) (am : attribute_map)
    : result (dict dims * attribute_map) :=
  let type := lp_type layer_param in
  if (type =? "Convolution")%string then
    strides <- attr_list "strides" am ;;
    pads <- attr_list "pads" am ;;
    dilations <- attr_list "dilations" am ;;
    kernel_shape <- attr_list "kernel_shape" am ;;
    x <- first_input input_map ;;
    '(n, c, h, w) <- unpack4 x ;;
    p0 <- int_at pads 0 ;; k0 <- int_at kernel_shape 0 ;;
    d0 <- int_at dilations 0 ;; s0 <- int_at strides 0 ;;
    q3 <- floordiv (w + 2 * p0 - k0 - (k0 - 1) * (d0 - 1)) s0 ;;
    p1 <- int_at pads 1 ;; k1 <- int_at kernel_shape 1 ;;
    d1 <- int_at dilations 1 ;; s1 <- int_at strides 1 ;;
    q2 <- floordiv (h + 2 * p1 - k1 - (k1 - 1) * (d1 - 1)) s1 ;;
    let output_dims :=
      [n; conv_num_output (convolution_param layer_param); q2 + 1; q3 + 1] in
    let weight_dims := [conv_num_output (convolution_param layer_param); c; k1; k0] in
    let dimList := with_params weight_dims (conv_bias_term (convolution_param layer_param)) in
    Ok (dict_set "output" output_dims dimList, am)
  else if (type =? "Deconvolution")%string then
    strides <- attr_list "strides" am ;;
    pads <- attr_list "pads" am ;;
    dilations <- attr_list "dilations" am ;;
    kernel_shape <- attr_list "kernel_shape" am ;;
    x <- first_input input_map ;;
    '(n, c, h, w) <- unpack4 x ;;
    s0 <- int_at strides 0 ;; d0 <- int_at dilations 0 ;;
    k0 <- int_at kernel_shape 0 ;; p0 <- int_at pads 0 ;;
    s1 <- int_at strides 1 ;; d1 <- int_at dilations 1 ;;
    k1 <- int_at kernel_shape 1 ;; p1 <- int_at pads 1 ;;
    let output_dims :=
      [n; conv_num_output (convolution_param layer_param);
       s1 * (h - 1) + d1 * (k1 - 1) + 1 - 2 * p1;
       s0 * (w - 1) + d0 * (k0 - 1) + 1 - 2 * p0] in
    let weight_dims := [conv_num_output (convolution_param layer_param); c; k1; k0] in
    let dimList := with_params weight_dims (conv_bias_term (convolution_param layer_param)) in
    Ok (dict_set "output" output_dims dimList, am)
  else if (type =? "Pooling")%string then
    strides <- attr_list "strides" am ;;
    pads <- attr_list "pads" am ;;
    kernel_shape <- attr_list "kernel_shape" am ;;
    x <- first_input input_map ;;
    '(n, c, h, w) <- unpack4 x ;;
    '(strides, pads, kernel_shape, am) <-
      (if pool_global_pooling (pooling_param layer_param) then
         kernel_shape <- set_index kernel_shape 1 (EInt h) ;;
         kernel_shape <- set_index kernel_shape 0 (EInt w) ;;
         pads <- set_index pads 0 (EInt 0) ;;
         pads <- set_index pads 1 (EInt 0) ;;
         strides <- set_index strides 0 (EInt 1) ;;
         strides <- set_index strides 1 (EInt 1) ;;
         Ok (strides, pads, kernel_shape,
             dict_set "strides" (PList strides)
               (dict_set "pads" (PList pads)
                 (dict_set "kernel_shape" (PList kernel_shape) am)))
       else Ok (strides, pads, kernel_shape, am)) ;;
    p0 <- int_at pads 0 ;; s0 <- int_at strides 0 ;; k0 <- int_at kernel_shape 0 ;;
    o3 <- ceil_div (w + 2 * p0 + s0 - k0) s0 ;;
    p1 <- int_at pads 1 ;; s1 <- int_at strides 1 ;; k1 <- int_at kernel_shape 1 ;;
    o2 <- ceil_div (h + 2 * p1 + s1 - k1) s1 ;;
    let o2 := pooling_trim o2 h p1 s1 in
    let o3 := pooling_trim o3 w p0 s0 in
    Ok (dict_set "output" [n; c; o2; o3] [], am)
  else if (type =? "InnerProduct")%string then
    x <- first_input input_map ;;
    '(n, c, h, w) <- unpack4 x ;;
    let num_output := ip_num_output (inner_product_param layer_param) in
    let dimList := with_params [num_output; c; h; w]
                     (ip_bias_term (inner_product_param layer_param)) in
    Ok (dict_set "output" [n; num_output; 1; 1] dimList, am)
  else if (type =? "Concat")%string then
    c_sum <- concat_channels (keys input_map) input_map 0 ;;
    x <- first_input input_map ;;
    '(n, c, h, w) <- unpack4 x ;;
    Ok (dict_set "output" [n; c_sum; h; w] [], am)
  else if (type =? "BatchNorm")%string || (type =? "Scale")%string then
    x <- first_input input_map ;;
    '(n, c, h, w) <- unpack4 x ;;
    let dimList := if (0 <? List.length (lp_blobs layer_param))%nat
                   then dict_set "weights" [c] [] else [] in
    let dimList := if (1 <? List.length (lp_blobs layer_param))%nat
                   then dict_set "bias" [c] dimList else dimList in
    Ok (dict_set "output" [n; c; h; w] dimList, am)
  else
    x <- first_input input_map ;;
    '(n, c, h, w) <- unpack4 x ;;
    Ok (dict_set "output" [n; c; h; w] [], am).

(** ** Layer records *)

(** The [layer_info_map] of one recorded layer.  Keys that the program may
    leave out are options. *)
Record LayerInfo : Type := mkLayerInfo {
  info_layer_name : string;
  info_layer_type : option string;
  info_attributes : attribute_map;
  info_inputs : dict dims;
  info_outputs : dict dims;
  info_weights : option (dict dims);
  info_biases : option (dict dims);
  info_scale_weights : option (dict dims);
  info_scale_bias : option (dict dims)
}.

(** [layer_info_map["layer_type"]] *)
Definition get_layer_type (info : LayerInfo) : result string :=
  match info_layer_type info with
  | Some t => Ok t
  | None => Err (KeyError "layer_type")
  end.

Definition opt_map (m : option (dict dims)) : dict dims :=
  match m with Some d => d | None => [] end.

Definition caffe_node_to_ir_node (layer_type : string) (info : LayerInfo)
    : result IrNode :=
  let input_map := info_inputs info in
  let output_map := info_outputs info in
  let scale_map_w := opt_map (info_scale_weights info) in
  let scale_map_b := opt_map (info_scale_bias info) in
  let weight_map := opt_map (info_weights info) in
  let bias_map := opt_map (info_biases info) in
  let inputs := (keys input_map ++ keys scale_map_w ++ keys scale_map_b
                 ++ keys weight_map ++ keys bias_map)%list in
  let outputs := keys output_map in
  attr <- caffe_attr_to_ir_attr (info_attributes info) ;;
  Ok (mkIrNode layer_type (map caffe_name_to_ir_name inputs)
               (map caffe_name_to_ir_name outputs) attr).

Definition extractBinary (layer_param : LayerParameter) (graph : IrGraph) : IrGraph :=
  let layer_name := caffe_name_to_ir_name (lp_name layer_param) in
  let graph :=
    match nth_error (lp_blobs layer_param) 0 with
    | Some data =>
        addBinary (caffe_name_to_ir_name (layer_name ++ "_w"))
                  (convert_caffe_bin_to_ir_bin data) graph
    | None => graph
    end in
  match nth_error (lp_blobs layer_param) 1 with
  | Some data =>
      addBinary (caffe_name_to_ir_name (layer_name ++ "_b"))
                (convert_caffe_bin_to_ir_bin data) graph
  | None => graph
  end.

(** ** Boundary extractors *)

Definition is_placeholder (layer_type : string) : bool :=
  ((layer_type =? "Data") || (layer_type =? "Input") || (layer_type =? "ImageData"))%string.

Definition extractInput (net_parameter : NetParameter) (graph : IrGraph)
    (input_dims : dims) : result (dict dims * IrGraph) :=
  first_layer_param <- index (net_layer net_parameter) 0 ;;
  input_name <-
    match net_input net_parameter with
    | name :: _ => Ok (caffe_name_to_ir_name name)
    | [] =>
        if is_placeholder (lp_type first_layer_param) then
          match lp_top first_layer_param with
          | [] => Ok (caffe_name_to_ir_name (lp_name first_layer_param))
          | t :: _ => Ok (caffe_name_to_ir_name t)
          end
        else
          match lp_bottom first_layer_param with
          | [] => t <- index (lp_top first_layer_param) 0 ;;
                  Ok (caffe_name_to_ir_name t)
          | b :: _ => Ok (caffe_name_to_ir_name b)
          end
    end ;;
  Ok (dict_set input_name input_dims [],
      addInput (caffe_blob_to_ir_tensor input_name "F032" input_dims) graph).

Definition extractOutput (graph : IrGraph) (inputOutputLayers : list LayerInfo)
    : result (dict dims * IrGraph) :=
  last_layer_info <-
    match List.length inputOutputLayers with
    | O => Err (KeyError "-1")
    | S last_layer_index => index inputOutputLayers last_layer_index
    end ;;
  let output_map := info_outputs last_layer_info in
  output_name <- index (keys output_map) 0 ;;
  output_dims <- dict_lookup output_name output_map ;;
  Ok (dict_set output_name output_dims [],
      addOutput (caffe_blob_to_ir_tensor output_name "F032" output_dims) graph).

(** ** The main pass *)

(** The variables of [extractCaffeNodeInfo] that live across iterations.
    [inputOutputMap] has the keys [0 .. count-1]; it is kept as the list of
    its values and [count] is its length. *)
Record PassState : Type := mkPassState {
  inputOutputMap : list LayerInfo;
  dropoutLayerMap : dict string;
  splitLayerMap : dict string;
  outputNameAliasMap : dict string;
  inputsMap : dict dims;
  outputsMap : dict dims;
  graph : IrGraph
}.

Definition count (st : PassState) : nat := List.length (inputOutputMap st).

Definition initial_state (g : IrGraph) : PassState :=
  mkPassState [] [] [] [] [] [] g.

(** [inputOutputMap[count - 1]] *)
Definition previous_layer (st : PassState) : result LayerInfo :=
  match nth_error (inputOutputMap st) (count st - 1) with
  | Some info => Ok info
  | None => Err (KeyError "count - 1")
  end.

(** [m[name] if name in m else name] *)
Definition through (m : dict string) (name : string) : string :=
  match dict_get name m with Some n => n | None => name end.

(** The three table look-ups applied to an input name, one after the other. *)
Definition alias_chain (st : PassState) (name : string) : string :=
  through (dropoutLayerMap st)
    (through (splitLayerMap st)
      (through (outputNameAliasMap st) name)).

(** Input resolution of the first recorded layer. *)
Fixpoint first_layer_inputs (inputsInfo : dict dims) (layer_name : string)
    (inputs : list string) (input_info_map : dict dims) : result (dict dims) :=
  match inputs with
  | [] => Ok input_info_map
  | input :: rest =>
      let in_name := caffe_name_to_ir_name input in
      if dict_mem input inputsInfo then
        d <- dict_lookup in_name inputsInfo ;;
        first_layer_inputs inputsInfo layer_name rest (dict_set in_name d input_info_map)
      else Err (SysExit (NoInputDimensions layer_name))
  end.

(** Input resolution of every later layer; [k] is the position of the head
    of [inputs] in the layer's bottom list. *)
Fixpoint later_layer_inputs (st : PassState) (layer_type layer_name : string)
    (inputs : list string) (k : nat) (input_info_map : dict dims)
    : result (dict dims) :=
  match inputs with
  | [] => Ok input_info_map
  | input :: rest =>
      previous_layer_info <- previous_layer st ;;
      let prevOutMap := info_outputs previous_layer_info in
      let input_name := alias_chain st (caffe_name_to_ir_name input) in
      let continue := later_layer_inputs st layer_type layer_name rest (S k) in
      match dict_get input_name prevOutMap with
      | Some d => continue (dict_set input_name d input_info_map)
      | None =>
      match dict_get input_name (outputsMap st) with
      | Some d => continue (dict_set input_name d input_info_map)
      | None =>
      match dict_get input_name (inputsMap st) with
      | Some d => continue (dict_set input_name d input_info_map)
      | None =>
      match dict_get input_name (dropoutLayerMap st) with
      | Some src =>
          d <- dict_lookup src (outputsMap st) ;;
          continue (dict_set src d input_info_map)
      | None =>
      match dict_get input_name (splitLayerMap st) with
      | Some src =>
          d <- dict_lookup src prevOutMap ;;
          continue (dict_set src d input_info_map)
      | None =>
          if ((layer_type =? "Softmax") || (layer_type =? "SoftmaxWithLoss"))%string
             && negb (k =? 0)%nat
          then Ok input_info_map
          else
            match dict_get input_name (outputNameAliasMap st) with
            | Some src =>
                d <- dict_lookup src prevOutMap ;;
                continue (dict_set src d input_info_map)
            | None => Err (SysExit (UnknownDimensions input_name layer_name))
            end
      end end end end end
  end.

(** [attribute_map["alpha"] != 0] *)
Definition alpha_nonzero (am : attribute_map) : result bool :=
  v <- dict_lookup "alpha" am ;;
  match v with
  | PFloat f => Ok (negb (PrimFloat.eqb f PrimFloat.zero))
  | PInt z => Ok (negb (z =? 0))
  | _ => Ok true
  end.

(** Registers the variable [name] of shape [dimList[key]] when the key is
    there; gives back the one-entry map stored in the layer record. *)
Definition add_param (dimList : dict dims) (key name : string) (g : IrGraph)
    : option (dict dims) * IrGraph :=
  match dict_get key dimList with
  | Some d => (Some (dict_set name d []),
               addVariable (caffe_blob_to_ir_tensor name "F032" d) g)
  | None => (None, g)
  end.

(** [outputNameAliasMap[canon(outputs[0])] = layer_name] unless the two are equal. *)
Definition alias_output (output layer_name : string) (m : dict string) : dict string :=
  if (layer_name =? caffe_name_to_ir_name output)%string then m
  else dict_set (caffe_name_to_ir_name output) layer_name m.

(** The body of the branch that folds a Scale layer into the batch_norm
    record before it. *)
Definition fuse_scale (layer_param : LayerParameter) (prev_layer_info : LayerInfo)
    (st : PassState) : result PassState :=
  let layer_name := caffe_name_to_ir_name (lp_name layer_param) in
  let g := extractBinary layer_param (graph st) in
  '(dimList, _) <- calculateTensorDims layer_param (info_inputs prev_layer_info)
                     (info_attributes prev_layer_info) ;;
  out <- dict_lookup "output" dimList ;;
  let modified_out_info_map := dict_set layer_name out [] in
  let outputsMap' := dict_update (outputsMap st) modified_out_info_map in
  let '(scale_weights_map, g) := add_param dimList "weights" (layer_name ++ "_w") g in
  let '(scale_bias_map, g) := add_param dimList "bias" (layer_name ++ "_b") g in
  output0 <- index (lp_top layer_param) 0 ;;
  let alias' := alias_output output0 layer_name (outputNameAliasMap st) in
  prev_type <- get_layer_type prev_layer_info ;;
  let prev_layer_info :=
    mkLayerInfo layer_name (info_layer_type prev_layer_info)
      (info_attributes prev_layer_info) (info_inputs prev_layer_info)
      modified_out_info_map
      (info_weights prev_layer_info) (info_biases prev_layer_info)
      (match scale_weights_map with
       | Some m => Some m | None => info_scale_weights prev_layer_info end)
      (match scale_bias_map with
       | Some m => Some m | None => info_scale_bias prev_layer_info end) in
  node <- caffe_node_to_ir_node prev_type prev_layer_info ;;
  Ok (mkPassState
        (removelast (inputOutputMap st) ++ [prev_layer_info])%list
        (dropoutLayerMap st) (splitLayerMap st) alias'
        (inputsMap st) outputsMap' (addNode node g)).

(** How the operator type of a layer is settled: the layer was folded into
    the record before it and the iteration is over, or the iteration goes on
    with [layer_info_map["layer_type"]] set or left out. *)
Inductive resolution : Type :=
| Fused (st : PassState)
| Typed (layer_type : option string).

Definition resolve_type (num_layers : nat) (layer_param : LayerParameter)
    (st : PassState) : result resolution :=
  let layer_type := lp_type layer_param in
  match dict_get layer_type caffe2ir_op_type with
  | Some t => Ok (Typed (Some t))
  | None =>
      if (layer_type =? "Pooling")%string then
        match pool_pool (pooling_param layer_param) with
        | MAX => Ok (Typed (Some "max_pool"))
        | _ => Ok (Typed (Some "avg_pool"))
        end
      else if (layer_type =? "Scale")%string then
        if (0 <? count st)%nat && (count st <? num_layers)%nat then
          prev_layer_info <- previous_layer st ;;
          prev_layer_type <- get_layer_type prev_layer_info ;;
          if (prev_layer_type =? "batch_norm")%string then
            st' <- fuse_scale layer_param prev_layer_info st ;;
            Ok (Fused st')
          else
            Ok (Typed (Some (if (List.length (lp_blobs layer_param) =? 1)%nat
                             then "mul" else "muladd")))
        else Ok (Typed None)
      else Err (SysExit (UnsupportedOperation layer_type))
  end.

(** The input resolution of one layer: against the declared network input
    while nothing is recorded yet, against the tables afterwards. *)
Definition resolve_inputs (inputsInfo : dict dims) (layer_param : LayerParameter)
    (st : PassState) : result (dict dims) :=
  let layer_name := caffe_name_to_ir_name (lp_name layer_param) in
  if (count st =? 0)%nat
  then first_layer_inputs inputsInfo layer_name (lp_bottom layer_param) []
  else later_layer_inputs st (lp_type layer_param) layer_name
                          (lp_bottom layer_param) 0 [].

(** [i < len(layers) - 1 and layers[i+1].type == "Scale"] *)
Definition followed_by_scale (next : option LayerParameter) : bool :=
  match next with
  | Some next_layer_param => (lp_type next_layer_param =? "Scale")%string
  | None => false
  end.

(** The rest of an iteration once the operator type is settled: attributes,
    inputs, shapes, variables, the record, and the node unless it is a
    batch_norm whose next layer is a Scale. *)
Definition record_layer (inputsInfo : dict dims) (layer_param : LayerParameter)
    (next : option LayerParameter) (layer_type_ir : option string)
    (st : PassState) : result PassState :=
  let layer_name := caffe_name_to_ir_name (lp_name layer_param) in
  let layer_type := lp_type layer_param in
  let outputs := lp_top layer_param in
  let attribute_map := extractCaffeAttrInfo layer_param in
  layer_type_ir <-
    (if (layer_type =? "ReLU")%string then
       nz <- alpha_nonzero attribute_map ;;
       Ok (if nz then Some "leaky_relu" else layer_type_ir)
     else Ok layer_type_ir) ;;
  input_info_map <- resolve_inputs inputsInfo layer_param st ;;
  let inputsMap' := dict_update (inputsMap st) input_info_map in
  '(dimList, attribute_map) <-
     calculateTensorDims layer_param input_info_map attribute_map ;;
  let alias' :=
    match outputs with
    | output0 :: _ =>
        if (caffe_name_to_ir_name layer_name =? caffe_name_to_ir_name output0)%string
        then outputNameAliasMap st
        else dict_set (caffe_name_to_ir_name output0)
                      (caffe_name_to_ir_name layer_name) (outputNameAliasMap st)
    | [] => outputNameAliasMap st
    end in
  out <- dict_lookup "output" dimList ;;
  let output_info_map := dict_set layer_name out [] in
  let outputsMap' := dict_update (outputsMap st) output_info_map in
  let g := extractBinary layer_param (graph st) in
  let '(weights_map, g) := add_param dimList "weights" (layer_name ++ "_w") g in
  let '(bias_map, g) := add_param dimList "bias" (layer_name ++ "_b") g in
  let layer_info_map :=
    mkLayerInfo layer_name layer_type_ir attribute_map input_info_map
                output_info_map weights_map bias_map None None in
  let inputOutputMap' := (inputOutputMap st ++ [layer_info_map])%list in
  let st' := mkPassState inputOutputMap' (dropoutLayerMap st) (splitLayerMap st)
                         alias' inputsMap' outputsMap' in
  t <- get_layer_type layer_info_map ;;
  if (t =? "batch_norm")%string && followed_by_scale next then Ok (st' g)
  else
    node <- caffe_node_to_ir_node t layer_info_map ;;
    Ok (st' (addNode node g)).

(** One iteration of the loop over the layers.  [next] is [layers[i+1]]
    when [i < len(layers) - 1]. *)
Definition process_layer (num_layers : nat) (inputsInfo : dict dims)
    (layer_param : LayerParameter) (next : option LayerParameter)
    (st : PassState) : result PassState :=
  let layer_type := lp_type layer_param in
  let inputs := lp_bottom layer_param in
  let outputs := lp_top layer_param in
  if ((layer_type =? "Data") || (layer_type =? "ImageData") || (layer_type =? "Input"))%string
  then Ok st
  else if (layer_type =? "Dropout")%string then
    input0 <- index inputs 0 ;;
    let in_name := through (outputNameAliasMap st) (caffe_name_to_ir_name input0) in
    output0 <- index outputs 0 ;;
    Ok (mkPassState (inputOutputMap st)
          (dict_set (caffe_name_to_ir_name output0) in_name (dropoutLayerMap st))
          (splitLayerMap st) (outputNameAliasMap st)
          (inputsMap st) (outputsMap st) (graph st))
  else if (layer_type =? "Split")%string then
    input0 <- index inputs 0 ;;
    let in_name := through (outputNameAliasMap st) (caffe_name_to_ir_name input0) in
    Ok (mkPassState (inputOutputMap st) (dropoutLayerMap st)
          (fold_left (fun m output => dict_set (caffe_name_to_ir_name output) in_name m)
                     outputs (splitLayerMap st))
          (outputNameAliasMap st) (inputsMap st) (outputsMap st) (graph st))
  else
    r <- resolve_type num_layers layer_param st ;;
    match r with
    | Fused st' => Ok st'
    | Typed layer_type_ir => record_layer inputsInfo layer_param next layer_type_ir st
    end.

(** The loop [for i in range(len(layers))] over the layers not yet visited. *)
Fixpoint process_layers (num_layers : nat) (inputsInfo : dict dims)
    (layers : list LayerParameter) (st : PassState) : result PassState :=
  match layers with
  | [] => Ok st
  | layer_param :: rest =>
      st' <- process_layer num_layers inputsInfo layer_param (hd_error rest) st ;;
      process_layers num_layers inputsInfo rest st'
  end.

Definition finish (st : PassState) : PassState :=
  mkPassState (inputOutputMap st) (dropoutLayerMap st) (splitLayerMap st)
              (outputNameAliasMap st) (inputsMap st) (outputsMap st)
              (updateLocals (graph st)).

Definition extractCaffeNodeInfo (net_parameter : NetParameter) (g : IrGraph)
    (inputsInfo : dict dims) : result PassState :=
  let layers := net_layer net_parameter in
  st <- process_layers (List.length layers) inputsInfo layers (initial_state g) ;;
  Ok (finish st).

Definition caffe_graph_to_ir_graph (net_parameter : NetParameter) (input_dims : dims)
    : result IrGraph :=
  '(inputMap, g) <- extractInput net_parameter empty_graph input_dims ;;
  st <- extractCaffeNodeInfo net_parameter g inputMap ;;
  '(_, g) <- extractOutput (graph st) (inputOutputMap st) ;;
  Ok g.

Definition caffe2ir (net_parameter : NetParameter) (input_dims : dims)
    : result IrGraph :=
  match net_layer net_parameter with
  | [] => Err (SysExit UnsupportedCaffemodel)
  | _ => caffe_graph_to_ir_graph net_parameter input_dims
  end.

(** ** Sample layers

    Field values of a freshly decoded message, as [caffe.proto] declares
    them, and layers built on them. *)

Definition default_convolution_param : ConvolutionParameter :=
  mkConvolutionParameter 0 true [] [] [] [] None None None None None None None.

Definition default_pooling_param : PoolingParameter :=
  mkPoolingParameter MAX 0 0 1 None None None None None None false.

Definition default_lrn_param : LRNParameter :=
  mkLRNParameter 5 1%float 0.75%float 1%float.

Definition default_inner_product_param : InnerProductParameter :=
  mkInnerProductParameter 0 true.

Definition plain_layer (name type : string) (bottom top : list string)
    (blobs : list (list float)) : LayerParameter :=
  mkLayerParameter name type bottom top blobs
    default_convolution_param default_pooling_param default_lrn_param
    0x1.4f8b588e368f1p-17%float default_inner_product_param 0%float.

Definition conv_layer (name : string) (bottom top : list string)
    (blobs : list (list float)) (conv : ConvolutionParameter) : LayerParameter :=
  mkLayerParameter name "Convolution" bottom top blobs
    conv default_pooling_param default_lrn_param
    0x1.4f8b588e368f1p-17%float default_inner_product_param 0%float.

Definition pooling_layer (name : string) (bottom top : list string)
    (pooling : PoolingParameter) : LayerParameter :=
  mkLayerParameter name "Pooling" bottom top []
    default_convolution_param pooling default_lrn_param
    0x1.4f8b588e368f1p-17%float default_inner_product_param 0%float.

(** A 7x7 convolution, stride 2, pad 3, 64 outputs. *)
Definition conv_7x7_s2_p3 : LayerParameter :=
  conv_layer "conv1" ["data"] ["conv1"] []
    (mkConvolutionParameter 64 true [3] [7] [2] [] None None None None None None None).

(** Pooling with one kernel size, stride and pad for both axes. *)
Definition square_pooling (name : string) (bottom top : list string)
    (method : PoolMethod) (kernel stride pad : Z) (global_pooling : bool)
    : LayerParameter :=
  pooling_layer name bottom top
    (mkPoolingParameter method pad kernel stride None None None None None None
                        global_pooling).

(** A model whose first operator layer is a Scale with one blob. *)
Definition scale_first_net : NetParameter :=
  mkNetParameter []
    [ plain_layer "data" "Input" [] ["data"] [];
      plain_layer "scale1" "Scale" ["data"] ["scale1"] [[2%float]] ].

(** A model whose input blob is called [data-in]. *)
Definition dashed_input_net : NetParameter :=
  mkNetParameter []
    [ plain_layer "data" "Input" [] ["data-in"] [];
      conv_layer "conv1" ["data-in"] ["conv1"] [[1%float]; [0%float]]
        (mkConvolutionParameter 8 true [1] [3] [1] []
                                None None None None None None None) ].

(** A BatchNorm with its three blobs (mean, variance, scale factor) and
    the Scale with two blobs that follows it. *)
Definition batch_norm_layer : LayerParameter :=
  plain_layer "bn1" "BatchNorm" ["data"] ["bn1"]
              [[0%float]; [1%float]; [1%float]].

Definition scale_layer : LayerParameter :=
  plain_layer "scale1" "Scale" ["bn1"] ["scale1"] [[2%float]; [0.5%float]].

Definition bn_scale_net : NetParameter :=
  mkNetParameter []
    [ plain_layer "data" "Input" [] ["data"] []; batch_norm_layer; scale_layer ].

(** A Dropout on the output of [conv_7x7_s2_p3] and a ReLU reading it. *)
Definition dropout_layer : LayerParameter :=
  plain_layer "drop1" "Dropout" ["conv1"] ["drop1"] [].

Definition relu_after_dropout : LayerParameter :=
  plain_layer "relu1" "ReLU" ["drop1"] ["relu1"] [].

(** A global average pooling with declared kernel 3, stride 2, pad 1. *)
Definition global_pooling_layer : LayerParameter :=
  square_pooling "pool5" ["data"] ["pool5"] AVE 3 2 1 true.

(** The state of the pass after the layers of a list, none recorded before. *)
Definition state_after (inputsInfo : dict dims) (num_layers : nat)
    (layers : list LayerParameter) : PassState :=
  match process_layers num_layers inputsInfo layers (initial_state empty_graph) with
  | Ok st => st
  | Err _ => initial_state empty_graph
  end.

(** The declared input of the sample models and the state of the pass
    after their first layers. *)
Definition sample_inputs : dict dims := [("data", [1; 3; 224; 224])].

Definition after_conv : PassState :=
  Eval vm_compute in state_after sample_inputs 3 [conv_7x7_s2_p3].

Definition after_batch_norm : PassState :=
  Eval vm_compute in
    match process_layer 3 sample_inputs batch_norm_layer (Some scale_layer)
                        (initial_state empty_graph) with
    | Ok st => st
    | Err _ => initial_state empty_graph
    end.

(** ** Predicates used in the statements *)

(** All elements of a list are of one type. *)
Definition same_type (a b : pyelem) : bool :=
  match a, b with
  | EInt _, EInt _ | EFloat _, EFloat _ | ENone, ENone => true
  | _, _ => false
  end.

Definition homogeneous (l : list pyelem) : bool :=
  match l with
  | [] => true
  | a :: rest => forallb (same_type a) rest
  end.

Definition float_is_finite (f : float) : bool :=
  match Prim2SF f with
  | S754_zero _ | S754_finite _ _ _ => true
  | _ => false
  end.

(** [int(v)] is defined: an int, or a float that is neither infinite nor NaN. *)
Definition int_coercible (v : pyelem) : bool :=
  match v with
  | EInt _ => true
  | EFloat f => float_is_finite f
  | ENone => false
  end.

(** [float(v)] is defined: a float, or an int within the range of floats. *)
Definition float_coercible (v : pyelem) : bool :=
  match v with
  | EInt z => is_ok (float_of_int z)
  | EFloat _ => true
  | ENone => false
  end.

(** The values the converter accepts: the type of a list is decided by its
    first element, the others only have to be coercible to it. *)
Definition convertible (v : pyval) : bool :=
  match v with
  | PInt _ | PFloat _ | PStr _ => true
  | PList (EInt _ :: rest) => forallb int_coercible rest
  | PList (EFloat _ :: rest) => forallb float_coercible rest
  | PList _ => false
  | PNone => false
  end.

Definition is_EInt (v : pyelem) : bool :=
  match v with EInt _ => true | _ => false end.

(** What the extractor stores: ints, floats, strings, non-empty lists of ints. *)
Definition extractor_value (v : pyval) : bool :=
  match v with
  | PInt _ | PFloat _ | PStr _ => true
  | PList l => negb (Nat.eqb (List.length l) 0) && forallb is_EInt l
  | PNone => false
  end.

(** When shape inference on the attributes extracted from the layer runs to
    its end: non-zero strides for a convolution; for a pooling that is not
    global, both rounded-up quotients defined (non-zero stride, operands
    within the range of floats); four dimensions in every input of a
    concatenation. *)
Definition shape_defined (lp : LayerParameter) (input_map : dict dims) : bool :=
  let type := lp_type lp in
  let am := extractCaffeAttrInfo lp in
  if (type =? "Convolution")%string then
    match dict_get "strides" am with
    | Some (PList [EInt sw; EInt sh]) => negb (sw =? 0) && negb (sh =? 0)
    | _ => false
    end
  else if (type =? "Pooling")%string then
    pool_global_pooling (pooling_param lp) ||
    match first_input input_map, dict_get "strides" am,
          dict_get "kernel_shape" am, dict_get "pads" am with
    | Ok [_; _; h; w], Some (PList [EInt sw; EInt sh]),
      Some (PList [EInt kw; EInt kh]), Some (PList [EInt pw; EInt ph; _; _]) =>
        is_ok (ceil_div (w + 2 * pw + sw - kw) sw)
        && is_ok (ceil_div (h + 2 * ph + sh - kh) sh)
    | _, _, _, _ => false
    end
  else if (type =? "Concat")%string then
    forallb (fun kv => (List.length (snd kv) =? 4)%nat) input_map
  else true.

(** The batch dimension of [dimList["output"]]. *)
Definition output_batch (dimList : dict dims) : option Z :=
  match dict_get "output" dimList with
  | Some (n :: _) => Some n
  | _ => None
  end.

(** Layers that stand for an operator: neither an input placeholder nor a
    Dropout nor a Split. *)
Definition is_operator (lp : LayerParameter) : bool :=
  negb (is_placeholder (lp_type lp)
        || (lp_type lp =? "Dropout")%string || (lp_type lp =? "Split")%string).

Definition count_operators (layers : list LayerParameter) : nat :=
  List.length (filter is_operator layers).

(** A BatchNorm whose next layer is a Scale. *)
Definition fuses_with_next (lp : LayerParameter) (next : option LayerParameter) : bool :=
  (lp_type lp =? "BatchNorm")%string && followed_by_scale next.

(** The number of BatchNorm layers immediately followed by a Scale layer. *)
Fixpoint fused_pairs (layers : list LayerParameter) : nat :=
  match layers with
  | [] => 0%nat
  | lp :: rest =>
      ((if fuses_with_next lp (hd_error rest) then 1 else 0) + fused_pairs rest)%nat
  end.

(** The variable names a layer with [blobs] raw blobs registers for itself. *)
Definition own_parameters (layer_name : string) (blobs : nat) : list string :=
  ((if (0 <? blobs)%nat then [(layer_name ++ "_w")%string] else [])
   ++ (if (1 <? blobs)%nat then [(layer_name ++ "_b")%string] else []))%list.

(** ** Further notions used in the statements *)

(** The canonicaliser read character by character: ['/'] and ['-'] become
    ['_'], every other character stays. *)
Definition canon_char (c : ascii) : ascii :=
  if (Ascii.eqb c "/" || Ascii.eqb c "-")%bool then "_"%char else c.

Fixpoint map_chars (f : ascii -> ascii) (s : string) : string :=
  match s with
  | EmptyString => EmptyString
  | String c r => String (f c) (map_chars f r)
  end.

(** [c in s] for a character. *)
Fixpoint has_char (c : ascii) (s : string) : bool :=
  match s with
  | EmptyString => false
  | String c' r => Ascii.eqb c' c || has_char c r
  end.

(** A name the canonicaliser leaves alone. *)
Definition is_canonical (s : string) : bool :=
  negb (has_char "/" s) && negb (has_char "-" s).

(** The channel counts of all inputs of a map, added up in key order. *)
Definition channel_sum (input_map : dict dims) : Z :=
  fold_left (fun acc kv => acc + nth 1 (snd kv) 0) input_map 0.


(** A deconvolution 4x4, stride 2, pad 1, 16 outputs, without bias, and a
    fully connected layer with 10 outputs. *)
Definition deconv_4x4_s2_p1 : LayerParameter :=
  mkLayerParameter "up1" "Deconvolution" ["conv1"] ["up1"] []
    (mkConvolutionParameter 16 false [1] [4] [2] [] None None None None None None None)
    default_pooling_param default_lrn_param 0x1.4f8b588e368f1p-17%float
    default_inner_product_param 0%float.

Definition inner_product_10 : LayerParameter :=
  mkLayerParameter "fc1" "InnerProduct" ["pool1"] ["fc1"] []
    default_convolution_param default_pooling_param default_lrn_param
    0x1.4f8b588e368f1p-17%float (mkInnerProductParameter 10 true) 0%float.

Definition concat_layer : LayerParameter :=
  plain_layer "cat" "Concat" ["a"; "b"; "c"] ["cat"] [].

(** Names as the sink receives them. *)
Definition tensor_canonical (t : IrTensor) : bool := is_canonical (tensor_name t).

Definition node_canonical (n : IrNode) : bool :=
  forallb is_canonical (node_inputs n) && forallb is_canonical (node_outputs n).

Definition graph_canonical (g : IrGraph) : bool :=
  forallb tensor_canonical (graph_inputs g)
  && forallb tensor_canonical (graph_outputs g)
  && forallb tensor_canonical (graph_variables g)
  && forallb (fun b => is_canonical (fst b)) (graph_binaries g)
  && forallb node_canonical (graph_nodes g).

(** The calls the sink receives while the layers are visited: binaries,
    variables and nodes, each under canonical names, in any number and
    order. *)
Inductive sink_calls (g : IrGraph) : IrGraph -> Prop :=
| calls_none : sink_calls g g
| calls_binary (g' : IrGraph) (name : string) (buf : list float) :
    sink_calls g g' -> is_canonical name = true ->
    sink_calls g (addBinary name buf g')
| calls_variable (g' : IrGraph) (t : IrTensor) :
    sink_calls g g' -> tensor_canonical t = true ->
    sink_calls g (addVariable t g')
| calls_node (g' : IrGraph) (n : IrNode) :
    sink_calls g g' -> node_canonical n = true ->
    sink_calls g (addNode n g').

(** A record as the pass leaves it: its operator type is set and it has
    the one output, named after the record. *)
Definition record_complete (info : LayerInfo) : Prop :=
  (exists t, info_layer_type info = Some t) /\
  (exists d, info_outputs info = [(info_layer_name info, d)]).

(** The layer types the pass has a rule for. *)
Definition supported_types : list string :=
  (["Data"; "ImageData"; "Input"; "Dropout"; "Split"; "Pooling"; "Scale"]
   ++ keys caffe2ir_op_type)%list.

Definition is_supported (layer_type : string) : bool :=
  existsb (String.eqb layer_type) supported_types.

(** A model made of two input placeholders, and a layer of a type the pass
    has no rule for. *)
Definition placeholders_only_net : NetParameter :=
  mkNetParameter []
    [ plain_layer "data" "Input" [] ["data"] [];
      plain_layer "label" "Data" [] ["label"] [] ].

Definition frobnicate_layer : LayerParameter :=
  plain_layer "f1" "Frobnicate" ["data"] ["f1"] [].

(** A Split of the output of [conv_7x7_s2_p3] into two branches. *)
Definition split_layer : LayerParameter :=
  plain_layer "split1" "Split" ["conv1"] ["branch/a"; "branch/b"] [].

(** The rename table after a layer of canonical name [name] with the
    output names [outputs] has been recorded. *)
Definition renamed_output (name : string) (outputs : list string)
    (alias : dict string) : dict string :=
  match outputs with
  | output0 :: _ =>
      if (caffe_name_to_ir_name name =? caffe_name_to_ir_name output0)%string
      then alias
      else dict_set (caffe_name_to_ir_name output0) (caffe_name_to_ir_name name) alias
  | [] => alias
  end.

(** A leaky ReLU in place on [conv1], and a Scale with one blob on it. *)
Definition leaky_relu_layer : LayerParameter :=
  mkLayerParameter "relu1" "ReLU" ["conv1"] ["conv1"] []
    default_convolution_param default_pooling_param default_lrn_param
    0x1.4f8b588e368f1p-17%float default_inner_product_param 0.125%float.

Definition scale_after_conv : LayerParameter :=
  plain_layer "scale2" "Scale" ["conv1"] ["scale2"] [[2%float]].

(** A ReLU on [conv1] whose output blob has a name of its own. *)
Definition renaming_relu : LayerParameter :=
  plain_layer "relu1" "ReLU" ["conv1"] ["act1"] [].

(** The loss layer of a training model: its second input is the label. *)
Definition softmax_loss_layer : LayerParameter :=
  plain_layer "loss" "SoftmaxWithLoss" ["conv1"; "label"] ["loss"] [].

(** ** Proof automation *)

(** Takes apart a chain of binds known to end in [Ok]. *)
Ltac bind_ok H :=
  repeat match type of H with
         | bind ?r _ = Ok _ =>
             let E := fresh "E" in
             destruct r eqn:E; cbn [bind] in H; [|discriminate H]
         | (match ?p with (_, _) => _ end) = Ok _ => destruct p
         | (if ?b then _ else _) = Ok _ =>
             let E := fresh "E" in destruct b eqn:E
         end.

(** * Properties *)

(** ** Dictionaries *)

Section Dictionaries.

Variable V : Type.
Implicit Types (k : string) (v : V) (d : dict V).

Lemma dict_get_set_eq k v d : dict_get k (dict_set k v d) = Some v.
Proof.
  induction d as [|[k' v'] d IH]; simpl.
  - now rewrite String.eqb_refl.
  - destruct (String.eqb k k') eqn:E; simpl.
    + now rewrite String.eqb_refl.
    + now rewrite E.
Qed.

Lemma dict_get_set_ne k k' v d :
  k <> k' -> dict_get k' (dict_set k v d) = dict_get k' d.
Proof.
  intros Hne. induction d as [|[k0 v0] d IH]; simpl.
  - destruct (String.eqb_spec k' k); congruence.
  - destruct (String.eqb_spec k k0) as [->|Hk]; simpl.
    + destruct (String.eqb_spec k' k0); congruence.
    + destruct (String.eqb_spec k' k0); congruence.
Qed.

End Dictionaries.

Lemma first_input_cons (k : string) (v : dims) (rest : dict dims) :
  first_input ((k, v) :: rest) = Ok v.
Proof.
  unfold first_input, index, dict_lookup; simpl. now rewrite String.eqb_refl.
Qed.

Lemma through_hit (m : dict string) (k v : string) :
  dict_get k m = Some v -> through m k = v.
Proof. unfold through. now intros ->. Qed.

Lemma through_miss (m : dict string) (k : string) :
  dict_get k m = None -> through m k = k.
Proof. unfold through. now intros ->. Qed.

(** ** Shape inference *)

Lemma attr_list_int_list (key : string) (am : attribute_map) (l : list Z) :
  dict_get key am = Some (int_list l) -> attr_list key am = Ok (map EInt l).
Proof. unfold attr_list, dict_lookup, int_list. now intros ->. Qed.

(** C3.  A Convolution layer on an input (N, C, H, W), with strides
    [sw, sh], kernel [kw, kh], pads [pw, ph, ..] and dilations [dw, dh] and
    non-zero strides, gets the output shape
    (N, num_output, (H + 2 ph - kh - (kh-1)(dh-1)) // sh + 1,
                    (W + 2 pw - kw - (kw-1)(dw-1)) // sw + 1),
    and the attribute map is left as it was. *)
Theorem convolution_output_dims
    (lp : LayerParameter) (am : attribute_map) (k : string) (rest : dict dims)
    (N C H W sw sh kw kh pw ph pr pb dw dh : Z) :
  lp_type lp = "Convolution" ->
  dict_get "strides" am = Some (int_list [sw; sh]) ->
  dict_get "kernel_shape" am = Some (int_list [kw; kh]) ->
  dict_get "pads" am = Some (int_list [pw; ph; pr; pb]) ->
  dict_get "dilations" am = Some (int_list [dw; dh]) ->
  sw <> 0 -> sh <> 0 ->
  exists dimList,
    calculateTensorDims lp ((k, [N; C; H; W]) :: rest) am = Ok (dimList, am) /\
    dict_get "output" dimList =
      Some [N; conv_num_output (convolution_param lp);
            (H + 2 * ph - kh - (kh - 1) * (dh - 1)) / sh + 1;
            (W + 2 * pw - kw - (kw - 1) * (dw - 1)) / sw + 1].
Proof.
  intros Ht Hs Hk Hp Hd Hsw Hsh.
  unfold calculateTensorDims. rewrite Ht. simpl String.eqb. cbv iota.
  rewrite (attr_list_int_list _ _ Hs), (attr_list_int_list _ _ Hp),
          (attr_list_int_list _ _ Hd), (attr_list_int_list _ _ Hk).
  rewrite first_input_cons. cbn -[Z.div Z.mul Z.add Z.sub dict_set with_params].
  unfold floordiv.
  destruct (Z.eqb_spec sw 0) as [|_]; [contradiction|].
  cbn -[Z.div Z.mul Z.add Z.sub dict_set with_params].
  destruct (Z.eqb_spec sh 0) as [|_]; [contradiction|].
  cbn -[Z.div Z.mul Z.add Z.sub dict_set with_params].
  eexists; split; [reflexivity|].
  unfold with_params.
  destruct (conv_bias_term (convolution_param lp)); reflexivity.
Qed.

Lemma convolution_output_dims_witness :
  exists dimList,
    calculateTensorDims conv_7x7_s2_p3 [("data", [1; 3; 224; 224])]
      (extractCaffeAttrInfo conv_7x7_s2_p3)
    = Ok (dimList, extractCaffeAttrInfo conv_7x7_s2_p3) /\
    dict_get "output" dimList = Some [1; 64; 112; 112].
Proof.
  exact (@convolution_output_dims conv_7x7_s2_p3
           (extractCaffeAttrInfo conv_7x7_s2_p3) "data" []
           1 3 224 224 2 2 7 7 3 3 3 3 1 1
           eq_refl eq_refl eq_refl eq_refl eq_refl
           ltac:(discriminate) ltac:(discriminate)).
Defined.

(** C2 as stated does not hold: on (1, 64, 112, 112) with kernel 3,
    stride 2, pad 1 the shape computed is not (1, 64, 56, 56). *)
Lemma pooling_112_k3_s2_p1_is_not_56 :
  ~ exists dimList am',
      calculateTensorDims
        (square_pooling "pool1" ["conv1"] ["pool1"] MAX 3 2 1 false)
        [("conv1", [1; 64; 112; 112])]
        (extractCaffeAttrInfo
           (square_pooling "pool1" ["conv1"] ["pool1"] MAX 3 2 1 false))
      = Ok (dimList, am') /\
      dict_get "output" dimList = Some [1; 64; 56; 56].
Proof.
  intros (dimList & am' & Hc & Ho).
  vm_compute in Hc. injection Hc as <- _. discriminate Ho.
Qed.

(** C2, amended.  Pooling with kernel 3x3, stride 2, pad 1 on an input
    (1, 64, 112, 112) gives (1, 64, 57, 57): ceil(113 / 2) = 57 on both
    axes, and 56 * 2 = 112 is below 112 + 1, so nothing is taken off.  This
    holds whatever the layer, blob names and pooling method are. *)
Theorem pooling_112_k3_s2_p1_is_57
    (name input : string) (bottom top : list string) (method : PoolMethod) :
  let lp := square_pooling name bottom top method 3 2 1 false in
  calculateTensorDims lp [(input, [1; 64; 112; 112])] (extractCaffeAttrInfo lp)
  = Ok ([("output", [1; 64; 57; 57])], extractCaffeAttrInfo lp).
Proof.
  intros lp. unfold calculateTensorDims. simpl lp_type. simpl String.eqb. cbv iota.
  rewrite first_input_cons. reflexivity.
Qed.

(** ** Attribute converter *)

Lemma mapM_py_int_ok (l : list pyelem) :
  is_ok (mapM py_int l) = forallb int_coercible l.
Proof.
  induction l as [|e l IH]; simpl; [reflexivity|].
  destruct e as [z|f|]; simpl.
  - rewrite <- IH. now destruct (mapM py_int l).
  - unfold int_of_float, float_is_finite.
    destruct (Prim2SF f); simpl; try reflexivity;
      rewrite <- IH; now destruct (mapM py_int l).
  - reflexivity.
Qed.

Lemma mapM_py_float_ok (l : list pyelem) :
  is_ok (mapM py_float l) = forallb float_coercible l.
Proof.
  induction l as [|e l IH]; simpl; [reflexivity|].
  destruct e as [z|f|]; simpl.
  - destruct (float_of_int z); simpl; [|reflexivity].
    rewrite <- IH. now destruct (mapM py_float l).
  - rewrite <- IH. now destruct (mapM py_float l).
  - reflexivity.
Qed.

Lemma convert_attr_ok (name : string) (v : pyval) (attr : IrAttr) :
  is_ok (convert_attr name v attr) = convertible v.
Proof.
  destruct v as [z|f|s|l|]; try reflexivity.
  destruct l as [|[z|f|] rest]; try reflexivity.
  - pose proof (mapM_py_int_ok (EInt z :: rest)) as H.
    cbn [forallb int_coercible andb] in H.
    cbn [convertible]. rewrite <- H.
    unfold convert_attr. cbn [index nth_error bind].
    now destruct (mapM py_int (EInt z :: rest)).
  - pose proof (mapM_py_float_ok (EFloat f :: rest)) as H.
    cbn [forallb float_coercible andb] in H.
    cbn [convertible]. rewrite <- H.
    unfold convert_attr. cbn [index nth_error bind].
    now destruct (mapM py_float (EFloat f :: rest)).
Qed.

Lemma convert_attrs_ok (entries : list (string * pyval)) (attr : IrAttr) :
  is_ok (convert_attrs entries attr)
  = forallb (fun kv => convertible (snd kv)) entries.
Proof.
  revert attr. induction entries as [|[k v] rest IH]; intros attr; simpl.
  - reflexivity.
  - rewrite <- convert_attr_ok with (name := k) (attr := attr).
    destruct (convert_attr k v attr); simpl; [apply IH|reflexivity].
Qed.

(** C4 as stated does not hold: the list [1, 2.5] is not homogeneous, and
    the converter accepts it, storing the ints [1, 2]. *)
Lemma mixed_list_is_converted :
  homogeneous [EInt 1; EFloat 2.5] = false /\
  caffe_attr_to_ir_attr [("strides", PList [EInt 1; EFloat 2.5])]
  = Ok [("strides", IrInts [1; 2])].
Proof. split; reflexivity. Qed.

(** C4, amended.  The converter goes through exactly when every value is an
    int, a float, a string, or a non-empty list whose first element is an
    int and whose other elements can be turned into ints, or whose first
    element is a float and whose other elements can be turned into floats.
    The elements of a list need not be of one type. *)
Theorem converter_accepts_by_first_element (am : attribute_map) :
  is_ok (caffe_attr_to_ir_attr am) = forallb (fun kv => convertible (snd kv)) am.
Proof. apply convert_attrs_ok. Qed.

(** ** Attribute extractor *)

Lemma extractor_value_convertible (v : pyval) :
  extractor_value v = true -> convertible v = true.
Proof.
  destruct v as [z|f|s|l|]; simpl; try congruence.
  destruct l as [|[z|f|] rest]; simpl; try congruence.
  intros H. induction rest as [|e rest IH]; simpl in *; [reflexivity|].
  destruct e; simpl in *; try congruence. auto.
Qed.

Lemma extractor_values (lp : LayerParameter) :
  forallb (fun kv => extractor_value (snd kv)) (extractCaffeAttrInfo lp) = true.
Proof.
  unfold extractCaffeAttrInfo.
  repeat match goal with
         | |- context [if ?b then _ else _] => destruct b
         end; reflexivity.
Qed.

(** C10.  Every value of an attribute map built by the extractor is an int,
    a float, a string or a non-empty list of ints, and the converter turns
    such a map into IR attributes: it neither faults on the first element
    of a list nor stops on an unsupported list or type. *)
Theorem extracted_attributes_convert (lp : LayerParameter) :
  forallb (fun kv => extractor_value (snd kv)) (extractCaffeAttrInfo lp) = true /\
  exists attr, caffe_attr_to_ir_attr (extractCaffeAttrInfo lp) = Ok attr.
Proof.
  split; [apply extractor_values|].
  assert (H : is_ok (caffe_attr_to_ir_attr (extractCaffeAttrInfo lp)) = true).
  { unfold caffe_attr_to_ir_attr. rewrite convert_attrs_ok.
    pose proof (extractor_values lp) as Hv.
    induction (extractCaffeAttrInfo lp) as [|[k v] rest IH]; simpl in *; [reflexivity|].
    apply andb_prop in Hv as [Hv1 Hv2].
    rewrite (extractor_value_convertible _ Hv1). now apply IH. }
  destruct (caffe_attr_to_ir_attr (extractCaffeAttrInfo lp)) as [attr|]; [|discriminate].
  now exists attr.
Qed.

(** ** Batch dimension *)

Lemma unpack4_ok (x : dims) (n c h w : Z) :
  unpack4 x = Ok (n, c, h, w) -> x = [n; c; h; w].
Proof.
  destruct x as [|a [|b [|c' [|d [|e x]]]]]; simpl; try discriminate.
  now intros [= -> -> -> ->].
Qed.

Lemma output_batch_set (n : Z) (tl : dims) (dimList : dict dims) :
  output_batch (dict_set "output" (n :: tl) dimList) = Some n.
Proof. unfold output_batch. now rewrite dict_get_set_eq. Qed.

Lemma calculateTensorDims_batch
    (lp : LayerParameter) (am am' : attribute_map) (k : string)
    (rest dimList : dict dims) (N C H W : Z) :
  calculateTensorDims lp ((k, [N; C; H; W]) :: rest) am = Ok (dimList, am') ->
  output_batch dimList = Some N.
Proof.
  unfold calculateTensorDims. rewrite first_input_cons.
  intros Hc.
  repeat match type of Hc with
         | (if ?b then _ else _) = Ok _ => destruct b
         end;
    bind_ok Hc;
    repeat match goal with
           | E : Ok _ = Ok ?a |- _ => is_var a; injection E as <-
           | E : unpack4 _ = Ok _ |- _ => cbn in E; injection E as <- <- <- <-
           end;
    injection Hc as <- _; try apply output_batch_set; reflexivity.
Qed.

Lemma concat_channels_defined (input_map : dict dims) :
  forallb (fun kv => (List.length (snd kv) =? 4)%nat) input_map = true ->
  forall (ks : list string) (acc : Z),
    incl ks (keys input_map) ->
    exists c, concat_channels ks input_map acc = Ok c.
Proof.
  intros Hall ks. induction ks as [|k ks IH]; intros acc Hincl; simpl.
  - now exists acc.
  - assert (Hk : exists x, dict_get k input_map = Some x /\ List.length x = 4%nat).
    { assert (Hin : In k (keys input_map)) by (apply Hincl; now left).
      clear - Hall Hin. induction input_map as [|[k' v] m IHm]; simpl in *; [easy|].
      apply andb_prop in Hall as [Hv Hm].
      destruct (String.eqb_spec k k') as [->|Hne].
      - exists v. split; [reflexivity|]. now apply Nat.eqb_eq.
      - destruct Hin as [Heq|Hin]; [congruence|]. now apply IHm. }
    destruct Hk as (x & Hx & Hlen).
    unfold dict_lookup. rewrite Hx. cbn [bind].
    destruct x as [|a [|b [|c [|d [|e x]]]]]; try discriminate Hlen.
    cbn [unpack4 bind]. apply IH.
    intros y Hy. apply Hincl. now right.
Qed.

Lemma extract_convolution (lp : LayerParameter) :
  lp_type lp = "Convolution" \/ lp_type lp = "Deconvolution" ->
  let conv := convolution_param lp in
  let pad_h := field_or (conv_pad_h conv) (conv_pad conv) 0 0 in
  let pad_w := field_or (conv_pad_w conv) (conv_pad conv) 1 pad_h in
  let stride_h := field_or (conv_stride_h conv) (conv_stride conv) 0 1 in
  let stride_w := field_or (conv_stride_w conv) (conv_stride conv) 1 stride_h in
  let kernel_h := field_or (conv_kernel_h conv) (conv_kernel_size conv) 0 0 in
  let kernel_w := field_or (conv_kernel_w conv) (conv_kernel_size conv) 1 kernel_h in
  let dilation_h := field_or None (conv_dilation conv) 0 1 in
  let dilation_w := field_or None (conv_dilation conv) 1 dilation_h in
  extractCaffeAttrInfo lp =
    [("strides", int_list [stride_w; stride_h]);
     ("kernel_shape", int_list [kernel_w; kernel_h]);
     ("group", PInt (field_else (conv_group conv) 1));
     ("pads", int_list [pad_w; pad_h; pad_w; pad_h]);
     ("dilations", int_list [dilation_w; dilation_h])].
Proof.
  intros Ht. unfold extractCaffeAttrInfo. destruct Ht as [-> | ->]; reflexivity.
Qed.

Lemma extract_pooling (lp : LayerParameter) :
  lp_type lp = "Pooling" ->
  let pooling := pooling_param lp in
  extractCaffeAttrInfo lp =
    [("strides", int_list [field_else (pool_stride_w pooling) (pool_stride pooling);
                           field_else (pool_stride_h pooling) (pool_stride pooling)]);
     ("kernel_shape",
      int_list [field_else (pool_kernel_w pooling) (pool_kernel_size pooling);
                field_else (pool_kernel_h pooling) (pool_kernel_size pooling)]);
     ("pads", int_list [field_else (pool_pad_w pooling) (pool_pad pooling);
                        field_else (pool_pad_h pooling) (pool_pad pooling);
                        field_else (pool_pad_w pooling) (pool_pad pooling);
                        field_else (pool_pad_h pooling) (pool_pad pooling)]);
     ("dim_round_mode", PStr "ceil")].
Proof.
  intros Ht. unfold extractCaffeAttrInfo. rewrite Ht. reflexivity.
Qed.

(** Shape inference of a global pooling: the lists of the attribute map are
    overwritten and the spatial output is 1 x 1. *)
Lemma calculateTensorDims_global_pooling
    (lp : LayerParameter) (k : string) (rest : dict dims) (N C H W : Z) :
  lp_type lp = "Pooling" ->
  pool_global_pooling (pooling_param lp) = true ->
  let pooling := pooling_param lp in
  calculateTensorDims lp ((k, [N; C; H; W]) :: rest) (extractCaffeAttrInfo lp)
  = Ok ([("output", [N; C; 1; 1])],
        [("strides", int_list [1; 1]);
         ("kernel_shape", int_list [W; H]);
         ("pads", int_list [0; 0;
                            field_else (pool_pad_w pooling) (pool_pad pooling);
                            field_else (pool_pad_h pooling) (pool_pad pooling)]);
         ("dim_round_mode", PStr "ceil")]).
Proof.
  intros Ht Hg pooling. rewrite (extract_pooling lp Ht).
  unfold calculateTensorDims. rewrite Ht, first_input_cons, Hg.
  cbn -[field_else Z.mul Z.add Z.sub ceil_div pooling_trim].
  replace (W + 2 * 0 + 1 - W) with 1 by lia.
  replace (H + 2 * 0 + 1 - H) with 1 by lia.
  reflexivity.
Qed.

Lemma calculateTensorDims_defined
    (lp : LayerParameter) (k : string) (rest : dict dims) (N C H W : Z) :
  shape_defined lp ((k, [N; C; H; W]) :: rest) = true ->
  exists dimList am',
    calculateTensorDims lp ((k, [N; C; H; W]) :: rest) (extractCaffeAttrInfo lp)
    = Ok (dimList, am').
Proof.
  intros Hd. unfold shape_defined in Hd.
  destruct (String.eqb_spec (lp_type lp) "Convolution") as [Ht|Hconv].
  { rewrite (extract_convolution lp (or_introl Ht)) in *.
    unfold calculateTensorDims. rewrite Ht, first_input_cons.
    cbn -[field_or field_else Z.eqb] in Hd.
    apply andb_prop in Hd as [Hw Hh]. apply negb_true_iff in Hw, Hh.
    cbn -[field_or field_else Z.div Z.mul Z.add Z.sub Z.eqb with_params dict_set].
    unfold floordiv. rewrite Hw. cbn [bind]. rewrite Hh. cbn [bind]. eauto. }
  destruct (String.eqb_spec (lp_type lp) "Pooling") as [Ht|Hpool].
  { destruct (pool_global_pooling (pooling_param lp)) eqn:Hg.
    - rewrite (calculateTensorDims_global_pooling lp k rest N C H W Ht Hg). eauto.
    - rewrite (extract_pooling lp Ht) in *. rewrite first_input_cons in Hd.
      cbn -[field_else Z.mul Z.add Z.sub ceil_div] in Hd.
      apply andb_prop in Hd as [Hw Hh].
      unfold calculateTensorDims. rewrite Ht, first_input_cons, Hg.
      cbn -[field_else Z.mul Z.add Z.sub ceil_div pooling_trim].
      match type of Hw with is_ok ?r = true => destruct r; [|discriminate Hw] end.
      cbn [bind].
      match type of Hh with is_ok ?r = true => destruct r; [|discriminate Hh] end.
      cbn [bind]. eauto. }
  unfold calculateTensorDims.
  rewrite first_input_cons, (proj2 (String.eqb_neq _ _) Hconv),
          (proj2 (String.eqb_neq _ _) Hpool).
  destruct (String.eqb_spec (lp_type lp) "Deconvolution") as [Ht|_].
  { rewrite (extract_convolution lp (or_intror Ht)).
    cbn -[field_or field_else Z.mul Z.add Z.sub with_params dict_set]. eauto. }
  destruct (String.eqb_spec (lp_type lp) "InnerProduct") as [Ht|_].
  { cbn. eauto. }
  destruct (String.eqb_spec (lp_type lp) "Concat") as [Ht|_].
  { destruct (@concat_channels_defined _ Hd (keys ((k, [N; C; H; W]) :: rest)) 0)
      as [cs Hc]; [apply incl_refl|].
    match goal with
    | |- context [concat_channels ?a ?b ?c] =>
        replace (concat_channels a b c) with (@Ok Z cs) by (symmetry; exact Hc)
    end.
    cbn. eauto. }
  destruct ((lp_type lp =? "BatchNorm")%string || (lp_type lp =? "Scale")%string);
    cbn; eauto.
Qed.

(** C8.  Shape inference never changes the batch dimension.  For a layer of
    any type and an input map whose first entry is (N, C, H, W): whenever
    the function returns, the output shape starts with N; and on the
    attributes extracted from the layer it does return, with an output
    shape starting with N, as soon as the shape rule of the layer is
    defined ([shape_defined]). *)
Theorem batch_dimension_preserved
    (lp : LayerParameter) (k : string) (rest : dict dims) (N C H W : Z) :
  (forall am dimList am',
      calculateTensorDims lp ((k, [N; C; H; W]) :: rest) am = Ok (dimList, am') ->
      output_batch dimList = Some N) /\
  (shape_defined lp ((k, [N; C; H; W]) :: rest) = true ->
   exists dimList am',
     calculateTensorDims lp ((k, [N; C; H; W]) :: rest) (extractCaffeAttrInfo lp)
     = Ok (dimList, am') /\
     output_batch dimList = Some N).
Proof.
  split.
  - intros am dimList am' Hc. eapply calculateTensorDims_batch; exact Hc.
  - intros Hd. destruct (calculateTensorDims_defined lp k rest N C H W Hd)
      as (dimList & am' & Hc).
    exists dimList, am'. split; [exact Hc|].
    eapply calculateTensorDims_batch; exact Hc.
Qed.

Lemma batch_dimension_preserved_witness :
  exists dimList am',
    calculateTensorDims (square_pooling "pool1" ["conv1"] ["pool1"] MAX 3 2 1 false)
      [("conv1", [4; 64; 112; 112])]
      (extractCaffeAttrInfo (square_pooling "pool1" ["conv1"] ["pool1"] MAX 3 2 1 false))
    = Ok (dimList, am') /\
    output_batch dimList = Some 4.
Proof.
  exact (proj2 (batch_dimension_preserved
                  (square_pooling "pool1" ["conv1"] ["pool1"] MAX 3 2 1 false)
                  "conv1" [] 4 64 112 112) eq_refl).
Defined.

(** ** The pass: what one iteration changes *)

Lemma extractBinary_nodes (lp : LayerParameter) (g : IrGraph) :
  graph_nodes (extractBinary lp g) = graph_nodes g.
Proof.
  unfold extractBinary.
  destruct (nth_error (lp_blobs lp) 0), (nth_error (lp_blobs lp) 1); reflexivity.
Qed.

Lemma extractBinary_variables (lp : LayerParameter) (g : IrGraph) :
  graph_variables (extractBinary lp g) = graph_variables g.
Proof.
  unfold extractBinary.
  destruct (nth_error (lp_blobs lp) 0), (nth_error (lp_blobs lp) 1); reflexivity.
Qed.

Lemma add_param_nodes (dimList : dict dims) (key name : string) (g : IrGraph) :
  graph_nodes (snd (add_param dimList key name g)) = graph_nodes g.
Proof. unfold add_param. now destruct (dict_get key dimList). Qed.

Section Pass.

(** The number of layers of the model and its declared input. *)
Variable num_layers : nat.
Variable inputsInfo : dict dims.

(** What a successful [record_layer] has done. *)
Lemma record_layer_inv (lp : LayerParameter)
    (next : option LayerParameter) (t0 : option string) (st st1 : PassState) :
  record_layer inputsInfo lp next t0 st = Ok st1 ->
  exists t im dimList am' out,
    resolve_inputs inputsInfo lp st = Ok im /\
    calculateTensorDims lp im (extractCaffeAttrInfo lp) = Ok (dimList, am') /\
    dict_get "output" dimList = Some out /\
    (t0 = Some t \/ (lp_type lp = "ReLU" /\ t = "leaky_relu")) /\
    let name := caffe_name_to_ir_name (lp_name lp) in
    let wp := add_param dimList "weights" (name ++ "_w")
                        (extractBinary lp (graph st)) in
    let bp := add_param dimList "bias" (name ++ "_b") (snd wp) in
    let info := mkLayerInfo name (Some t) am' im [(name, out)]
                            (fst wp) (fst bp) None None in
    inputOutputMap st1 = (inputOutputMap st ++ [info])%list /\
    dropoutLayerMap st1 = dropoutLayerMap st /\
    splitLayerMap st1 = splitLayerMap st /\
    (((t =? "batch_norm")%string && followed_by_scale next = true /\
      graph st1 = snd bp) \/
     ((t =? "batch_norm")%string && followed_by_scale next = false /\
      exists node, caffe_node_to_ir_node t info = Ok node /\
                   graph st1 = addNode node (snd bp))).
Proof.
  unfold record_layer. intros Hr.
  destruct (if (lp_type lp =? "ReLU")%string
            then nz <- alpha_nonzero (extractCaffeAttrInfo lp);;
                 Ok (if nz then Some "leaky_relu" else t0)
            else Ok t0) as [t1|] eqn:Et; cbn [bind] in Hr; [|discriminate].
  destruct (resolve_inputs inputsInfo lp st) as [im|] eqn:Ei;
    cbn [bind] in Hr; [|discriminate].
  destruct (calculateTensorDims lp im (extractCaffeAttrInfo lp))
    as [[dimList am']|] eqn:Ec; cbn [bind] in Hr; [|discriminate].
  unfold dict_lookup in Hr.
  destruct (dict_get "output" dimList) as [out|] eqn:Eo;
    cbn [bind] in Hr; [|discriminate].
  destruct (add_param dimList "weights"
              (caffe_name_to_ir_name (lp_name lp) ++ "_w")
              (extractBinary lp (graph st))) as [wm g1] eqn:Ew.
  destruct (add_param dimList "bias"
              (caffe_name_to_ir_name (lp_name lp) ++ "_b") g1) as [bm g2] eqn:Eb.
  unfold get_layer_type in Hr. cbn [info_layer_type] in Hr.
  destruct t1 as [t|]; cbn [bind] in Hr; [|discriminate].
  exists t, im, dimList, am', out.
  do 3 (split; [reflexivity || assumption|]). split.
  - destruct (lp_type lp =? "ReLU")%string eqn:Er.
    + destruct (alpha_nonzero (extractCaffeAttrInfo lp)) as [[|]|];
        cbn [bind] in Et; try discriminate.
      * injection Et as <-. right. split; [now apply String.eqb_eq|reflexivity].
      * left. now injection Et.
    + left. now injection Et.
  - cbn zeta. rewrite Ew. cbn [snd fst]. rewrite Eb. cbn [snd fst].
    destruct ((t =? "batch_norm")%string && followed_by_scale next) eqn:Ed.
    + injection Hr as <-. cbn. repeat split. now left.
    + destruct (caffe_node_to_ir_node t _) as [node|] eqn:En;
        cbn [bind] in Hr; [|discriminate].
      injection Hr as <-. cbn. repeat split. right. split; [reflexivity|].
      exists node. split; [reflexivity || exact En|reflexivity].
Qed.

Lemma fuse_scale_nodes (lp : LayerParameter) (prev : LayerInfo) (st st' : PassState) :
  fuse_scale lp prev st = Ok st' ->
  exists node,
    graph_nodes (graph st') = (graph_nodes (graph st) ++ [node])%list.
Proof.
  unfold fuse_scale. intros Hf.
  destruct (calculateTensorDims lp (info_inputs prev) (info_attributes prev))
    as [[dimList am']|]; cbn [bind] in Hf; [|discriminate].
  destruct (dict_lookup "output" dimList) as [out|]; cbn [bind] in Hf; [|discriminate].
  match type of Hf with
  | context [add_param dimList "weights" ?n ?g] =>
      pose proof (add_param_nodes dimList "weights" n g) as Hw;
      destruct (add_param dimList "weights" n g) as [wm g1]
  end.
  match type of Hf with
  | context [add_param dimList "bias" ?n ?g] =>
      pose proof (add_param_nodes dimList "bias" n g) as Hb;
      destruct (add_param dimList "bias" n g) as [bm g2]
  end.
  cbn [snd] in Hw, Hb.
  bind_ok Hf. injection Hf as <-. cbn [graph addNode graph_nodes].
  eexists. rewrite Hb, Hw, extractBinary_nodes. reflexivity.
Qed.

(** The operator type settled for a layer is [batch_norm] for a BatchNorm
    layer and for no other. *)
Lemma resolve_type_typed (lp : LayerParameter) (st : PassState)
    (t0 : option string) :
  resolve_type num_layers lp st = Ok (Typed t0) ->
  (lp_type lp = "ReLU" -> t0 = Some "relu") /\
  (lp_type lp =? "BatchNorm")%string
  = match t0 with Some t => (t =? "batch_norm")%string | None => false end.
Proof.
  unfold resolve_type, caffe2ir_op_type. cbn [dict_get]. intros Hr.
  repeat match type of Hr with
         | context [String.eqb (lp_type lp) ?s] =>
             let E := fresh "E" in
             destruct (String.eqb_spec (lp_type lp) s) as [E|E];
             [rewrite E in *; injection Hr as <-; split;
              [intros; (discriminate || reflexivity)|reflexivity]|]
         end.
  destruct (String.eqb_spec (lp_type lp) "Pooling") as [Hp|Hp].
  { rewrite Hp. destruct (pool_pool (pooling_param lp)); injection Hr as <-;
      (split; [discriminate|reflexivity]). }
  destruct (String.eqb_spec (lp_type lp) "Scale") as [Hs|Hs]; [|discriminate].
  rewrite Hs.
  destruct ((0 <? count st)%nat && (count st <? num_layers)%nat).
  - bind_ok Hr; try discriminate. injection Hr as <-.
    split; [discriminate|].
    now destruct (List.length (lp_blobs lp) =? 1)%nat.
  - injection Hr as <-. split; [discriminate|reflexivity].
Qed.

Lemma resolve_type_fused (lp : LayerParameter) (st st' : PassState) :
  resolve_type num_layers lp st = Ok (Fused st') ->
  lp_type lp = "Scale" /\
  exists prev,
    previous_layer st = Ok prev /\
    info_layer_type prev = Some "batch_norm" /\
    fuse_scale lp prev st = Ok st'.
Proof.
  unfold resolve_type. intros Hr.
  destruct (dict_get (lp_type lp) caffe2ir_op_type); [discriminate|].
  destruct (String.eqb_spec (lp_type lp) "Pooling") as [E|E].
  { now destruct (pool_pool (pooling_param lp)). }
  destruct (String.eqb_spec (lp_type lp) "Scale") as [E'|E']; [|discriminate].
  split; [exact E'|].
  destruct ((0 <? count st)%nat && (count st <? num_layers)%nat); [|discriminate].
  destruct (previous_layer st) as [prev|]; cbn [bind] in Hr; [|discriminate].
  unfold get_layer_type in Hr.
  destruct (info_layer_type prev) as [pt|] eqn:Ept; cbn [bind] in Hr; [|discriminate].
  destruct (String.eqb_spec pt "batch_norm") as [->|]; [|discriminate].
  destruct (fuse_scale lp prev st) as [s|] eqn:Ef; cbn [bind] in Hr; [|discriminate].
  injection Hr as <-. exists prev. now unfold get_layer_type; rewrite Ept.
Qed.

(** The number of nodes one iteration emits: one for an operator layer,
    none for a BatchNorm whose node waits for the Scale after it, none for
    placeholders, Dropout and Split. *)
Lemma process_layer_node_count
    (lp : LayerParameter) (next : option LayerParameter) (st st' : PassState) :
  process_layer num_layers inputsInfo lp next st = Ok st' ->
  List.length (graph_nodes (graph st'))
  = (List.length (graph_nodes (graph st))
     + (if is_operator lp && negb (fuses_with_next lp next) then 1 else 0))%nat.
Proof.
  unfold process_layer, is_operator, is_placeholder, fuses_with_next. intros Hp.
  destruct (String.eqb_spec (lp_type lp) "Data") as [E|_].
  { injection Hp as <-. cbn. lia. }
  destruct (String.eqb_spec (lp_type lp) "ImageData") as [E|_].
  { injection Hp as <-. rewrite orb_true_r. cbn. lia. }
  destruct (String.eqb_spec (lp_type lp) "Input") as [E|_].
  { injection Hp as <-. cbn. lia. }
  cbn [orb] in Hp |- *.
  destruct (String.eqb_spec (lp_type lp) "Dropout") as [E|_].
  { bind_ok Hp. injection Hp as <-. cbn. lia. }
  destruct (String.eqb_spec (lp_type lp) "Split") as [E|_].
  { bind_ok Hp. injection Hp as <-. cbn. lia. }
  cbn [orb negb andb].
  destruct (resolve_type num_layers lp st) as [[s|t0]|] eqn:Er; cbn [bind] in Hp;
    [| |discriminate].
  - injection Hp as <-.
    destruct (resolve_type_fused _ _ Er) as (Hs & prev & _ & _ & Hf).
    destruct (fuse_scale_nodes _ _ _ Hf) as [node Hn].
    rewrite Hn, length_app, Hs. cbn. lia.
  - destruct (resolve_type_typed _ _ Er) as [Hrelu Hbn].
    destruct (record_layer_inv _ _ _ _ Hp)
      as (t & im & dimList & am' & out & _ & _ & _ & Ht & _ & _ & _ & Hg).
    assert (Htype : (t =? "batch_norm")%string = (lp_type lp =? "BatchNorm")%string).
    { destruct Ht as [-> | [Hr ->]]; [now rewrite Hbn|]. now rewrite Hr. }
    rewrite Htype in Hg.
    destruct Hg as [[Hd ->] | [Hd (node & _ & ->)]]; rewrite Hd.
    + rewrite add_param_nodes, add_param_nodes, extractBinary_nodes. cbn. lia.
    + cbn [addNode graph_nodes]. rewrite length_app.
      rewrite add_param_nodes, add_param_nodes, extractBinary_nodes. cbn. lia.
Qed.

Lemma process_layers_node_count
    (layers : list LayerParameter) (st st' : PassState) :
  process_layers num_layers inputsInfo layers st = Ok st' ->
  (List.length (graph_nodes (graph st')) + fused_pairs layers
   = List.length (graph_nodes (graph st)) + count_operators layers)%nat.
Proof.
  revert st. induction layers as [|lp rest IH]; intros st Hp.
  - injection Hp as <-. reflexivity.
  - cbn [process_layers] in Hp.
    destruct (process_layer num_layers inputsInfo lp (hd_error rest) st) as [s|] eqn:E1;
      cbn [bind] in Hp; [|discriminate].
    apply IH in Hp. apply process_layer_node_count in E1.
    unfold count_operators in *. cbn [fused_pairs filter].
    destruct (is_operator lp) eqn:Eo; cbn [List.length andb] in *.
    + destruct (fuses_with_next lp (hd_error rest)); cbn [negb] in E1; lia.
    + assert (Hf : fuses_with_next lp (hd_error rest) = false).
      { unfold fuses_with_next, is_operator, is_placeholder in *.
        destruct (String.eqb_spec (lp_type lp) "BatchNorm") as [Hb|]; [|reflexivity].
        rewrite Hb in Eo. discriminate Eo. }
      rewrite Hf. lia.
Qed.

(** At most one record is made in an iteration, so that the records never
    outnumber the layers visited. *)
Lemma process_layer_count
    (lp : LayerParameter) (next : option LayerParameter) (st st' : PassState) :
  process_layer num_layers inputsInfo lp next st = Ok st' ->
  (count st' <= S (count st))%nat.
Proof.
  unfold process_layer. intros Hp.
  destruct ((lp_type lp =? "Data")%string || (lp_type lp =? "ImageData")%string
            || (lp_type lp =? "Input")%string).
  { injection Hp as <-. lia. }
  destruct (lp_type lp =? "Dropout")%string.
  { bind_ok Hp. injection Hp as <-. unfold count. cbn. lia. }
  destruct (lp_type lp =? "Split")%string.
  { bind_ok Hp. injection Hp as <-. unfold count. cbn. lia. }
  destruct (resolve_type num_layers lp st) as [[s|t0]|] eqn:Er; cbn [bind] in Hp;
    [| |discriminate].
  - injection Hp as <-.
    destruct (resolve_type_fused _ _ Er) as (_ & prev & _ & _ & Hf).
    unfold fuse_scale in Hf.
    destruct (calculateTensorDims lp (info_inputs prev) (info_attributes prev))
      as [[dimList am']|]; cbn [bind] in Hf; [|discriminate].
    destruct (dict_lookup "output" dimList); cbn [bind] in Hf; [|discriminate].
    repeat match type of Hf with
           | context [add_param ?a ?b ?c ?d] => destruct (add_param a b c d)
           end.
    bind_ok Hf. injection Hf as <-. unfold count. cbn [inputOutputMap].
    rewrite length_app. cbn [List.length].
    rewrite removelast_firstn_len, length_firstn. lia.
  - destruct (record_layer_inv _ _ _ _ Hp)
      as (t & im & dimList & am' & out & _ & _ & _ & _ & Hio & _).
    unfold count. rewrite Hio, length_app. cbn. lia.
Qed.

Lemma process_layers_count
    (layers : list LayerParameter) (st st' : PassState) :
  process_layers num_layers inputsInfo layers st = Ok st' ->
  (count st' <= count st + List.length layers)%nat.
Proof.
  revert st. induction layers as [|lp rest IH]; intros st Hp.
  - injection Hp as <-. lia.
  - cbn [process_layers] in Hp.
    destruct (process_layer num_layers inputsInfo lp (hd_error rest) st) as [s|] eqn:E1;
      cbn [bind] in Hp; [|discriminate].
    apply IH in Hp. apply process_layer_count in E1. cbn [List.length]. lia.
Qed.

End Pass.

(** ** Dropout *)

Lemma alias_chain_after_dropout (st : PassState) (out src : string) :
  let renamed := through (outputNameAliasMap st) out in
  through (splitLayerMap st) renamed = renamed ->
  renamed = out \/ (renamed = src /\ dict_get src (dropoutLayerMap st) = None) ->
  through (dict_set out src (dropoutLayerMap st))
    (through (splitLayerMap st) (through (outputNameAliasMap st) out)) = src.
Proof.
  intros renamed Hs Hr. fold renamed. rewrite Hs.
  destruct Hr as [-> | [-> Hn]].
  - apply through_hit, dict_get_set_eq.
  - destruct (String.eqb_spec out src) as [->|Hne].
    + apply through_hit, dict_get_set_eq.
    + apply through_miss. now rewrite dict_get_set_ne.
Qed.

(** C7.  A Dropout layer between a producer and a consumer.  The producer
    is the record before it, holding the tensor [src], the name the
    Dropout's input resolves to through the rename table.  The Dropout's
    output name [out] is not a Split output and is either not renamed or
    renamed to [src] itself (a Dropout in place).  Then the iteration on
    the Dropout emits no node and records nothing but [out -> src] in the
    Dropout table; a consumer reading the Dropout's output gets the
    producer's tensor; and since a Dropout is not counted as an operator,
    the nodes of any pass that runs to its end are its operator layers,
    less the BatchNorm/Scale pairs folded into one node. *)
Theorem dropout_is_transparent
    (n : nat) (inputsInfo : dict dims) (drop : LayerParameter)
    (next : option LayerParameter) (st : PassState) (prev : LayerInfo)
    (b t : string) (bs ts : list string) (d : dims) :
  lp_type drop = "Dropout" ->
  lp_bottom drop = b :: bs ->
  lp_top drop = t :: ts ->
  let out := caffe_name_to_ir_name t in
  let src := through (outputNameAliasMap st) (caffe_name_to_ir_name b) in
  let renamed := through (outputNameAliasMap st) out in
  previous_layer st = Ok prev ->
  dict_get src (info_outputs prev) = Some d ->
  through (splitLayerMap st) renamed = renamed ->
  renamed = out \/ (renamed = src /\ dict_get src (dropoutLayerMap st) = None) ->
  exists st1,
    process_layer n inputsInfo drop next st = Ok st1 /\
    graph st1 = graph st /\
    inputOutputMap st1 = inputOutputMap st /\
    dropoutLayerMap st1 = dict_set out src (dropoutLayerMap st) /\
    (forall layer_type layer_name,
        later_layer_inputs st1 layer_type layer_name [t] 0 [] = Ok [(src, d)]) /\
    is_operator drop = false /\
    (forall m info layers s s',
        process_layers m info layers s = Ok s' ->
        (List.length (graph_nodes (graph s')) + fused_pairs layers
         = List.length (graph_nodes (graph s)) + count_operators layers)%nat).
Proof.
  intros Ht Hb Htop out src renamed Hprev Hd Hs Hr.
  eexists. split.
  { unfold process_layer. rewrite Ht, Hb, Htop. cbn. reflexivity. }
  cbn [graph inputOutputMap dropoutLayerMap].
  repeat split.
  - intros layer_type layer_name. cbn [later_layer_inputs].
    unfold previous_layer, count in *. cbn [inputOutputMap]. rewrite Hprev. cbn [bind].
    unfold alias_chain. cbn [dropoutLayerMap splitLayerMap outputNameAliasMap].
    fold out. fold src. rewrite (@alias_chain_after_dropout st out src Hs Hr).
    rewrite Hd. reflexivity.
  - unfold is_operator, is_placeholder. now rewrite Ht.
  - intros m info layers s s'. apply process_layers_node_count.
Qed.

Lemma dropout_is_transparent_witness :
  exists st1,
    process_layer 3 sample_inputs dropout_layer
      (Some relu_after_dropout) after_conv = Ok st1 /\
    graph st1 = graph after_conv /\
    dropoutLayerMap st1 = [("drop1", "conv1")] /\
    later_layer_inputs st1 "ReLU" "relu1" ["drop1"] 0 []
    = Ok [("conv1", [1; 64; 112; 112])].
Proof.
  destruct (@dropout_is_transparent 3 sample_inputs dropout_layer
              (Some relu_after_dropout) after_conv
              _ "conv1" "drop1" [] [] [1; 64; 112; 112]
              eq_refl eq_refl eq_refl eq_refl eq_refl eq_refl (or_introl eq_refl))
    as (st1 & H1 & H2 & _ & H4 & H5 & _).
  exists st1. repeat split; [exact H1 | exact H2 | exact H4 | apply H5].
Defined.

(** ** Global pooling *)

(** C9.  A Pooling layer with the global-pooling flag, whose inputs resolve
    to a map starting with (N, C, H, W).  Shape inference overwrites the
    lists of the attribute map: kernel_shape becomes [W, H], strides
    [1, 1], and of pads only the first two entries become 0, the last two
    keeping the declared pads.  The record stored for the layer holds this
    overwritten map, and the node emitted in the same iteration carries
    its values instead of the declared kernel, stride and pads. *)
Theorem global_pooling_overwrites_attributes
    (n : nat) (inputsInfo : dict dims) (lp : LayerParameter)
    (next : option LayerParameter) (st : PassState)
    (k : string) (rest : dict dims) (N C H W : Z) :
  lp_type lp = "Pooling" ->
  pool_global_pooling (pooling_param lp) = true ->
  resolve_inputs inputsInfo lp st = Ok ((k, [N; C; H; W]) :: rest) ->
  let pad_w := field_else (pool_pad_w (pooling_param lp)) (pool_pad (pooling_param lp)) in
  let pad_h := field_else (pool_pad_h (pooling_param lp)) (pool_pad (pooling_param lp)) in
  let overwritten : attribute_map :=
    [("strides", int_list [1; 1]);
     ("kernel_shape", int_list [W; H]);
     ("pads", int_list [0; 0; pad_w; pad_h]);
     ("dim_round_mode", PStr "ceil")] in
  (exists dimList,
      calculateTensorDims lp ((k, [N; C; H; W]) :: rest) (extractCaffeAttrInfo lp)
      = Ok (dimList, overwritten)) /\
  exists st' info node,
    process_layer n inputsInfo lp next st = Ok st' /\
    inputOutputMap st' = (inputOutputMap st ++ [info])%list /\
    info_attributes info = overwritten /\
    graph_nodes (graph st') = (graph_nodes (graph st) ++ [node])%list /\
    node_attr node =
      [("strides", IrInts [1; 1]);
       ("kernel_shape", IrInts [W; H]);
       ("pads", IrInts [0; 0; pad_w; pad_h]);
       ("dim_round_mode", IrStr "ceil")].
Proof.
  intros Ht Hg Hi pad_w pad_h overwritten.
  pose proof (calculateTensorDims_global_pooling lp k rest N C H W Ht Hg) as Hc.
  cbn zeta in Hc. fold pad_w pad_h overwritten in Hc.
  split; [eexists; exact Hc|].
  unfold process_layer, resolve_type. rewrite Ht.
  change (dict_get "Pooling" caffe2ir_op_type) with (@None string).
  cbn [String.eqb Ascii.eqb Bool.eqb orb bind].
  assert (Hrec : forall t : string,
             (t =? "batch_norm")%string = false ->
             exists st' info node,
               record_layer inputsInfo lp next (Some t) st = Ok st' /\
               inputOutputMap st' = (inputOutputMap st ++ [info])%list /\
               info_attributes info = overwritten /\
               graph_nodes (graph st') = (graph_nodes (graph st) ++ [node])%list /\
               node_attr node =
                 [("strides", IrInts [1; 1]);
                  ("kernel_shape", IrInts [W; H]);
                  ("pads", IrInts [0; 0; pad_w; pad_h]);
                  ("dim_round_mode", IrStr "ceil")]).
  { intros t Hbn. unfold record_layer. rewrite Ht.
    cbn [String.eqb Ascii.eqb Bool.eqb bind].
    rewrite Hi. cbn [bind]. rewrite Hc. cbn [bind].
    cbn [dict_lookup dict_get String.eqb Ascii.eqb Bool.eqb bind add_param].
    cbn [get_layer_type info_layer_type bind]. rewrite Hbn. cbn [andb].
    unfold caffe_node_to_ir_node. cbn [info_attributes].
    change (caffe_attr_to_ir_attr overwritten)
      with (@Ok IrAttr [("strides", IrInts [1; 1]);
                        ("kernel_shape", IrInts [W; H]);
                        ("pads", IrInts [0; 0; pad_w; pad_h]);
                        ("dim_round_mode", IrStr "ceil")]).
    cbn [bind]. do 3 eexists.
    split; [reflexivity|].
    cbn [inputOutputMap graph addNode graph_nodes info_attributes node_attr].
    rewrite extractBinary_nodes. repeat split. }
  destruct (pool_pool (pooling_param lp)); cbn [bind]; apply Hrec; reflexivity.
Qed.

Lemma global_pooling_overwrites_attributes_witness :
  exists st' info node,
    process_layer 2 sample_inputs global_pooling_layer None
                  (initial_state empty_graph) = Ok st' /\
    inputOutputMap st' = [info] /\
    info_attributes info =
      [("strides", int_list [1; 1]);
       ("kernel_shape", int_list [224; 224]);
       ("pads", int_list [0; 0; 1; 1]);
       ("dim_round_mode", PStr "ceil")] /\
    graph_nodes (graph st') = [node] /\
    node_attr node =
      [("strides", IrInts [1; 1]);
       ("kernel_shape", IrInts [224; 224]);
       ("pads", IrInts [0; 0; 1; 1]);
       ("dim_round_mode", IrStr "ceil")].
Proof.
  exact (proj2 (@global_pooling_overwrites_attributes
                  2 sample_inputs global_pooling_layer None
                  (initial_state empty_graph) "data" [] 1 3 224 224
                  eq_refl eq_refl eq_refl)).
Defined.

(** ** BatchNorm followed by Scale *)

Lemma calculateTensorDims_batch_norm_scale
    (lp : LayerParameter) (input_map : dict dims) (am : attribute_map) :
  lp_type lp = "BatchNorm" \/ lp_type lp = "Scale" ->
  calculateTensorDims lp input_map am =
    (x <- first_input input_map ;;
     '(n, c, h, w) <- unpack4 x ;;
     let dimList := if (0 <? List.length (lp_blobs lp))%nat
                    then dict_set "weights" [c] [] else [] in
     let dimList := if (1 <? List.length (lp_blobs lp))%nat
                    then dict_set "bias" [c] dimList else dimList in
     Ok (dict_set "output" [n; c; h; w] dimList, am)).
Proof.
  intros [Ht|Ht]; unfold calculateTensorDims; rewrite Ht; reflexivity.
Qed.

Lemma previous_layer_app (st : PassState) (l : list LayerInfo) (info : LayerInfo) :
  inputOutputMap st = (l ++ [info])%list ->
  previous_layer st = Ok info /\ count st = S (List.length l).
Proof.
  intros H. unfold previous_layer, count. rewrite H, length_app. cbn [List.length].
  replace (List.length l + 1 - 1)%nat with (List.length l) by lia.
  rewrite nth_error_app2 by lia. rewrite Nat.sub_diag. split; [reflexivity|lia].
Qed.

(** C1, amended.  A BatchNorm layer immediately followed by a Scale layer
    with two raw blobs and an output name.  The iteration on the BatchNorm
    emits no node; the iteration on the Scale emits exactly one, of type
    [batch_norm], and records no new layer.  The inputs of that node are,
    in this order, the inputs of the BatchNorm, the Scale's weight and bias,
    and then the BatchNorm's own weight and bias, one for each of its first
    two raw blobs.  The Scale step registers exactly two variables, the
    Scale's weight and bias, both of shape (C).  The bound on [count] holds
    in every pass ([process_layers_count]): the records never outnumber the
    layers visited, and the Scale layer is still to come. *)
Theorem batch_norm_scale_fusion
    (n : nat) (inputsInfo : dict dims) (bn sc : LayerParameter)
    (next : option LayerParameter) (st st1 : PassState)
    (t : string) (ts : list string) :
  lp_type bn = "BatchNorm" ->
  lp_type sc = "Scale" ->
  List.length (lp_blobs sc) = 2%nat ->
  lp_top sc = t :: ts ->
  (count st1 < n)%nat ->
  process_layer n inputsInfo bn (Some sc) st = Ok st1 ->
  let bn_name := caffe_name_to_ir_name (lp_name bn) in
  let sc_name := caffe_name_to_ir_name (lp_name sc) in
  exists st2 node im N C H W,
    resolve_inputs inputsInfo bn st = Ok im /\
    first_input im = Ok [N; C; H; W] /\
    graph_nodes (graph st1) = graph_nodes (graph st) /\
    process_layer n inputsInfo sc next st1 = Ok st2 /\
    graph_nodes (graph st2) = (graph_nodes (graph st) ++ [node])%list /\
    node_type node = "batch_norm" /\
    node_inputs node =
      map caffe_name_to_ir_name
          (keys im ++ [(sc_name ++ "_w")%string; (sc_name ++ "_b")%string]
           ++ own_parameters bn_name (List.length (lp_blobs bn)))%list /\
    node_outputs node = [caffe_name_to_ir_name sc_name] /\
    graph_variables (graph st2) =
      (graph_variables (graph st1)
       ++ [caffe_blob_to_ir_tensor (sc_name ++ "_w") "F032" [C];
           caffe_blob_to_ir_tensor (sc_name ++ "_b") "F032" [C]])%list /\
    count st2 = count st1.
Proof.
  intros Hbn Hsc Hblobs Htop Hcount Hp bn_name sc_name.
  unfold own_parameters.
  (* the BatchNorm iteration *)
  unfold process_layer, resolve_type in Hp. rewrite Hbn in Hp.
  cbn [String.eqb Ascii.eqb Bool.eqb orb bind caffe2ir_op_type dict_get] in Hp.
  destruct (record_layer_inv _ _ _ _ _ Hp)
    as (tb & im & dimList & am' & out & Hi & Hc & Ho & Htb & Hio & _ & _ & Hg).
  assert (tb = "batch_norm") as ->.
  { destruct Htb as [[= <-] | [Hr _]]; [reflexivity|congruence]. }
  rewrite calculateTensorDims_batch_norm_scale in Hc by now left.
  destruct (first_input im) as [x|] eqn:Ex; cbn [bind] in Hc; [|discriminate].
  destruct (unpack4 x) as [[[[N C] H] W]|] eqn:Eu; cbn [bind] in Hc; [|discriminate].
  apply unpack4_ok in Eu. subst x.
  injection Hc as <- <-.
  remember (0 <? List.length (lp_blobs bn))%nat as b0 eqn:Eb0 in *.
  remember (1 <? List.length (lp_blobs bn))%nat as b1 eqn:Eb1 in *.
  clear Eb0 Eb1.
  destruct Hg as [[_ Hg] | [Hd _]];
    [|cbn [String.eqb Ascii.eqb Bool.eqb andb followed_by_scale] in Hd;
      rewrite Hsc in Hd; discriminate Hd].
  destruct (@previous_layer_app st1 _ _ Hio) as [Hprev Hcnt].
  eexists. eexists. exists im, N, C, H, W.
  split; [exact Hi|]. split; [exact Ex|].
  assert (Hn1 : graph_nodes (graph st1) = graph_nodes (graph st)).
  { rewrite Hg, add_param_nodes, add_param_nodes, extractBinary_nodes. reflexivity. }
  split; [exact Hn1|].
  split.
  { (* the Scale iteration *)
    unfold process_layer, resolve_type. rewrite Hsc.
    cbn [String.eqb Ascii.eqb Bool.eqb orb bind caffe2ir_op_type dict_get].
    rewrite Hprev. unfold get_layer_type at 1. cbn [info_layer_type bind].
    cbn [String.eqb Ascii.eqb Bool.eqb].
    replace ((0 <? count st1)%nat && (count st1 <? n)%nat) with true
      by (symmetry; apply andb_true_iff; split;
          [apply Nat.ltb_lt; lia | now apply Nat.ltb_lt]).
    unfold fuse_scale. cbn [info_inputs info_attributes].
    rewrite calculateTensorDims_batch_norm_scale by now right.
    rewrite Ex. cbn [bind unpack4]. rewrite Hblobs.
    cbn [Nat.ltb Nat.leb dict_set dict_lookup dict_get String.eqb Ascii.eqb Bool.eqb
         bind add_param].
    rewrite Htop. cbn [index nth_error bind].
    cbn [get_layer_type info_layer_type bind].
    unfold caffe_node_to_ir_node.
    cbn [info_attributes info_inputs info_outputs info_scale_weights info_scale_bias
         info_weights info_biases info_layer_type opt_map].
    assert (Hattr : caffe_attr_to_ir_attr (extractCaffeAttrInfo bn)
                    = Ok [("epsilon", IrFloat (batch_norm_eps bn))]).
    { unfold extractCaffeAttrInfo. rewrite Hbn. reflexivity. }
    rewrite Hattr. cbn [bind].
    reflexivity. }
  cbn [graph addNode graph_nodes graph_variables addVariable node_type node_inputs
       node_outputs inputOutputMap].
  rewrite extractBinary_nodes, extractBinary_variables, Hn1.
  repeat split.
  - destruct b0, b1; reflexivity.
  - now rewrite <- app_assoc.
  - unfold count. cbn [inputOutputMap]. rewrite Hio, removelast_last, !length_app.
    reflexivity.
Qed.

Lemma batch_norm_scale_fusion_witness :
  exists st2 node,
    process_layer 3 sample_inputs scale_layer None after_batch_norm = Ok st2 /\
    graph_nodes (graph st2) = [node] /\
    node_type node = "batch_norm" /\
    node_inputs node = ["data"; "scale1_w"; "scale1_b"; "bn1_w"; "bn1_b"] /\
    graph_variables (graph st2) =
      (graph_variables (graph after_batch_norm)
       ++ [mkIrTensor "scale1_w" "F032" [3]; mkIrTensor "scale1_b" "F032" [3]])%list.
Proof.
  destruct (@batch_norm_scale_fusion 3 sample_inputs batch_norm_layer scale_layer
              None (initial_state empty_graph) after_batch_norm "scale1" []
              eq_refl eq_refl eq_refl eq_refl (le_S _ _ (le_n 2)) eq_refl)
    as (st2 & node & im & N & C & H & W & Hi & Hf & _ & Hp & Hn & Ht & Hin & _ & Hv & _).
  injection Hi as <-. injection Hf as <- <- <- <-.
  exists st2, node. repeat split; assumption.
Defined.

(** C1 as stated does not hold: for a BatchNorm with its three blobs
    followed by a Scale with two, the single [batch_norm] node has five
    inputs, not four. *)
Lemma fused_node_has_five_inputs :
  exists g node,
    caffe2ir bn_scale_net [1; 3; 224; 224] = Ok g /\
    graph_nodes g = [node] /\
    node_type node = "batch_norm" /\
    node_inputs node = ["data"; "scale1_w"; "scale1_b"; "bn1_w"; "bn1_b"] /\
    List.length (node_inputs node) <> 4%nat.
Proof.
  eexists. eexists. split; [vm_compute; reflexivity|].
  repeat split. discriminate.
Qed.

(** ** Scale without a batch_norm before it *)

(** With a record before it that is not a batch_norm, a Scale layer becomes
    [mul] when it has one blob and [muladd] otherwise. *)
Lemma scale_after_other_record
    (n : nat) (lp : LayerParameter) (st : PassState) (prev : LayerInfo) (pt : string) :
  lp_type lp = "Scale" ->
  (0 < count st < n)%nat ->
  previous_layer st = Ok prev ->
  info_layer_type prev = Some pt ->
  pt <> "batch_norm" ->
  resolve_type n lp st
  = Ok (Typed (Some (if (List.length (lp_blobs lp) =? 1)%nat then "mul" else "muladd"))).
Proof.
  intros Ht [Hc1 Hc2] Hp Hpt Hne. unfold resolve_type. rewrite Ht.
  cbn [caffe2ir_op_type dict_get String.eqb Ascii.eqb Bool.eqb].
  apply Nat.ltb_lt in Hc1, Hc2. rewrite Hc1, Hc2. cbn [andb].
  rewrite Hp. cbn [bind]. unfold get_layer_type. rewrite Hpt. cbn [bind].
  destruct (String.eqb_spec pt "batch_norm"); [contradiction|reflexivity].
Qed.

(** With no record before it, the operator type of a Scale layer is left
    out, and the iteration cannot run to its end. *)
Lemma scale_without_record_fails
    (n : nat) (inputsInfo : dict dims) (lp : LayerParameter)
    (next : option LayerParameter) (st : PassState) :
  lp_type lp = "Scale" ->
  count st = 0%nat ->
  is_ok (process_layer n inputsInfo lp next st) = false.
Proof.
  intros Ht Hc. unfold process_layer, resolve_type. rewrite Ht, Hc.
  cbn [caffe2ir_op_type dict_get String.eqb Ascii.eqb Bool.eqb orb Nat.ltb Nat.leb
       andb bind].
  destruct (record_layer inputsInfo lp next None st) as [st'|] eqn:Hr; [|reflexivity].
  apply record_layer_inv in Hr.
  destruct Hr as (t & _ & _ & _ & _ & _ & _ & _ & [Hn | [Hr _]] & _); congruence.
Qed.

(** C5 fails on the code when the Scale layer is the first operator: the
    pass on [scale_first_net] stops on the missing key "layer_type" and
    returns no graph. *)
Theorem scale_as_first_operator_aborts :
  caffe2ir scale_first_net [1; 3; 224; 224] = Err (KeyError "layer_type").
Proof. vm_compute. reflexivity. Qed.

(** ** Inputs of the first recorded layer *)

(** The first recorded layer looks its inputs up by their names as written
    in the model, not by their canonical names. *)
Lemma first_layer_inputs_by_raw_name
    (inputsInfo : dict dims) (layer_name input : string) (rest : list string)
    (input_info_map : dict dims) :
  dict_mem input inputsInfo = false ->
  first_layer_inputs inputsInfo layer_name (input :: rest) input_info_map
  = Err (SysExit (NoInputDimensions layer_name)).
Proof. intros H. cbn [first_layer_inputs]. now rewrite H. Qed.

(** C6 fails on the code when the input name holds a dash: in
    [dashed_input_net] the canonical name of the first layer's input is the
    declared network input [data_in], and yet the pass stops for want of
    input dimensions. *)
Theorem dashed_input_is_not_resolved :
  caffe_name_to_ir_name "data-in" = "data_in" /\
  (exists g, extractInput dashed_input_net empty_graph [1; 3; 224; 224]
             = Ok ([("data_in", [1; 3; 224; 224])], g)) /\
  caffe2ir dashed_input_net [1; 3; 224; 224]
  = Err (SysExit (NoInputDimensions "conv1")).
Proof.
  split; [reflexivity|]. split; [eexists; reflexivity|].
  vm_compute. reflexivity.
Qed.

(** * Further properties *)

(** ** Name canonicaliser *)

Lemma split_nonempty (sep : ascii) (s : string) : split sep s <> [].
Proof.
  destruct s as [|c r]; simpl; [discriminate|].
  destruct (Ascii.eqb c sep); [discriminate|].
  destruct (split sep r); discriminate.
Qed.

Lemma join_cons_char (sep : string) (c : ascii) (p : string) (ps : list string) :
  join sep (String c p :: ps) = String c (join sep (p :: ps)).
Proof. unfold join. destruct ps; reflexivity. Qed.

(** Splitting at a character and joining with ["_"] replaces that character. *)
Lemma join_split (sep : ascii) (s : string) :
  join "_" (split sep s)
  = map_chars (fun c => if Ascii.eqb c sep then "_"%char else c) s.
Proof.
  induction s as [|c r IH]; [reflexivity|].
  cbn [split map_chars].
  destruct (Ascii.eqb c sep).
  - rewrite <- IH. unfold join.
    pose proof (split_nonempty sep r) as Hne.
    destruct (split sep r) as [|p ps]; [contradiction|]. reflexivity.
  - pose proof (split_nonempty sep r) as Hne.
    destruct (split sep r) as [|p ps]; [contradiction|].
    rewrite join_cons_char. now rewrite IH.
Qed.

Lemma map_chars_compose (f g : ascii -> ascii) (s : string) :
  map_chars f (map_chars g s) = map_chars (fun c => f (g c)) s.
Proof. induction s as [|c r IH]; simpl; [reflexivity|now rewrite IH]. Qed.

Lemma map_chars_ext (f g : ascii -> ascii) (s : string) :
  (forall c, f c = g c) -> map_chars f s = map_chars g s.
Proof.
  intros H. induction s as [|c r IH]; simpl; [reflexivity|now rewrite H, IH].
Qed.

Lemma canon_char_spec (c : ascii) :
  (if Ascii.eqb (if Ascii.eqb c "/" then "_"%char else c) "-"
   then "_"%char else (if Ascii.eqb c "/" then "_"%char else c))
  = canon_char c.
Proof.
  unfold canon_char.
  destruct (Ascii.eqb_spec c "/") as [->|H1]; [reflexivity|].
  now destruct (Ascii.eqb c "-").
Qed.

Lemma canon_as_map (name : string) :
  caffe_name_to_ir_name name = map_chars canon_char name.
Proof.
  unfold caffe_name_to_ir_name. rewrite !join_split, map_chars_compose.
  apply map_chars_ext, canon_char_spec.
Qed.

(** X1.  The canonicaliser, written with [split] and [join] as in the
    source, replaces every ['/'] and every ['-'] by ['_'] and changes no
    other character; in particular it keeps the length of the name. *)
Theorem caffe_name_to_ir_name_replaces (name : string) :
  caffe_name_to_ir_name name = map_chars canon_char name /\
  String.length (caffe_name_to_ir_name name) = String.length name.
Proof.
  split; [apply canon_as_map|].
  rewrite canon_as_map. induction name as [|c r IH]; simpl; congruence.
Qed.

Lemma canon_char_idempotent (c : ascii) : canon_char (canon_char c) = canon_char c.
Proof.
  unfold canon_char.
  destruct (Ascii.eqb c "/" || Ascii.eqb c "-")%bool eqn:E; [reflexivity|].
  now rewrite E.
Qed.

Lemma canon_idempotent (name : string) :
  caffe_name_to_ir_name (caffe_name_to_ir_name name) = caffe_name_to_ir_name name.
Proof.
  rewrite !canon_as_map, map_chars_compose.
  apply map_chars_ext, canon_char_idempotent.
Qed.

Lemma canon_is_canonical (name : string) :
  is_canonical (caffe_name_to_ir_name name) = true.
Proof.
  rewrite canon_as_map. unfold is_canonical.
  induction name as [|c r IH]; [reflexivity|].
  cbn [map_chars has_char]. apply andb_prop in IH as [H1 H2].
  apply negb_true_iff in H1, H2. rewrite H1, H2, !orb_false_r.
  unfold canon_char.
  destruct (Ascii.eqb_spec c "/") as [->|N1]; [reflexivity|].
  destruct (Ascii.eqb_spec c "-") as [->|N2]; [reflexivity|].
  cbn [orb].
  destruct (Ascii.eqb_spec c "/"); [contradiction|].
  destruct (Ascii.eqb_spec c "-"); [contradiction|]. reflexivity.
Qed.

Lemma canon_fixes_canonical (name : string) :
  is_canonical name = true -> caffe_name_to_ir_name name = name.
Proof.
  rewrite canon_as_map. unfold is_canonical.
  induction name as [|c r IH]; [reflexivity|].
  cbn [map_chars has_char]. intros H.
  apply andb_prop in H as [H1 H2]. apply negb_true_iff in H1, H2.
  apply orb_false_elim in H1 as [H1 H1']. apply orb_false_elim in H2 as [H2 H2'].
  rewrite IH by (now rewrite H1', H2').
  unfold canon_char. now rewrite H1, H2.
Qed.

(** X2.  Canonicalising is idempotent, its result holds neither ['/'] nor
    ['-'], and the names it leaves alone are exactly those that hold
    neither. *)
Theorem caffe_name_to_ir_name_idempotent (name : string) :
  caffe_name_to_ir_name (caffe_name_to_ir_name name) = caffe_name_to_ir_name name /\
  is_canonical (caffe_name_to_ir_name name) = true /\
  (caffe_name_to_ir_name name = name <-> is_canonical name = true).
Proof.
  split; [apply canon_idempotent|]. split; [apply canon_is_canonical|].
  split; [|apply canon_fixes_canonical].
  intros H. rewrite <- H. apply canon_is_canonical.
Qed.

(** ** Shape inference: edge cases and the remaining rules *)


Lemma first_input_nonempty (input_map : dict dims) (e : exn) :
  first_input input_map = Err e -> input_map = [] /\ e = IndexError.
Proof.
  destruct input_map as [|[k v] rest]; [now intros [= <-]|].
  rewrite first_input_cons. discriminate.
Qed.







(** X4.  Shape inference hands the attribute map back as it received it,
    except for a Pooling layer with the global-pooling flag: no other
    layer has its attributes overwritten. *)
Theorem calculateTensorDims_keeps_attributes
    (lp : LayerParameter) (input_map : dict dims) (am am' : attribute_map)
    (dimList : dict dims) :
  calculateTensorDims lp input_map am = Ok (dimList, am') ->
  (lp_type lp =? "Pooling")%string && pool_global_pooling (pooling_param lp) = false ->
  am' = am.
Proof.
  unfold calculateTensorDims. intros Hc Hg.
  destruct (lp_type lp =? "Convolution")%string.
  { bind_ok Hc. now injection Hc. }
  destruct (lp_type lp =? "Deconvolution")%string.
  { bind_ok Hc. now injection Hc. }
  destruct (lp_type lp =? "Pooling")%string.
  { cbn [andb] in Hg. rewrite Hg in Hc. cbn [bind] in Hc. bind_ok Hc.
    now injection Hc. }
  repeat match type of Hc with
         | (if ?b then _ else _) = Ok _ => destruct b
         end; bind_ok Hc; now injection Hc.
Qed.

Lemma calculateTensorDims_keeps_attributes_witness :
  exists dimList am',
    calculateTensorDims (square_pooling "pool1" ["conv1"] ["pool1"] MAX 3 2 1 false)
      [("conv1", [1; 64; 112; 112])]
      (extractCaffeAttrInfo (square_pooling "pool1" ["conv1"] ["pool1"] MAX 3 2 1 false))
    = Ok (dimList, am') /\
    am' = extractCaffeAttrInfo (square_pooling "pool1" ["conv1"] ["pool1"] MAX 3 2 1 false).
Proof.
  eexists. eexists. split; [vm_compute; reflexivity|].
  exact (@calculateTensorDims_keeps_attributes
           (square_pooling "pool1" ["conv1"] ["pool1"] MAX 3 2 1 false)
           [("conv1", [1; 64; 112; 112])]
           (extractCaffeAttrInfo
              (square_pooling "pool1" ["conv1"] ["pool1"] MAX 3 2 1 false))
           _ _ eq_refl eq_refl).
Defined.

(** X5.  A Deconvolution layer on an input (N, C, H, W), with strides
    [sw, sh], kernel [kw, kh], pads [pw, ph, ..] and dilations [dw, dh],
    gets the output (N, num_output, sh (H-1) + dh (kh-1) + 1 - 2 ph,
    sw (W-1) + dw (kw-1) + 1 - 2 pw) and the weight shape
    (num_output, C, kh, kw); a bias of shape (num_output) is there exactly
    when the bias term is set.  No stride or size makes it fail. *)
Theorem deconvolution_output_dims
    (lp : LayerParameter) (am : attribute_map) (k : string) (rest : dict dims)
    (N C H W sw sh kw kh pw ph pr pb dw dh : Z) :
  lp_type lp = "Deconvolution" ->
  dict_get "strides" am = Some (int_list [sw; sh]) ->
  dict_get "kernel_shape" am = Some (int_list [kw; kh]) ->
  dict_get "pads" am = Some (int_list [pw; ph; pr; pb]) ->
  dict_get "dilations" am = Some (int_list [dw; dh]) ->
  exists dimList,
    calculateTensorDims lp ((k, [N; C; H; W]) :: rest) am = Ok (dimList, am) /\
    dict_get "output" dimList =
      Some [N; conv_num_output (convolution_param lp);
            sh * (H - 1) + dh * (kh - 1) + 1 - 2 * ph;
            sw * (W - 1) + dw * (kw - 1) + 1 - 2 * pw] /\
    dict_get "weights" dimList =
      Some [conv_num_output (convolution_param lp); C; kh; kw] /\
    dict_get "bias" dimList =
      (if conv_bias_term (convolution_param lp)
       then Some [conv_num_output (convolution_param lp)] else None).
Proof.
  intros Ht Hs Hk Hp Hd.
  unfold calculateTensorDims. rewrite Ht. simpl String.eqb. cbv iota.
  rewrite (attr_list_int_list _ _ Hs), (attr_list_int_list _ _ Hp),
          (attr_list_int_list _ _ Hd), (attr_list_int_list _ _ Hk).
  rewrite first_input_cons. cbn -[Z.mul Z.add Z.sub dict_set with_params].
  eexists; split; [reflexivity|].
  unfold with_params.
  destruct (conv_bias_term (convolution_param lp)); repeat split; reflexivity.
Qed.

Lemma deconvolution_output_dims_witness :
  exists dimList,
    calculateTensorDims deconv_4x4_s2_p1 [("conv1", [1; 8; 14; 14])]
      (extractCaffeAttrInfo deconv_4x4_s2_p1)
    = Ok (dimList, extractCaffeAttrInfo deconv_4x4_s2_p1) /\
    dict_get "output" dimList = Some [1; 16; 28; 28] /\
    dict_get "weights" dimList = Some [16; 8; 4; 4] /\
    dict_get "bias" dimList = None.
Proof.
  exact (@deconvolution_output_dims deconv_4x4_s2_p1
           (extractCaffeAttrInfo deconv_4x4_s2_p1) "conv1" []
           1 8 14 14 2 2 4 4 1 1 1 1 1 1
           eq_refl eq_refl eq_refl eq_refl eq_refl).
Defined.

(** X6.  An InnerProduct layer on an input (N, C, H, W) gets the output
    (N, num_output, 1, 1) and the weight shape (num_output, C, H, W); a
    bias of shape (num_output) is there exactly when the bias term is set.
    The attribute map plays no part. *)
Theorem inner_product_dims
    (lp : LayerParameter) (am : attribute_map) (k : string) (rest : dict dims)
    (N C H W : Z) :
  lp_type lp = "InnerProduct" ->
  let num_output := ip_num_output (inner_product_param lp) in
  exists dimList,
    calculateTensorDims lp ((k, [N; C; H; W]) :: rest) am = Ok (dimList, am) /\
    dict_get "output" dimList = Some [N; num_output; 1; 1] /\
    dict_get "weights" dimList = Some [num_output; C; H; W] /\
    dict_get "bias" dimList =
      (if ip_bias_term (inner_product_param lp) then Some [num_output] else None).
Proof.
  intros Ht num_output.
  unfold calculateTensorDims. rewrite Ht. simpl String.eqb. cbv iota.
  rewrite first_input_cons. cbn [bind unpack4].
  eexists; split; [reflexivity|].
  unfold with_params.
  destruct (ip_bias_term (inner_product_param lp)); repeat split; reflexivity.
Qed.

Lemma inner_product_dims_witness :
  exists dimList,
    calculateTensorDims inner_product_10 [("pool1", [1; 512; 7; 7])] []
    = Ok (dimList, []) /\
    dict_get "output" dimList = Some [1; 10; 1; 1] /\
    dict_get "weights" dimList = Some [10; 512; 7; 7] /\
    dict_get "bias" dimList = Some [10].
Proof.
  exact (@inner_product_dims inner_product_10 [] "pool1" [] 1 512 7 7 eq_refl).
Defined.

Lemma dict_get_in (V : Type) (m : dict V) (k : string) (v : V) :
  NoDup (keys m) -> In (k, v) m -> dict_get k m = Some v.
Proof.
  induction m as [|[k' v'] m IH]; intros Hnd Hin; [easy|].
  cbn [keys map fst] in Hnd. inversion Hnd as [|? ? Hnotin Hnd']; subst.
  cbn [dict_get]. destruct Hin as [[= -> ->]|Hin].
  - now rewrite String.eqb_refl.
  - destruct (String.eqb_spec k k') as [->|Hne].
    + exfalso. apply Hnotin. change k' with (fst (k', v)). now apply in_map.
    + now apply IH.
Qed.

Lemma concat_channels_sum (m l : dict dims) (acc : Z) :
  (forall k v, In (k, v) l -> dict_get k m = Some v /\ List.length v = 4%nat) ->
  concat_channels (keys l) m acc
  = Ok (fold_left (fun a kv => a + nth 1 (snd kv) 0) l acc).
Proof.
  revert acc. induction l as [|[k v] l IH]; intros acc H; [reflexivity|].
  cbn [keys map fst concat_channels fold_left snd].
  destruct (H k v (or_introl eq_refl)) as [Hg Hlen].
  unfold dict_lookup. rewrite Hg. cbn [bind].
  destruct v as [|a [|b [|c [|d [|e v]]]]]; try discriminate Hlen.
  cbn [unpack4 bind nth]. apply IH.
  intros k' v' Hin. apply H. now right.
Qed.

(** X7.  A Concat layer whose inputs all have four dimensions gets the
    batch, height and width of its first input and, as channels, the sum
    of the channels of all its inputs. *)
Theorem concat_dims
    (lp : LayerParameter) (am : attribute_map) (k : string) (rest : dict dims)
    (N C H W : Z) :
  lp_type lp = "Concat" ->
  NoDup (keys ((k, [N; C; H; W]) :: rest)) ->
  Forall (fun kv => List.length (snd kv) = 4%nat) rest ->
  calculateTensorDims lp ((k, [N; C; H; W]) :: rest) am
  = Ok ([("output", [N; channel_sum ((k, [N; C; H; W]) :: rest); H; W])], am).
Proof.
  intros Ht Hnd Hall.
  unfold calculateTensorDims. rewrite Ht. simpl String.eqb. cbv iota.
  rewrite (@concat_channels_sum ((k, [N; C; H; W]) :: rest)
             ((k, [N; C; H; W]) :: rest) 0).
  - cbn [bind]. rewrite first_input_cons. reflexivity.
  - intros k' v' Hin. split; [now apply dict_get_in|].
    destruct Hin as [[= <- <-]|Hin]; [reflexivity|].
    rewrite Forall_forall in Hall. exact (Hall _ Hin).
Qed.

Lemma concat_dims_witness :
  calculateTensorDims concat_layer
    [("a", [1; 64; 28; 28]); ("b", [1; 128; 28; 28]); ("c", [1; 32; 28; 28])] []
  = Ok ([("output", [1; 224; 28; 28])], []).
Proof.
  refine (@concat_dims concat_layer [] "a"
            [("b", [1; 128; 28; 28]); ("c", [1; 32; 28; 28])] 1 64 28 28
            eq_refl _ _).
  - repeat constructor; cbn; intuition discriminate.
  - repeat constructor.
Defined.

(** ** Binaries *)

Lemma map_chars_app (f : ascii -> ascii) (a b : string) :
  map_chars f (a ++ b) = (map_chars f a ++ map_chars f b)%string.
Proof. induction a as [|c a IH]; simpl; [reflexivity|now rewrite IH]. Qed.

Lemma canon_suffix (name suffix : string) :
  is_canonical suffix = true ->
  caffe_name_to_ir_name (caffe_name_to_ir_name name ++ suffix)
  = (caffe_name_to_ir_name name ++ suffix)%string.
Proof.
  intros Hs. rewrite (canon_as_map (_ ++ _)), map_chars_app.
  rewrite <- !canon_as_map, canon_idempotent.
  now rewrite (canon_fixes_canonical suffix Hs).
Qed.

(** X8.  [extractBinary] hands the sink one binary for each of the first
    two raw blobs of the layer and none for any further blob: the first
    under the canonical layer name followed by [_w], the second under the
    same name followed by [_b], each with the floats of its blob.  Nothing
    else in the graph changes; a layer without blobs leaves it as it is. *)
Theorem extractBinary_effect (lp : LayerParameter) (g : IrGraph) :
  let name := caffe_name_to_ir_name (lp_name lp) in
  extractBinary lp g =
    mkIrGraph (graph_inputs g) (graph_outputs g) (graph_variables g)
      (graph_binaries g
       ++ combine [(name ++ "_w")%string; (name ++ "_b")%string]
                  (firstn 2 (lp_blobs lp)))%list
      (graph_nodes g) (graph_locals_updated g).
Proof.
  intros name. subst name. unfold extractBinary.
  rewrite !canon_suffix by reflexivity.
  destruct g as [gi go gv gb gn gl].
  destruct (lp_blobs lp) as [|w [|b more]];
    unfold addBinary, convert_caffe_bin_to_ir_bin; cbn -[app String.append].
  - now rewrite app_nil_r.
  - reflexivity.
  - now rewrite <- app_assoc.
Qed.

(** ** Boundary extractors *)

Lemma extractInput_cases
    (net : NetParameter) (g : IrGraph) (input_dims : dims) :
  match extractInput net g input_dims with
  | Ok (inputList, g') =>
      exists name,
        is_canonical name = true /\
        inputList = [(name, input_dims)] /\
        g' = addInput (mkIrTensor name "F032" input_dims) g /\
        (forall x xs, net_input net = x :: xs -> name = caffe_name_to_ir_name x)
  | Err e =>
      e = IndexError /\
      (net_layer net = [] \/
       (net_input net = [] /\
        exists lp rest,
          net_layer net = lp :: rest /\ is_placeholder (lp_type lp) = false /\
          lp_bottom lp = [] /\ lp_top lp = []))
  end.
Proof.
  assert (Hok : forall x,
             exists name,
               is_canonical name = true /\
               dict_set (caffe_name_to_ir_name x) input_dims []
               = [(name, input_dims)] /\
               addInput (caffe_blob_to_ir_tensor (caffe_name_to_ir_name x)
                                                 "F032" input_dims) g
               = addInput (mkIrTensor name "F032" input_dims) g /\
               name = caffe_name_to_ir_name x).
  { intros x. exists (caffe_name_to_ir_name x).
    split; [apply canon_is_canonical|]. split; [reflexivity|].
    split; [|reflexivity].
    unfold caffe_blob_to_ir_tensor. now rewrite canon_idempotent. }
  unfold extractInput.
  destruct (net_layer net) as [|lp rest] eqn:El; cbn [index nth_error bind].
  { split; [reflexivity|now left]. }
  destruct (net_input net) as [|x xs] eqn:Ei; cbn [bind].
  - destruct (is_placeholder (lp_type lp)) eqn:Ep.
    + destruct (lp_top lp) as [|t ts]; cbn [bind];
        [destruct (Hok (lp_name lp)) as (name & H1 & H2 & H3 & _)
        |destruct (Hok t) as (name & H1 & H2 & H3 & _)];
        exists name; rewrite H2, H3; repeat split; try assumption; discriminate.
    + destruct (lp_bottom lp) as [|b bs] eqn:Eb; cbn [bind].
      * destruct (lp_top lp) as [|t ts] eqn:Et; cbn [index nth_error bind].
        -- split; [reflexivity|]. right. split; [reflexivity|].
           exists lp, rest. repeat split; assumption.
        -- destruct (Hok t) as (name & H1 & H2 & H3 & _).
           exists name; rewrite H2, H3; repeat split; try assumption; discriminate.
      * destruct (Hok b) as (name & H1 & H2 & H3 & _).
        exists name; rewrite H2, H3; repeat split; try assumption; discriminate.
  - destruct (Hok x) as (name & H1 & H2 & H3 & H4).
    exists name; rewrite H2, H3; repeat split; try assumption.
    intros x' xs' [= <- <-]. exact H4.
Qed.



(** ** The pass and the sink *)

Lemma sink_calls_trans (g1 g2 g3 : IrGraph) :
  sink_calls g1 g2 -> sink_calls g2 g3 -> sink_calls g1 g3.
Proof.
  intros H12 H23. induction H23; [assumption| | |]; now constructor.
Qed.

Lemma extractBinary_calls (lp : LayerParameter) (g : IrGraph) :
  sink_calls g (extractBinary lp g).
Proof.
  unfold extractBinary.
  destruct (nth_error (lp_blobs lp) 0), (nth_error (lp_blobs lp) 1);
    repeat (first [apply calls_none | apply calls_binary;
                                      [|apply canon_is_canonical]]).
Qed.

Lemma add_param_calls (dimList : dict dims) (key name : string) (g : IrGraph) :
  sink_calls g (snd (add_param dimList key name g)).
Proof.
  unfold add_param. destruct (dict_get key dimList); cbn [snd].
  - apply calls_variable; [apply calls_none|]. apply canon_is_canonical.
  - apply calls_none.
Qed.

Lemma forallb_canon (l : list string) :
  forallb is_canonical (map caffe_name_to_ir_name l) = true.
Proof.
  induction l as [|x l IH]; [reflexivity|].
  cbn [map forallb]. now rewrite canon_is_canonical, IH.
Qed.

Lemma caffe_node_to_ir_node_canonical (t : string) (info : LayerInfo) (node : IrNode) :
  caffe_node_to_ir_node t info = Ok node ->
  node_canonical node = true /\ node_type node = t.
Proof.
  unfold caffe_node_to_ir_node. intros H. bind_ok H. injection H as <-.
  unfold node_canonical. cbn [node_inputs node_outputs node_type].
  now rewrite !forallb_canon.
Qed.

(** What a successful [fuse_scale] has done. *)
Lemma fuse_scale_inv (lp : LayerParameter) (prev : LayerInfo) (st st' : PassState) :
  fuse_scale lp prev st = Ok st' ->
  exists dimList am' out pt node,
    calculateTensorDims lp (info_inputs prev) (info_attributes prev)
    = Ok (dimList, am') /\
    dict_get "output" dimList = Some out /\
    info_layer_type prev = Some pt /\
    let name := caffe_name_to_ir_name (lp_name lp) in
    let wp := add_param dimList "weights" (name ++ "_w")
                        (extractBinary lp (graph st)) in
    let bp := add_param dimList "bias" (name ++ "_b") (snd wp) in
    let info :=
      mkLayerInfo name (Some pt) (info_attributes prev) (info_inputs prev)
        [(name, out)] (info_weights prev) (info_biases prev)
        (match fst wp with Some m => Some m | None => info_scale_weights prev end)
        (match fst bp with Some m => Some m | None => info_scale_bias prev end) in
    caffe_node_to_ir_node pt info = Ok node /\
    inputOutputMap st' = (removelast (inputOutputMap st) ++ [info])%list /\
    dropoutLayerMap st' = dropoutLayerMap st /\
    splitLayerMap st' = splitLayerMap st /\
    inputsMap st' = inputsMap st /\
    outputsMap st' = dict_update (outputsMap st) [(name, out)] /\
    graph st' = addNode node (snd bp).
Proof.
  unfold fuse_scale. intros Hf.
  destruct (calculateTensorDims lp (info_inputs prev) (info_attributes prev))
    as [[dimList am']|] eqn:Ec; cbn [bind] in Hf; [|discriminate].
  unfold dict_lookup in Hf.
  destruct (dict_get "output" dimList) as [out|] eqn:Eo; cbn [bind] in Hf; [|discriminate].
  destruct (add_param dimList "weights"
              (caffe_name_to_ir_name (lp_name lp) ++ "_w")
              (extractBinary lp (graph st))) as [wm g1] eqn:Ew.
  destruct (add_param dimList "bias"
              (caffe_name_to_ir_name (lp_name lp) ++ "_b") g1) as [bm g2] eqn:Eb.
  destruct (index (lp_top lp) 0) as [t|]; cbn [bind] in Hf; [|discriminate].
  unfold get_layer_type in Hf.
  destruct (info_layer_type prev) as [pt|] eqn:Ept; cbn [bind] in Hf; [|discriminate].
  destruct (caffe_node_to_ir_node pt _) as [node|] eqn:En; cbn [bind] in Hf;
    [|discriminate].
  injection Hf as <-.
  exists dimList, am', out, pt, node.
  do 3 (split; [reflexivity || assumption|]).
  cbn zeta. rewrite Ew. cbn [fst snd]. rewrite Eb. cbn [fst snd].
  split; [reflexivity || exact En|]. cbn. repeat split.
Qed.

Lemma process_layer_calls (n : nat) (inputsInfo : dict dims) (lp : LayerParameter)
    (next : option LayerParameter) (st st' : PassState) :
  process_layer n inputsInfo lp next st = Ok st' ->
  sink_calls (graph st) (graph st').
Proof.
  unfold process_layer. intros Hp.
  destruct ((lp_type lp =? "Data")%string || (lp_type lp =? "ImageData")%string
            || (lp_type lp =? "Input")%string).
  { injection Hp as <-. apply calls_none. }
  destruct (lp_type lp =? "Dropout")%string.
  { bind_ok Hp. injection Hp as <-. apply calls_none. }
  destruct (lp_type lp =? "Split")%string.
  { bind_ok Hp. injection Hp as <-. apply calls_none. }
  destruct (resolve_type n lp st) as [[s|t0]|] eqn:Er; cbn [bind] in Hp;
    [| |discriminate].
  - injection Hp as <-.
    destruct (@resolve_type_fused _ _ _ _ Er) as (_ & prev & _ & _ & Hf).
    destruct (@fuse_scale_inv _ _ _ _ Hf)
      as (dimList & am' & out & pt & node & _ & _ & _ & Hn & _ & _ & _ & _ & _ & Hg).
    rewrite Hg. apply calls_node.
    + eapply sink_calls_trans; [|apply add_param_calls].
      eapply sink_calls_trans; [|apply add_param_calls]. apply extractBinary_calls.
    + now apply caffe_node_to_ir_node_canonical in Hn.
  - destruct (@record_layer_inv _ _ _ _ _ _ Hp)
      as (t & im & dimList & am' & out & _ & _ & _ & _ & _ & _ & _ & Hg).
    assert (Hbase : sink_calls (graph st)
                      (snd (add_param dimList "bias"
                              (caffe_name_to_ir_name (lp_name lp) ++ "_b")
                              (snd (add_param dimList "weights"
                                      (caffe_name_to_ir_name (lp_name lp) ++ "_w")
                                      (extractBinary lp (graph st))))))).
    { eapply sink_calls_trans; [|apply add_param_calls].
      eapply sink_calls_trans; [|apply add_param_calls]. apply extractBinary_calls. }
    destruct Hg as [[_ ->] | [_ (node & Hn & ->)]]; [exact Hbase|].
    apply calls_node; [exact Hbase|].
    now apply caffe_node_to_ir_node_canonical in Hn.
Qed.

Lemma process_layers_calls (n : nat) (inputsInfo : dict dims)
    (layers : list LayerParameter) (st st' : PassState) :
  process_layers n inputsInfo layers st = Ok st' ->
  sink_calls (graph st) (graph st').
Proof.
  revert st. induction layers as [|lp rest IH]; intros st Hp.
  - injection Hp as <-. apply calls_none.
  - cbn [process_layers] in Hp.
    destruct (process_layer n inputsInfo lp (hd_error rest) st) as [s|] eqn:E1;
      cbn [bind] in Hp; [|discriminate].
    eapply sink_calls_trans; [eapply process_layer_calls; exact E1|]. now apply IH.
Qed.

(** What a sequence of sink calls leaves alone and what it adds. *)
Lemma sink_calls_frame (g g' : IrGraph) :
  sink_calls g g' ->
  graph_inputs g' = graph_inputs g /\
  graph_outputs g' = graph_outputs g /\
  graph_locals_updated g' = graph_locals_updated g /\
  exists vs bs ns,
    graph_variables g' = (graph_variables g ++ vs)%list /\
    graph_binaries g' = (graph_binaries g ++ bs)%list /\
    graph_nodes g' = (graph_nodes g ++ ns)%list /\
    forallb tensor_canonical vs = true /\
    forallb (fun b => is_canonical (fst b)) bs = true /\
    forallb node_canonical ns = true.
Proof.
  induction 1 as [|g' name buf _ IH Hc|g' t _ IH Hc|g' n _ IH Hc].
  - repeat split. exists [], [], []. now rewrite !app_nil_r.
  - destruct IH as (Hi & Ho & Hl & vs & bs & ns & Hv & Hb & Hn & Cv & Cb & Cn).
    cbn. repeat split; try assumption.
    exists vs, (bs ++ [(name, buf)])%list, ns.
    rewrite Hb, app_assoc, forallb_app, Cb. cbn. rewrite Hc. now repeat split.
  - destruct IH as (Hi & Ho & Hl & vs & bs & ns & Hv & Hb & Hn & Cv & Cb & Cn).
    cbn. repeat split; try assumption.
    exists (vs ++ [t])%list, bs, ns.
    rewrite Hv, app_assoc, forallb_app, Cv. cbn. rewrite Hc. now repeat split.
  - destruct IH as (Hi & Ho & Hl & vs & bs & ns & Hv & Hb & Hn & Cv & Cb & Cn).
    cbn. repeat split; try assumption.
    exists vs, bs, (ns ++ [n])%list.
    rewrite Hn, app_assoc, forallb_app, Cn. cbn. rewrite Hc. now repeat split.
Qed.

(** X10.  While it visits the layers the pass only adds to the sink:
    the variables, binaries and nodes present before are still there, in
    their places, followed by the new ones; the declared inputs and outputs
    are not touched; and every new variable, binary and node carries
    canonical names only. *)
Theorem pass_only_appends (n : nat) (inputsInfo : dict dims)
    (layers : list LayerParameter) (st st' : PassState) :
  process_layers n inputsInfo layers st = Ok st' ->
  graph_inputs (graph st') = graph_inputs (graph st) /\
  graph_outputs (graph st') = graph_outputs (graph st) /\
  exists vs bs ns,
    graph_variables (graph st') = (graph_variables (graph st) ++ vs)%list /\
    graph_binaries (graph st') = (graph_binaries (graph st) ++ bs)%list /\
    graph_nodes (graph st') = (graph_nodes (graph st) ++ ns)%list /\
    forallb tensor_canonical vs = true /\
    forallb (fun b => is_canonical (fst b)) bs = true /\
    forallb node_canonical ns = true.
Proof.
  intros Hp. apply process_layers_calls, sink_calls_frame in Hp.
  destruct Hp as (Hi & Ho & _ & H). now repeat split.
Qed.

Lemma pass_only_appends_witness :
  exists st',
    process_layers 3 sample_inputs [dropout_layer; relu_after_dropout] after_conv
    = Ok st' /\
    graph_inputs (graph st') = graph_inputs (graph after_conv) /\
    exists ns, graph_nodes (graph st') = (graph_nodes (graph after_conv) ++ ns)%list /\
               forallb node_canonical ns = true.
Proof.
  eexists. split; [vm_compute; reflexivity|].
  destruct (@pass_only_appends 3 sample_inputs [dropout_layer; relu_after_dropout]
              after_conv _ eq_refl)
    as (Hi & _ & vs & bs & ns & _ & _ & Hn & _ & _ & Cn).
  split; [exact Hi|]. now exists ns.
Defined.

(** ** Records *)

Lemma Forall_removelast (A : Type) (P : A -> Prop) (l : list A) :
  Forall P l -> Forall P (removelast l).
Proof.
  induction 1 as [|x l Hx Hl IH]; [constructor|].
  cbn [removelast]. destruct l; [constructor|]. now constructor.
Qed.

Lemma process_layer_records (n : nat) (inputsInfo : dict dims) (lp : LayerParameter)
    (next : option LayerParameter) (st st' : PassState) :
  process_layer n inputsInfo lp next st = Ok st' ->
  Forall record_complete (inputOutputMap st) ->
  Forall record_complete (inputOutputMap st').
Proof.
  unfold process_layer. intros Hp Hall.
  destruct ((lp_type lp =? "Data")%string || (lp_type lp =? "ImageData")%string
            || (lp_type lp =? "Input")%string).
  { now injection Hp as <-. }
  destruct (lp_type lp =? "Dropout")%string.
  { bind_ok Hp. now injection Hp as <-. }
  destruct (lp_type lp =? "Split")%string.
  { bind_ok Hp. now injection Hp as <-. }
  destruct (resolve_type n lp st) as [[s|t0]|] eqn:Er; cbn [bind] in Hp;
    [| |discriminate].
  - injection Hp as <-.
    destruct (@resolve_type_fused _ _ _ _ Er) as (_ & prev & _ & _ & Hf).
    destruct (@fuse_scale_inv _ _ _ _ Hf)
      as (dimList & am' & out & pt & node & _ & _ & _ & _ & Hio & _).
    rewrite Hio. apply Forall_app. split; [now apply Forall_removelast|].
    constructor; [|constructor]. split; eexists; reflexivity.
  - destruct (@record_layer_inv _ _ _ _ _ _ Hp)
      as (t & im & dimList & am' & out & _ & _ & _ & _ & Hio & _).
    rewrite Hio. apply Forall_app. split; [assumption|].
    constructor; [|constructor]. split; eexists; reflexivity.
Qed.

Lemma process_layers_records (n : nat) (inputsInfo : dict dims)
    (layers : list LayerParameter) (st st' : PassState) :
  process_layers n inputsInfo layers st = Ok st' ->
  Forall record_complete (inputOutputMap st) ->
  Forall record_complete (inputOutputMap st').
Proof.
  revert st. induction layers as [|lp rest IH]; intros st Hp Hall.
  - now injection Hp as <-.
  - cbn [process_layers] in Hp.
    destruct (process_layer n inputsInfo lp (hd_error rest) st) as [s|] eqn:E1;
      cbn [bind] in Hp; [|discriminate].
    eapply IH; [exact Hp|]. eapply process_layer_records; eassumption.
Qed.

(** X11.  Every record a completed pass returns has its operator type set
    and exactly one output, named after the record; there are never more
    records than layers. *)
Theorem extractCaffeNodeInfo_records
    (net : NetParameter) (g : IrGraph) (inputsInfo : dict dims) (st : PassState) :
  extractCaffeNodeInfo net g inputsInfo = Ok st ->
  Forall record_complete (inputOutputMap st) /\
  (count st <= List.length (net_layer net))%nat.
Proof.
  unfold extractCaffeNodeInfo. intros H.
  destruct (process_layers _ _ _ (initial_state g)) as [s|] eqn:Ep;
    cbn [bind] in H; [|discriminate].
  injection H as <-. unfold count. cbn [finish inputOutputMap]. split.
  - eapply process_layers_records; [exact Ep|]. constructor.
  - apply process_layers_count in Ep. exact Ep.
Qed.

Lemma extractCaffeNodeInfo_records_witness :
  exists st,
    extractCaffeNodeInfo bn_scale_net empty_graph sample_inputs = Ok st /\
    Forall record_complete (inputOutputMap st) /\ (count st <= 3)%nat.
Proof.
  eexists. split; [vm_compute; reflexivity|].
  exact (@extractCaffeNodeInfo_records bn_scale_net empty_graph sample_inputs _ eq_refl).
Defined.

(** ** The whole conversion *)

Lemma graph_canonical_intro (g : IrGraph) :
  forallb tensor_canonical (graph_inputs g) = true ->
  forallb tensor_canonical (graph_outputs g) = true ->
  forallb tensor_canonical (graph_variables g) = true ->
  forallb (fun b => is_canonical (fst b)) (graph_binaries g) = true ->
  forallb node_canonical (graph_nodes g) = true ->
  graph_canonical g = true.
Proof. unfold graph_canonical. now intros -> -> -> -> ->. Qed.

Lemma caffe_graph_to_ir_graph_inv (net : NetParameter) (input_dims : dims)
    (g : IrGraph) :
  caffe_graph_to_ir_graph net input_dims = Ok g ->
  exists iname st info oname odims,
    is_canonical iname = true /\
    process_layers (List.length (net_layer net)) [(iname, input_dims)] (net_layer net)
      (initial_state (addInput (mkIrTensor iname "F032" input_dims) empty_graph))
    = Ok st /\
    last (inputOutputMap st) info = info /\ In info (inputOutputMap st) /\
    index (keys (info_outputs info)) 0 = Ok oname /\
    dict_get oname (info_outputs info) = Some odims /\
    g = addOutput (caffe_blob_to_ir_tensor oname "F032" odims)
                  (updateLocals (graph st)).
Proof.
  unfold caffe_graph_to_ir_graph. intros H.
  pose proof (extractInput_cases net empty_graph input_dims) as Hin.
  destruct (extractInput net empty_graph input_dims) as [[inputMap g1]|];
    cbn [bind] in H; [|discriminate].
  destruct Hin as (iname & Hc & -> & -> & _).
  unfold extractCaffeNodeInfo in H.
  destruct (process_layers _ _ _ _) as [st|] eqn:Ep; cbn [bind] in H; [|discriminate].
  cbn [finish graph inputOutputMap] in H.
  unfold extractOutput in H.
  destruct (List.length (inputOutputMap st)) as [|m] eqn:El; cbn [bind] in H;
    [discriminate|].
  unfold index at 1 in H.
  destruct (nth_error (inputOutputMap st) m) as [info|] eqn:En; cbn [bind] in H;
    [|discriminate].
  destruct (index (keys (info_outputs info)) 0) as [oname|] eqn:Eo; cbn [bind] in H;
    [|discriminate].
  unfold dict_lookup in H.
  destruct (dict_get oname (info_outputs info)) as [odims|] eqn:Ed; cbn [bind] in H;
    [|discriminate].
  injection H as <-.
  exists iname, st, info, oname, odims.
  split; [exact Hc|]. split; [exact Ep|].
  split.
  { clear - El En. revert m El En.
    induction (inputOutputMap st) as [|x l IH]; intros m El En; [discriminate|].
    destruct l as [|y l'].
    - destruct m; [now injection En as ->|discriminate].
    - destruct m as [|m']; [discriminate|].
      cbn [last]. cbn [nth_error] in En. eapply IH; [|exact En].
      cbn [List.length] in *. lia. }
  split; [eapply nth_error_In; exact En|].
  repeat split; assumption.
Qed.

(** X12.  A graph the conversion returns declares exactly one input, of the
    supplied dimensions, and exactly one output; its locals have been
    updated; and every tensor, binary and node in it carries canonical
    names only. *)
Theorem caffe2ir_graph (net : NetParameter) (input_dims : dims) (g : IrGraph) :
  caffe2ir net input_dims = Ok g ->
  exists iname oname odims,
    graph_inputs g = [mkIrTensor iname "F032" input_dims] /\
    graph_outputs g = [mkIrTensor oname "F032" odims] /\
    graph_locals_updated g = true /\
    graph_canonical g = true.
Proof.
  unfold caffe2ir. intros H.
  destruct (net_layer net) eqn:El; [discriminate|]. clear El.
  apply caffe_graph_to_ir_graph_inv in H.
  destruct H as (iname & st & info & oname & odims & Hc & Hp & _ & _ & _ & _ & ->).
  apply process_layers_calls, sink_calls_frame in Hp.
  cbn [initial_state graph addInput empty_graph graph_inputs graph_outputs
       graph_variables graph_binaries graph_nodes graph_locals_updated app] in Hp.
  destruct Hp as (Hi & Ho & _ & vs & bs & ns & Hv & Hb & Hn & Cv & Cb & Cn).
  exists iname, (caffe_name_to_ir_name oname), odims.
  cbn [addOutput updateLocals graph_inputs graph_outputs graph_locals_updated].
  rewrite Hi, Ho. repeat split.
  apply graph_canonical_intro;
    cbn [addOutput updateLocals graph_inputs graph_outputs graph_variables
         graph_binaries graph_nodes];
    rewrite ?Hi, ?Ho, ?Hv, ?Hb, ?Hn; cbn [app forallb]; try assumption.
  - unfold tensor_canonical. cbn [tensor_name]. now rewrite Hc.
  - unfold tensor_canonical, caffe_blob_to_ir_tensor. cbn [tensor_name].
    now rewrite canon_is_canonical.
Qed.

Lemma caffe2ir_graph_witness :
  exists g iname oname odims,
    caffe2ir bn_scale_net [1; 3; 224; 224] = Ok g /\
    graph_inputs g = [mkIrTensor iname "F032" [1; 3; 224; 224]] /\
    graph_outputs g = [mkIrTensor oname "F032" odims] /\
    graph_locals_updated g = true /\
    graph_canonical g = true.
Proof.
  eexists.
  destruct (@caffe2ir_graph bn_scale_net [1; 3; 224; 224] _ eq_refl)
    as (iname & oname & odims & H).
  exists iname, oname, odims. split; [reflexivity|exact H].
Defined.

(** X13.  The nodes of a converted graph are as many as the operator
    layers of the model (its layers other than input placeholders, Dropout
    and Split), less one for every BatchNorm immediately followed by a
    Scale: such a pair gives one node. *)
Theorem caffe2ir_node_count (net : NetParameter) (input_dims : dims) (g : IrGraph) :
  caffe2ir net input_dims = Ok g ->
  (List.length (graph_nodes g) + fused_pairs (net_layer net)
   = count_operators (net_layer net))%nat.
Proof.
  unfold caffe2ir. intros H.
  destruct (net_layer net) eqn:El; [discriminate|]. rewrite <- El. clear El.
  apply caffe_graph_to_ir_graph_inv in H.
  destruct H as (iname & st & info & oname & odims & _ & Hp & _ & _ & _ & _ & ->).
  apply process_layers_node_count in Hp. cbn in Hp |- *. exact Hp.
Qed.

Lemma caffe2ir_node_count_witness :
  exists g,
    caffe2ir bn_scale_net [1; 3; 224; 224] = Ok g /\
    (List.length (graph_nodes g) + 1 = 2)%nat.
Proof.
  eexists. split; [vm_compute; reflexivity|].
  exact (@caffe2ir_node_count bn_scale_net [1; 3; 224; 224] _ eq_refl).
Defined.

(** ** Layers without a node, layers without a rule *)

Lemma placeholder_skipped (n : nat) (inputsInfo : dict dims) (lp : LayerParameter)
    (next : option LayerParameter) (st : PassState) :
  is_placeholder (lp_type lp) = true ->
  process_layer n inputsInfo lp next st = Ok st.
Proof.
  unfold is_placeholder, process_layer. intros H.
  destruct (lp_type lp =? "Data")%string; [reflexivity|].
  destruct (lp_type lp =? "ImageData")%string; [reflexivity|].
  destruct (lp_type lp =? "Input")%string; [reflexivity|discriminate].
Qed.

Lemma placeholders_skipped (n : nat) (inputsInfo : dict dims)
    (layers : list LayerParameter) (st : PassState) :
  forallb (fun lp => is_placeholder (lp_type lp)) layers = true ->
  process_layers n inputsInfo layers st = Ok st.
Proof.
  induction layers as [|lp rest IH]; intros H; [reflexivity|].
  cbn [forallb] in H. apply andb_prop in H as [H1 H2].
  cbn [process_layers]. rewrite placeholder_skipped by assumption.
  cbn [bind]. now apply IH.
Qed.

(** X14.  A model that has layers but only input placeholders cannot be
    converted: the pass visits them without recording anything, and the
    output extractor then fails on the missing last record with a
    KeyError, not with one of the program's own messages. *)
Theorem placeholders_only_model_fails (net : NetParameter) (input_dims : dims) :
  net_layer net <> [] ->
  forallb (fun lp => is_placeholder (lp_type lp)) (net_layer net) = true ->
  caffe2ir net input_dims = Err (KeyError "-1").
Proof.
  intros Hne Hall. unfold caffe2ir.
  destruct (net_layer net) as [|lp rest] eqn:El; [contradiction|].
  unfold caffe_graph_to_ir_graph.
  pose proof (extractInput_cases net empty_graph input_dims) as Hin.
  destruct (extractInput net empty_graph input_dims) as [[inputMap g1]|e].
  - cbn [bind]. unfold extractCaffeNodeInfo. rewrite El.
    rewrite placeholders_skipped by assumption. reflexivity.
  - exfalso. destruct Hin as [_ [Hnil | (_ & lp' & rest' & Hl & Hp & _)]].
    + congruence.
    + rewrite El in Hl. injection Hl as <- <-.
      cbn [forallb] in Hall. apply andb_prop in Hall as [H1 _]. congruence.
Qed.

Lemma placeholders_only_model_fails_witness :
  caffe2ir placeholders_only_net [1; 3; 224; 224] = Err (KeyError "-1").
Proof.
  exact (@placeholders_only_model_fails placeholders_only_net [1; 3; 224; 224]
           ltac:(discriminate) eq_refl).
Defined.

(** X15.  A layer whose type the pass has no rule for stops it at once
    with the unsupported-operation message, whatever has been recorded so
    far and whatever layers follow: none of them is visited. *)
Theorem unsupported_layer_stops_pass
    (n : nat) (inputsInfo : dict dims) (lp : LayerParameter)
    (rest : list LayerParameter) (st : PassState) :
  is_supported (lp_type lp) = false ->
  process_layers n inputsInfo (lp :: rest) st
  = Err (SysExit (UnsupportedOperation (lp_type lp))).
Proof.
  unfold is_supported, supported_types. cbn [app keys map fst caffe2ir_op_type existsb].
  intros H. repeat (apply orb_false_elim in H as [? H]).
  cbn [process_layers]. unfold process_layer, resolve_type, caffe2ir_op_type.
  cbn [dict_get].
  repeat match goal with
         | Hx : (lp_type lp =? _)%string = false |- _ => rewrite Hx; clear Hx
         end.
  reflexivity.
Qed.

Lemma unsupported_layer_stops_pass_witness :
  process_layers 3 sample_inputs [frobnicate_layer; conv_7x7_s2_p3]
                 (initial_state empty_graph)
  = Err (SysExit (UnsupportedOperation "Frobnicate")).
Proof.
  exact (@unsupported_layer_stops_pass 3 sample_inputs frobnicate_layer
           [conv_7x7_s2_p3] (initial_state empty_graph) eq_refl).
Defined.

(** ** Split *)

Lemma fold_split_keeps (src : string) (outputs : list string) (m : dict string)
    (k : string) :
  dict_get k m = Some src ->
  dict_get k (fold_left (fun m output => dict_set (caffe_name_to_ir_name output) src m)
                        outputs m) = Some src.
Proof.
  revert m. induction outputs as [|o outputs IH]; intros m H; [exact H|].
  cbn [fold_left]. apply IH.
  destruct (String.eqb_spec (caffe_name_to_ir_name o) k) as [<-|Hne].
  - apply dict_get_set_eq.
  - now rewrite dict_get_set_ne.
Qed.

Lemma fold_split_sets (src : string) (outputs : list string) (m : dict string)
    (t : string) :
  In t outputs ->
  dict_get (caffe_name_to_ir_name t)
    (fold_left (fun m output => dict_set (caffe_name_to_ir_name output) src m)
               outputs m) = Some src.
Proof.
  revert m. induction outputs as [|o outputs IH]; intros m Hin; [easy|].
  cbn [fold_left]. destruct Hin as [->|Hin].
  - apply fold_split_keeps, dict_get_set_eq.
  - now apply IH.
Qed.

(** X16.  A Split layer behind a producer.  The producer is the record
    before it, holding the tensor [src] the Split's input resolves to; no
    output name of the Split is renamed, and [src] is not a Dropout output.
    Then the iteration on the Split emits nothing and records nothing, maps
    every one of its outputs to [src] in the Split table, and a consumer
    reading any of these outputs gets the producer's tensor. *)
Theorem split_is_transparent
    (n : nat) (inputsInfo : dict dims) (lp : LayerParameter)
    (next : option LayerParameter) (st : PassState) (prev : LayerInfo)
    (b : string) (bs : list string) (d : dims) :
  lp_type lp = "Split" ->
  lp_bottom lp = b :: bs ->
  let src := through (outputNameAliasMap st) (caffe_name_to_ir_name b) in
  previous_layer st = Ok prev ->
  dict_get src (info_outputs prev) = Some d ->
  (forall t, In t (lp_top lp) ->
             dict_get (caffe_name_to_ir_name t) (outputNameAliasMap st) = None) ->
  dict_get src (dropoutLayerMap st) = None ->
  exists st1,
    process_layer n inputsInfo lp next st = Ok st1 /\
    graph st1 = graph st /\
    inputOutputMap st1 = inputOutputMap st /\
    (forall t, In t (lp_top lp) ->
               dict_get (caffe_name_to_ir_name t) (splitLayerMap st1) = Some src) /\
    (forall t layer_type layer_name,
        In t (lp_top lp) ->
        later_layer_inputs st1 layer_type layer_name [t] 0 [] = Ok [(src, d)]).
Proof.
  intros Ht Hb src Hprev Hd Hfresh Hdrop. subst src.
  set (src := through (outputNameAliasMap st) (caffe_name_to_ir_name b)) in *.
  eexists. split.
  { unfold process_layer. rewrite Ht, Hb.
    cbn [String.eqb Ascii.eqb Bool.eqb orb index nth_error bind]. reflexivity. }
  cbn [graph inputOutputMap splitLayerMap]. fold src.
  do 2 (split; [reflexivity|]). split.
  - intros t Hin. now apply fold_split_sets.
  - intros t layer_type layer_name Hin. cbn [later_layer_inputs].
    unfold previous_layer, count in *. cbn [inputOutputMap]. rewrite Hprev. cbn [bind].
    unfold alias_chain. cbn [dropoutLayerMap splitLayerMap outputNameAliasMap].
    fold src.
    rewrite (through_miss _ _ (Hfresh t Hin)).
    rewrite (through_hit _ _ (fold_split_sets src _ (splitLayerMap st) t Hin)).
    rewrite (through_miss _ _ Hdrop), Hd. reflexivity.
Qed.

Lemma split_is_transparent_witness :
  exists st1,
    process_layer 3 sample_inputs split_layer None after_conv = Ok st1 /\
    graph st1 = graph after_conv /\
    splitLayerMap st1 = [("branch_a", "conv1"); ("branch_b", "conv1")] /\
    later_layer_inputs st1 "ReLU" "relu1" ["branch/b"] 0 []
    = Ok [("conv1", [1; 64; 112; 112])].
Proof.
  destruct (@split_is_transparent 3 sample_inputs split_layer None after_conv
              _ "conv1" [] [1; 64; 112; 112]
              eq_refl eq_refl eq_refl eq_refl (fun _ _ => eq_refl) eq_refl)
    as (st1 & H1 & H2 & _ & _ & H5).
  exists st1. split; [exact H1|]. split; [exact H2|]. split.
  - injection H1 as <-. reflexivity.
  - apply H5. right. now left.
Defined.

(** ** Recorded layers *)

(** What [record_layer] does when each of its steps goes through. *)
Lemma record_layer_run (inputsInfo : dict dims) (lp : LayerParameter)
    (next : option LayerParameter) (t0 : option string) (st : PassState)
    (im dimList : dict dims) (am' : attribute_map) (out : dims) (t : string)
    (attr : IrAttr) :
  (if (lp_type lp =? "ReLU")%string
   then nz <- alpha_nonzero (extractCaffeAttrInfo lp) ;;
        Ok (if nz then Some "leaky_relu" else t0)
   else Ok t0) = Ok (Some t) ->
  resolve_inputs inputsInfo lp st = Ok im ->
  calculateTensorDims lp im (extractCaffeAttrInfo lp) = Ok (dimList, am') ->
  dict_get "output" dimList = Some out ->
  caffe_attr_to_ir_attr am' = Ok attr ->
  (t =? "batch_norm")%string && followed_by_scale next = false ->
  let name := caffe_name_to_ir_name (lp_name lp) in
  let wp := add_param dimList "weights" (name ++ "_w")
                      (extractBinary lp (graph st)) in
  let bp := add_param dimList "bias" (name ++ "_b") (snd wp) in
  let info := mkLayerInfo name (Some t) am' im [(name, out)]
                          (fst wp) (fst bp) None None in
  record_layer inputsInfo lp next t0 st
  = Ok (mkPassState
          (inputOutputMap st ++ [info])%list
          (dropoutLayerMap st) (splitLayerMap st)
          (renamed_output name (lp_top lp) (outputNameAliasMap st))
          (dict_update (inputsMap st) im)
          (dict_update (outputsMap st) [(name, out)])
          (addNode
             (mkIrNode t
                (map caffe_name_to_ir_name
                   (keys im ++ keys (opt_map (fst wp)) ++ keys (opt_map (fst bp)))%list)
                [caffe_name_to_ir_name name] attr)
             (snd bp))).
Proof.
  intros Ht Hi Hc Ho Ha Hd name wp bp info. subst info bp wp name.
  unfold record_layer. rewrite Ht. cbn [bind]. rewrite Hi. cbn [bind].
  rewrite Hc. cbn [bind]. unfold dict_lookup. rewrite Ho. cbn [bind].
  destruct (add_param dimList "weights" _ _) as [wm g1]. cbn [fst snd].
  destruct (add_param dimList "bias" _ g1) as [bm g2].
  cbn [get_layer_type info_layer_type bind fst snd]. rewrite Hd.
  unfold caffe_node_to_ir_node.
  cbn [info_attributes info_inputs info_outputs info_weights info_biases
       info_scale_weights info_scale_bias opt_map keys map fst app].
  rewrite Ha. cbn [bind]. reflexivity.
Qed.

(** Shape inference of a layer type without a rule of its own copies the
    shape of its first input and leaves the attributes alone. *)
Lemma calculateTensorDims_relu (lp : LayerParameter) (im : dict dims)
    (am : attribute_map) (d0 d1 d2 d3 : Z) :
  lp_type lp = "ReLU" ->
  first_input im = Ok [d0; d1; d2; d3] ->
  calculateTensorDims lp im am = Ok ([("output", [d0; d1; d2; d3])], am).
Proof.
  intros Ht Hf. unfold calculateTensorDims. rewrite Ht.
  cbn [String.eqb Ascii.eqb Bool.eqb orb andb]. rewrite Hf. reflexivity.
Qed.

(** X17.  A ReLU layer whose input resolves to a 4-d shape is recorded and
    emitted as one node: of type [leaky_relu] when its negative slope
    compares unequal to zero (a NaN slope included), of type [relu] when it
    compares equal (a negative zero included); the node carries the slope
    as attribute [alpha], takes the resolved inputs and has the shape of its
    first input. *)
Theorem relu_operator (n : nat) (inputsInfo : dict dims) (lp : LayerParameter)
    (next : option LayerParameter) (st : PassState) (im : dict dims)
    (d0 d1 d2 d3 : Z) :
  lp_type lp = "ReLU" ->
  resolve_inputs inputsInfo lp st = Ok im ->
  first_input im = Ok [d0; d1; d2; d3] ->
  let name := caffe_name_to_ir_name (lp_name lp) in
  let slope := relu_negative_slope lp in
  let t := if PrimFloat.eqb slope PrimFloat.zero then "relu" else "leaky_relu" in
  exists st',
    process_layer n inputsInfo lp next st = Ok st' /\
    inputOutputMap st'
    = (inputOutputMap st
       ++ [mkLayerInfo name (Some t) [("alpha", PFloat slope)] im
                       [(name, [d0; d1; d2; d3])] None None None None])%list /\
    graph st'
    = addNode (mkIrNode t (map caffe_name_to_ir_name (keys im)) [name]
                        [("alpha", IrFloat slope)])
              (extractBinary lp (graph st)).
Proof.
  intros Ht Hi Hf name slope t.
  assert (Hr : process_layer n inputsInfo lp next st
               = record_layer inputsInfo lp next (Some "relu") st).
  { unfold process_layer, resolve_type. rewrite Ht. reflexivity. }
  assert (Ha : extractCaffeAttrInfo lp = [("alpha", PFloat slope)]).
  { unfold extractCaffeAttrInfo. rewrite Ht. reflexivity. }
  assert (Hty : (if (lp_type lp =? "ReLU")%string
                 then nz <- alpha_nonzero (extractCaffeAttrInfo lp) ;;
                      Ok (if nz then Some "leaky_relu" else Some "relu")
                 else Ok (Some "relu")) = Ok (Some t)).
  { rewrite Ha, Ht. subst t. cbn.
    now destruct (PrimFloat.eqb slope PrimFloat.zero). }
  assert (Hd : (t =? "batch_norm")%string && followed_by_scale next = false).
  { subst t. now destruct (PrimFloat.eqb slope PrimFloat.zero). }
  pose proof (@record_layer_run inputsInfo lp next (Some "relu") st im
                [("output", [d0; d1; d2; d3])] [("alpha", PFloat slope)]
                [d0; d1; d2; d3] t [("alpha", IrFloat slope)] Hty Hi) as Hrun.
  rewrite Ha in Hrun.
  specialize (Hrun (calculateTensorDims_relu lp im _ Ht Hf) eq_refl eq_refl Hd).
  cbn zeta in Hrun. rewrite <- Hr in Hrun.
  eexists. split; [exact Hrun|]. cbn [inputOutputMap graph].
  unfold add_param. cbn [dict_get String.eqb Ascii.eqb Bool.eqb fst snd opt_map keys map app].
  rewrite app_nil_r. fold name. split; [reflexivity|].
  unfold name. now rewrite canon_idempotent.
Qed.

Lemma relu_operator_witness :
  exists st',
    process_layer 3 sample_inputs leaky_relu_layer None after_conv = Ok st' /\
    graph st'
    = addNode (mkIrNode "leaky_relu" ["conv1"] ["relu1"]
                        [("alpha", IrFloat 0.125%float)])
              (graph after_conv).
Proof.
  destruct (@relu_operator 3 sample_inputs leaky_relu_layer None after_conv
              [("conv1", [1; 64; 112; 112])] 1 64 112 112
              eq_refl eq_refl eq_refl) as (st' & H1 & _ & H3).
  exists st'. split; [exact H1|exact H3].
Defined.

(** X18.  A Scale layer met after a record that is not a batch_norm is an
    operator of its own: [mul] when it has exactly one raw blob, [muladd]
    otherwise (a Scale without blobs included).  It registers a weight
    variable when it has a blob and a bias variable when it has two, each
    of shape (C), and the node takes them after the resolved inputs. *)
Theorem scale_operator (n : nat) (inputsInfo : dict dims) (lp : LayerParameter)
    (next : option LayerParameter) (st : PassState) (prev : LayerInfo)
    (pt : string) (im : dict dims) (d0 d1 d2 d3 : Z) :
  lp_type lp = "Scale" ->
  (0 < count st < n)%nat ->
  previous_layer st = Ok prev ->
  info_layer_type prev = Some pt ->
  pt <> "batch_norm" ->
  resolve_inputs inputsInfo lp st = Ok im ->
  first_input im = Ok [d0; d1; d2; d3] ->
  let name := caffe_name_to_ir_name (lp_name lp) in
  let blobs := List.length (lp_blobs lp) in
  let params := own_parameters name blobs in
  exists st',
    process_layer n inputsInfo lp next st = Ok st' /\
    graph_nodes (graph st')
    = (graph_nodes (graph st)
       ++ [mkIrNode (if (blobs =? 1)%nat then "mul" else "muladd")
                    (map caffe_name_to_ir_name (keys im) ++ params) [name] []])%list /\
    graph_variables (graph st')
    = (graph_variables (graph st)
       ++ map (fun p => caffe_blob_to_ir_tensor p "F032" [d1]) params)%list.
Proof.
  intros Ht Hc Hp Hpt Hne Hi Hf name blobs params.
  assert (Hr : process_layer n inputsInfo lp next st
               = record_layer inputsInfo lp next
                   (Some (if (blobs =? 1)%nat then "mul" else "muladd")) st).
  { unfold process_layer.
    rewrite (scale_after_other_record lp st Ht Hc Hp Hpt Hne).
    rewrite Ht. reflexivity. }
  assert (Ha : extractCaffeAttrInfo lp = []).
  { unfold extractCaffeAttrInfo. rewrite Ht. reflexivity. }
  eexists. split.
  - rewrite Hr. eapply record_layer_run.
    + rewrite Ht. reflexivity.
    + exact Hi.
    + rewrite Ha. unfold calculateTensorDims. rewrite Ht.
      cbn [String.eqb Ascii.eqb Bool.eqb orb andb]. rewrite Hf. reflexivity.
    + apply dict_get_set_eq.
    + reflexivity.
    + now destruct (blobs =? 1)%nat.
  - cbn [graph addNode graph_nodes graph_variables].
    pose proof (@canon_suffix (lp_name lp) "_w" eq_refl) as Hw.
    pose proof (@canon_suffix (lp_name lp) "_b" eq_refl) as Hb.
    pose proof (canon_idempotent (lp_name lp)) as Hn.
    pose proof (extractBinary_nodes lp (graph st)) as Hgn.
    pose proof (extractBinary_variables lp (graph st)) as Hgv.
    subst params blobs name. unfold own_parameters.
    destruct (lp_blobs lp) as [|b0 [|b1 r]];
      cbn [List.length Nat.ltb Nat.leb Nat.eqb];
      unfold add_param;
      cbn [dict_get dict_set String.eqb Ascii.eqb Bool.eqb fst snd opt_map
           keys map app addVariable graph_nodes graph_variables];
      rewrite ?map_app; cbn [map app];
      rewrite ?Hw, ?Hb, ?Hn, ?Hgn, ?Hgv, ?app_nil_r, <- ?app_assoc;
      split; reflexivity.
Qed.

Lemma scale_operator_witness :
  exists st',
    process_layer 3 sample_inputs scale_after_conv None after_conv = Ok st' /\
    graph_nodes (graph st')
    = (graph_nodes (graph after_conv)
       ++ [mkIrNode "mul" ["conv1"; "scale2_w"] ["scale2"] []])%list.
Proof.
  assert (Hc : (0 < count after_conv < 3)%nat) by (vm_compute; lia).
  assert (Hne : "conv" <> "batch_norm") by discriminate.
  destruct (@scale_operator 3 sample_inputs scale_after_conv None after_conv
              _ "conv" [("conv1", [1; 64; 112; 112])] 1 64 112 112
              eq_refl Hc eq_refl eq_refl Hne eq_refl eq_refl)
    as (st' & H1 & H2 & _).
  exists st'. split; [exact H1|exact H2].
Defined.

(** ** Renamed outputs *)

(** The rename table a recorded layer leaves behind. *)
Lemma record_layer_alias (inputsInfo : dict dims) (lp : LayerParameter)
    (next : option LayerParameter) (t0 : option string) (st st1 : PassState) :
  record_layer inputsInfo lp next t0 st = Ok st1 ->
  outputNameAliasMap st1
  = renamed_output (caffe_name_to_ir_name (lp_name lp)) (lp_top lp)
                   (outputNameAliasMap st).
Proof.
  unfold record_layer. intros Hr.
  destruct (if (lp_type lp =? "ReLU")%string
            then nz <- alpha_nonzero (extractCaffeAttrInfo lp);;
                 Ok (if nz then Some "leaky_relu" else t0)
            else Ok t0) as [t1|]; cbn [bind] in Hr; [|discriminate].
  destruct (resolve_inputs inputsInfo lp st) as [im|];
    cbn [bind] in Hr; [|discriminate].
  destruct (calculateTensorDims lp im (extractCaffeAttrInfo lp))
    as [[dimList am']|]; cbn [bind] in Hr; [|discriminate].
  destruct (dict_lookup "output" dimList) as [out|];
    cbn [bind] in Hr; [|discriminate].
  destruct (add_param dimList "weights" _ _) as [wm g1].
  destruct (add_param dimList "bias" _ g1) as [bm g2].
  destruct (get_layer_type _) as [t|]; cbn [bind] in Hr; [|discriminate].
  destruct ((t =? "batch_norm")%string && followed_by_scale next).
  - now injection Hr as <-.
  - destruct (caffe_node_to_ir_node t _); cbn [bind] in Hr; [|discriminate].
    now injection Hr as <-.
Qed.

(** X19.  A layer whose first output is named differently from the layer
    itself (after canonicalisation) is recorded under its own name; a later
    layer that names that output as its input gets the recorded layer's
    output shape, under the layer's name.  The layer's name must not be an
    output of a Dropout or Split seen so far. *)
Theorem renamed_output_resolves (n : nat) (inputsInfo : dict dims)
    (lp : LayerParameter) (next : option LayerParameter) (st st' : PassState)
    (out0 : string) (tops : list string) :
  is_operator lp = true ->
  lp_type lp <> "Scale" ->
  process_layer n inputsInfo lp next st = Ok st' ->
  lp_top lp = out0 :: tops ->
  let name := caffe_name_to_ir_name (lp_name lp) in
  caffe_name_to_ir_name out0 <> name ->
  dict_get name (splitLayerMap st) = None ->
  dict_get name (dropoutLayerMap st) = None ->
  exists info d,
    previous_layer st' = Ok info /\
    info_layer_name info = name /\
    info_outputs info = [(name, d)] /\
    forall (consumer_type consumer_name : string) (k : nat),
      later_layer_inputs st' consumer_type consumer_name [out0] k []
      = Ok [(name, d)].
Proof.
  intros Hop Hns Hp Htop name Hne Hsp Hdr.
  assert (Hrec : exists t0, record_layer inputsInfo lp next t0 st = Ok st').
  { revert Hp. unfold process_layer.
    unfold is_operator, is_placeholder in Hop.
    destruct (lp_type lp =? "Data")%string; [discriminate|].
    destruct (lp_type lp =? "Input")%string; [discriminate|].
    destruct (lp_type lp =? "ImageData")%string; [discriminate|].
    destruct (lp_type lp =? "Dropout")%string; [discriminate|].
    destruct (lp_type lp =? "Split")%string; [discriminate|].
    cbn [orb]. intros Hp.
    destruct (resolve_type n lp st) as [[s|t0]|] eqn:Er;
      cbn [bind] in Hp; [| |discriminate].
    - apply resolve_type_fused in Er. now destruct Er as [Er _].
    - now exists t0. }
  destruct Hrec as [t0 Hrec].
  pose proof (record_layer_alias _ _ _ _ _ Hrec) as Hal.
  destruct (record_layer_inv _ _ _ _ _ Hrec)
    as (t & im & dimList & am' & d & _ & _ & _ & _ & Hinv).
  cbn zeta in Hinv. destruct Hinv as (Hio & Hd' & Hs' & _).
  destruct (previous_layer_app _ _ _ Hio) as [Hprev _].
  eexists. exists d. split; [exact Hprev|]. split; [reflexivity|].
  split; [reflexivity|].
  intros cty cname k. cbn [later_layer_inputs]. rewrite Hprev. cbn [bind].
  assert (Hch : alias_chain st' (caffe_name_to_ir_name out0) = name).
  { unfold alias_chain. rewrite Hal, Hd', Hs', Htop. unfold renamed_output.
    fold name. unfold name at 1 2. rewrite canon_idempotent. fold name.
    destruct (String.eqb_spec name (caffe_name_to_ir_name out0)) as [E|_];
      [now elim Hne|].
    rewrite (through_hit _ _ (dict_get_set_eq _ _ _)).
    now rewrite (through_miss _ _ Hsp), (through_miss _ _ Hdr). }
  rewrite Hch. cbn [info_outputs dict_get]. fold name.
  now rewrite String.eqb_refl.
Qed.

Lemma renamed_output_resolves_witness :
  exists st' info d,
    process_layer 3 sample_inputs renaming_relu None after_conv = Ok st' /\
    previous_layer st' = Ok info /\
    later_layer_inputs st' "Pooling" "pool1" ["act1"] 0 [] = Ok [("relu1", d)].
Proof.
  assert (Hs : lp_type renaming_relu <> "Scale") by (cbv; discriminate).
  assert (Hn : caffe_name_to_ir_name "act1" <> caffe_name_to_ir_name (lp_name renaming_relu))
    by (cbv; discriminate).
  destruct (@renamed_output_resolves 3 sample_inputs renaming_relu None after_conv
              _ "act1" [] eq_refl Hs eq_refl eq_refl Hn eq_refl eq_refl)
    as (info & d & H1 & _ & _ & H4).
  eexists. exists info, d. split; [reflexivity|].
  split; [exact H1|exact (H4 "Pooling" "pool1" 0%nat)].
Defined.

(** ** The output extractor *)

Lemma nth_error_last (A : Type) (l : list A) (x : A) :
  nth_error l (List.length l - 1) = Some x -> exists l', l = (l' ++ [x])%list.
Proof.
  intros H. destruct l as [|a l] using rev_ind; [discriminate|].
  clear IHl. rewrite length_app in H. cbn [List.length] in H.
  replace (List.length l + 1 - 1)%nat with (List.length l) in H by lia.
  rewrite nth_error_app2, Nat.sub_diag in H by lia.
  injection H as ->. now exists l.
Qed.

(** X20.  [extractOutput] declares the first output of the last record as
    the one network output, under its canonical name and with its shape,
    and changes nothing else in the graph.  It fails in two cases only:
    with KeyError when there is no record at all, with IndexError when the
    last record has no output. *)
Theorem extractOutput_result (g : IrGraph) (records : list LayerInfo) :
  match extractOutput g records with
  | Ok (outputList, g') =>
      exists before info name d rest,
        records = (before ++ [info])%list /\
        info_outputs info = (name, d) :: rest /\
        outputList = [(name, d)] /\
        g' = addOutput (mkIrTensor (caffe_name_to_ir_name name) "F032" d) g
  | Err e =>
      (records = [] /\ e = KeyError "-1") \/
      (exists before info,
          records = (before ++ [info])%list /\ info_outputs info = [] /\
          e = IndexError)
  end.
Proof.
  unfold extractOutput.
  destruct records as [|r0 rs] eqn:Er; [left; now split|].
  rewrite <- Er. assert (Hlen : List.length records = S (List.length rs)) by now subst.
  rewrite Hlen. unfold index at 1.
  destruct (nth_error records (List.length rs)) as [info|] eqn:En.
  2:{ apply nth_error_None in En. lia. }
  replace (List.length rs) with (List.length records - 1)%nat in En by lia.
  destruct (nth_error_last _ En) as [before Hb].
  cbn [bind]. destruct (info_outputs info) as [|[name d] rest] eqn:Eo.
  - right. exists before, info. now repeat split.
  - cbn [keys map index nth_error bind fst dict_lookup dict_get].
    unfold dict_lookup. cbn [dict_get]. rewrite String.eqb_refl. cbn [bind].
    exists before, info, name, d, rest. now repeat split.
Qed.

(** ** Values of converted attributes *)

Lemma mapM_py_int_ints (l : list Z) : mapM py_int (map EInt l) = Ok l.
Proof.
  induction l as [|z l IH]; [reflexivity|].
  cbn [map mapM py_int bind]. now rewrite IH.
Qed.

(** Converting one attribute sets its name, to the value that converting
    it on its own gives. *)
Lemma convert_attr_sets (name : string) (v : pyval) (attr attr' : IrAttr) :
  convert_attr name v attr = Ok attr' ->
  exists w, convert_attr name v [] = Ok [(name, w)] /\ attr' = dict_set name w attr.
Proof.
  unfold convert_attr. intros H. destruct v as [z|f|s|l|].
  - injection H as <-. now eexists.
  - injection H as <-. now eexists.
  - injection H as <-. now eexists.
  - destruct (index l 0) as [first|]; cbn [bind] in H |- *; [|discriminate].
    destruct first.
    + destruct (mapM py_int l) as [vs|]; cbn [bind] in H |- *; [|discriminate].
      injection H as <-. now eexists.
    + destruct (mapM py_float l) as [vs|]; cbn [bind] in H |- *; [|discriminate].
      injection H as <-. now eexists.
    + discriminate.
  - discriminate.
Qed.

Lemma dict_get_not_in (V : Type) (k : string) (d : dict V) :
  ~ In k (keys d) -> dict_get k d = None.
Proof.
  induction d as [|[k' v] d IH]; [reflexivity|]. cbn [keys map fst In dict_get].
  intros H. destruct (String.eqb_spec k k') as [->|_].
  - elim H. now left.
  - apply IH. intros Hin. apply H. now right.
Qed.

Lemma convert_attrs_get (entries : list (string * pyval)) (attr0 attr : IrAttr)
    (k : string) :
  convert_attrs entries attr0 = Ok attr ->
  NoDup (keys entries) ->
  dict_get k attr
  = match dict_get k entries with
    | Some v => match convert_attr k v [] with
                | Ok a => dict_get k a
                | Err _ => None
                end
    | None => dict_get k attr0
    end.
Proof.
  revert attr0. induction entries as [|[name v] rest IH]; intros attr0 H Hnd.
  - now injection H as <-.
  - cbn [convert_attrs] in H.
    destruct (convert_attr name v attr0) as [attr1|] eqn:E1;
      cbn [bind] in H; [|discriminate].
    destruct (convert_attr_sets _ _ _ E1) as (w & Hw & ->).
    cbn [keys map fst] in Hnd. inversion Hnd as [|? ? Hni Hnd']; subst.
    rewrite (IH _ H Hnd'). cbn [dict_get].
    destruct (String.eqb_spec k name) as [->|Hne].
    + rewrite (dict_get_not_in _ _ Hni), Hw, !dict_get_set_eq.
      cbn [dict_get]. now rewrite String.eqb_refl.
    + destruct (dict_get k rest); [reflexivity|].
      apply dict_get_set_ne. congruence.
Qed.

(** X21.  When the attribute converter returns, the IR attributes are the
    attributes it was given, value for value: a name that is not in the
    map is not set, an int, a float and a string are stored unchanged, and
    a list of ints is stored as that list. *)
Theorem caffe_attr_to_ir_attr_keeps_values (am : attribute_map) (attr : IrAttr) :
  caffe_attr_to_ir_attr am = Ok attr ->
  NoDup (keys am) ->
  forall k,
    (dict_get k am = None -> dict_get k attr = None) /\
    (forall z, dict_get k am = Some (PInt z) -> dict_get k attr = Some (IrInt z)) /\
    (forall f, dict_get k am = Some (PFloat f) -> dict_get k attr = Some (IrFloat f)) /\
    (forall s, dict_get k am = Some (PStr s) -> dict_get k attr = Some (IrStr s)) /\
    (forall z l, dict_get k am = Some (int_list (z :: l)) ->
                 dict_get k attr = Some (IrInts (z :: l))).
Proof.
  unfold caffe_attr_to_ir_attr. intros H Hnd k.
  rewrite (@convert_attrs_get am [] attr k H Hnd).
  repeat split.
  - now intros ->.
  - intros z ->. cbn [convert_attr dict_set dict_get]. now rewrite String.eqb_refl.
  - intros f ->. cbn [convert_attr dict_set dict_get]. now rewrite String.eqb_refl.
  - intros s ->. cbn [convert_attr dict_set dict_get]. now rewrite String.eqb_refl.
  - intros z l ->. unfold int_list, convert_attr.
    cbn [map index nth_error bind]. 
    change (EInt z :: map EInt l) with (map EInt (z :: l)).
    rewrite mapM_py_int_ints. cbn [bind dict_set dict_get].
    now rewrite String.eqb_refl.
Qed.

Lemma caffe_attr_to_ir_attr_keeps_values_witness :
  exists attr,
    caffe_attr_to_ir_attr (extractCaffeAttrInfo conv_7x7_s2_p3) = Ok attr /\
    dict_get "strides" attr = Some (IrInts [2; 2]) /\
    dict_get "group" attr = Some (IrInt 1) /\
    dict_get "axis" attr = None.
Proof.
  eexists. split; [vm_compute; reflexivity|].
  assert (Hnd : NoDup (keys (extractCaffeAttrInfo conv_7x7_s2_p3))).
  { vm_compute. repeat constructor; cbn; intuition discriminate. }
  destruct (@caffe_attr_to_ir_attr_keeps_values
              (extractCaffeAttrInfo conv_7x7_s2_p3) _ eq_refl Hnd "strides")
    as (_ & _ & _ & _ & H5).
  destruct (@caffe_attr_to_ir_attr_keeps_values
              (extractCaffeAttrInfo conv_7x7_s2_p3) _ eq_refl Hnd "group")
    as (_ & H2 & _).
  destruct (@caffe_attr_to_ir_attr_keeps_values
              (extractCaffeAttrInfo conv_7x7_s2_p3) _ eq_refl Hnd "axis")
    as (H1 & _).
  split; [exact (H5 2 [2] eq_refl)|]. split; [exact (H2 1 eq_refl)|exact (H1 eq_refl)].
Defined.

(** ** The label input of a Softmax *)

Lemma previous_layer_count (st : PassState) (prev : LayerInfo) :
  previous_layer st = Ok prev -> (count st =? 0)%nat = false.
Proof.
  unfold previous_layer, count.
  destruct (inputOutputMap st); [discriminate|reflexivity].
Qed.

(** X22.  A Softmax or SoftmaxWithLoss layer whose first input is an output
    of the record before it and whose second input (the label of a
    training model) is known to none of the tables: the second input and
    all inputs after it are left out, without an error, and the layer is
    emitted as one [softmax] node on its first input alone. *)
Theorem softmax_label_is_dropped (n : nat) (inputsInfo : dict dims)
    (lp : LayerParameter) (next : option LayerParameter) (st : PassState)
    (prev : LayerInfo) (b label : string) (more : list string) (d0 d1 d2 d3 : Z) :
  lp_type lp = "Softmax" \/ lp_type lp = "SoftmaxWithLoss" ->
  lp_bottom lp = b :: label :: more ->
  previous_layer st = Ok prev ->
  let src := alias_chain st (caffe_name_to_ir_name b) in
  let unknown := alias_chain st (caffe_name_to_ir_name label) in
  dict_get src (info_outputs prev) = Some [d0; d1; d2; d3] ->
  dict_get unknown (info_outputs prev) = None ->
  dict_get unknown (outputsMap st) = None ->
  dict_get unknown (inputsMap st) = None ->
  dict_get unknown (dropoutLayerMap st) = None ->
  dict_get unknown (splitLayerMap st) = None ->
  exists st',
    process_layer n inputsInfo lp next st = Ok st' /\
    graph_nodes (graph st')
    = (graph_nodes (graph st)
       ++ [mkIrNode "softmax" [caffe_name_to_ir_name src]
                    [caffe_name_to_ir_name (lp_name lp)] []])%list /\
    exists info,
      previous_layer st' = Ok info /\
      info_inputs info = [(src, [d0; d1; d2; d3])] /\
      info_outputs info = [(caffe_name_to_ir_name (lp_name lp), [d0; d1; d2; d3])].
Proof.
  intros Ht Hb Hp src unknown Hs H1 H2 H3 H4 H5.
  assert (Hsm : ((lp_type lp =? "Softmax") || (lp_type lp =? "SoftmaxWithLoss"))%string
                = true).
  { destruct Ht as [-> | ->]; reflexivity. }
  assert (Hr : process_layer n inputsInfo lp next st
               = record_layer inputsInfo lp next (Some "softmax") st).
  { unfold process_layer, resolve_type. destruct Ht as [-> | ->]; reflexivity. }
  assert (Ha : extractCaffeAttrInfo lp = []).
  { unfold extractCaffeAttrInfo. destruct Ht as [-> | ->]; reflexivity. }
  assert (Hi : resolve_inputs inputsInfo lp st = Ok [(src, [d0; d1; d2; d3])]).
  { unfold resolve_inputs. rewrite (previous_layer_count _ Hp), Hb.
    cbn [later_layer_inputs]. rewrite Hp. cbn [bind].
    fold src. rewrite Hs. fold unknown. rewrite H1, H2, H3, H4, H5, Hsm.
    reflexivity. }
  assert (Hrun : exists st', record_layer inputsInfo lp next (Some "softmax") st = Ok st'
            /\ st' = mkPassState
                 (inputOutputMap st
                  ++ [mkLayerInfo (caffe_name_to_ir_name (lp_name lp)) (Some "softmax")
                        [] [(src, [d0; d1; d2; d3])]
                        [(caffe_name_to_ir_name (lp_name lp), [d0; d1; d2; d3])]
                        None None None None])%list
                 (dropoutLayerMap st) (splitLayerMap st)
                 (renamed_output (caffe_name_to_ir_name (lp_name lp)) (lp_top lp)
                                 (outputNameAliasMap st))
                 (dict_update (inputsMap st) [(src, [d0; d1; d2; d3])])
                 (dict_update (outputsMap st)
                    [(caffe_name_to_ir_name (lp_name lp), [d0; d1; d2; d3])])
                 (addNode
                    (mkIrNode "softmax" [caffe_name_to_ir_name src]
                       [caffe_name_to_ir_name (caffe_name_to_ir_name (lp_name lp))] [])
                    (extractBinary lp (graph st)))).
  { eexists. split.
    - eapply record_layer_run.
      + destruct Ht as [-> | ->]; reflexivity.
      + exact Hi.
      + rewrite Ha. unfold calculateTensorDims.
        destruct Ht as [-> | ->];
          cbn [String.eqb Ascii.eqb Bool.eqb orb];
          rewrite first_input_cons; reflexivity.
      + reflexivity.
      + reflexivity.
      + reflexivity.
    - reflexivity. }
  destruct Hrun as (st' & Hrun & Hst). exists st'. rewrite Hr.
  split; [exact Hrun|]. subst st'. cbn [graph addNode graph_nodes inputOutputMap].
  rewrite extractBinary_nodes, canon_idempotent. split; [reflexivity|].
  eexists. split; [eapply previous_layer_app; reflexivity|].
  split; reflexivity.
Qed.

Lemma softmax_label_is_dropped_witness :
  exists st',
    process_layer 3 sample_inputs softmax_loss_layer None after_conv = Ok st' /\
    graph_nodes (graph st')
    = (graph_nodes (graph after_conv)
       ++ [mkIrNode "softmax" ["conv1"] ["loss"] []])%list.
Proof.
  destruct (@softmax_label_is_dropped 3 sample_inputs softmax_loss_layer None
              after_conv _ "conv1" "label" [] 1 64 112 112
              (or_intror eq_refl) eq_refl eq_refl eq_refl eq_refl eq_refl
              eq_refl eq_refl eq_refl) as (st' & H1 & H2 & _).
  exists st'. split; [exact H1|exact H2].
Defined.
